(** * Search orchestrator, credential pool, quality score and capture gate

    A shallow embedding of the Python services
    [services/real_search_orchestrator.py], [services/alibaba_websailor.py],
    [services/visual_content_capture.py] and
    [services/massive_data_collector.py].

    Python dictionaries that the code keys by provider name are finite maps
    ([gmap string _]); JSON-like records travelling between the adapters are
    association lists of dynamically typed values; exceptions are explicit
    ([result]); everything outside the process (HTTP endpoints, the clock,
    the browser, the file system) is an explicit oracle or an explicit
    store.  Message strings are spelt without diacritics, and [str_exn]
    gives the interpreter's message text up to the class name of the object
    involved. *)

From Stdlib Require Import ZArith QArith String Ascii List Lia Permutation.
From stdpp Require Import gmap strings list fin_maps pretty.

Local Open Scope string_scope.
Local Open Scope Z_scope.

(** ** Exceptions and fallible computations *)

Module Py.

(** The exception classes the modelled code can meet.  [ImportError],
    [NameError], [AttributeError], [TypeError], [KeyError], [IndexError] are
    raised by the interpreter itself; [FileNotFoundError] and
    [TimeoutException] are the two classes some handler singles out;
    [OtherException] stands for whatever else a network, browser or storage
    call raises.  All of them derive from [Exception], which is what the
    catch-all handlers in the source catch. *)
Inductive exn : Type :=
| ImportError (msg : string)
| NameError (name : string)
| AttributeError (attr : string)
| TypeError (msg : string)
| KeyError (key : string)
| IndexError
| FileNotFoundError (msg : string)
| TimeoutException
| OtherException (msg : string).

(** [str(e)] as used in the [{'success': False, 'error': str(e)}] values. *)
Definition str_exn (e : exn) : string :=
  match e with
  | ImportError m => m
  | NameError n => "name '" ++ n ++ "' is not defined"
  | AttributeError a => "object has no attribute '" ++ a ++ "'"
  | TypeError m => m
  | KeyError k => "'" ++ k ++ "'"
  | IndexError => "list index out of range"
  | FileNotFoundError m => m
  | TimeoutException => "Message: timeout"
  | OtherException m => m
  end.

Inductive result (A : Type) : Type :=
| Ok (a : A)
| Raise (e : exn).
Arguments Ok {A} a.
Arguments Raise {A} e.

#[global] Instance result_ret : MRet result := fun A a => Ok a.
#[global] Instance result_bind : MBind result := fun A B k c =>
  match c with
  | Ok a => k a
  | Raise e => Raise e
  end.

Definition is_ok {A} (c : result A) : bool :=
  match c with Ok _ => true | Raise _ => false end.

(** [l[i]] on a Python list: negative indices count from the end, anything
    outside [-len, len) raises [IndexError] (here: [None]). *)
Definition getitem {A} (l : list A) (i : Z) : option A :=
  let n := Z.of_nat (length l) in
  if decide (0 <= i < n) then l !! Z.to_nat i
  else if decide (- n <= i < 0) then l !! Z.to_nat (n + i)
  else None.

End Py.

Import Py.

(** ** Credential pool ([RealSearchOrchestrator.__init__], [get_next_api_key]) *)

(** [self.session_stats]; only the counters the modelled methods touch carry
    state, the others are constant zero in the modelled code paths. *)
Record session_stats : Type := {
  api_rotations : gmap string Z;
  screenshots_captured_count : Z
}.

Record orchestrator : Type := {
  api_keys : gmap string (list string);
  key_indices : gmap string Z;
  stats : session_stats
}.

(** [__init__]: [key_indices = {provider: 0 for provider in api_keys}]. *)
Definition init (keys : gmap string (list string)) : orchestrator :=
  {| api_keys := keys;
     key_indices := (fun _ => 0) <$> keys;
     stats := {| api_rotations := ∅; screenshots_captured_count := 0 |} |}.

Definition bump_rotation (provider : string) (st : session_stats) : session_stats :=
  let rot := api_rotations st in
  let rot := match rot !! provider with
             | None => <[provider := 0]> rot
             | Some _ => rot
             end in
  {| api_rotations := <[provider := default 0 (rot !! provider) + 1]> rot;
     screenshots_captured_count := screenshots_captured_count st |}.

Definition get_next_api_key (self : orchestrator) (provider : string)
  : result (option string) * orchestrator :=
  match api_keys self !! provider with
  | None => (Ok None, self)
  | Some [] => (Ok None, self)
  | Some keys =>
    match key_indices self !! provider with
    | None => (Raise (KeyError provider), self)
    | Some current_index =>
      match getitem keys current_index with
      | None => (Raise IndexError, self)
      | Some key =>
        (Ok (Some key),
         {| api_keys := api_keys self;
            key_indices :=
              <[provider := (current_index + 1) `mod` Z.of_nat (length keys)]>
                (key_indices self);
            stats := bump_rotation provider (stats self) |})
      end
    end
  end.

(** [n] consecutive calls for the same provider, results in call order. *)
Fixpoint get_next_api_key_n (self : orchestrator) (provider : string) (n : nat)
  : list (result (option string)) * orchestrator :=
  match n with
  | O => ([], self)
  | S n' =>
    let '(r, self1) := get_next_api_key self provider in
    let '(rs, self2) := get_next_api_key_n self1 provider n' in
    (r :: rs, self2)
  end.

(** Any sequence of calls, for arbitrary providers. *)
Fixpoint run_calls (self : orchestrator) (providers : list string) : orchestrator :=
  match providers with
  | [] => self
  | p :: ps => run_calls (snd (get_next_api_key self p)) ps
  end.

(** The data-model invariant: every non-empty pool has a cursor inside it. *)
Definition cursors_in_range (self : orchestrator) : Prop :=
  forall provider keys,
    api_keys self !! provider = Some keys -> keys <> [] ->
    exists c, key_indices self !! provider = Some c /\
              0 <= c < Z.of_nat (length keys).

(** A pool configuration used in the examples. *)
Definition sample_pools : gmap string (list string) :=
  {[ "GOOGLE" := ["g-key-0"; "g-key-1"; "g-key-2"]; "SERPER" := ["s-key-0"] ]}.

(** ** Dynamically typed values

    JSON-like data: what the providers send back and what the adapters build
    from it.  A [dict] keeps insertion order, like a Python [dict]. *)

#[warnings="-register-all"] Inductive value : Type :=
| VNone
| VBool (b : bool)
| VInt (z : Z)
| VFloat (q : Q)
| VStr (s : string)
| VList (l : list value)
| VDict (d : list (string * value)).

Abbreviation dict := (list (string * value)).

(** [d.get(k)] as an option; [None] is "key absent". *)
Fixpoint dget (k : string) (d : dict) : option value :=
  match d with
  | [] => None
  | (k', v) :: d' => if String.eqb k k' then Some v else dget k d'
  end.

(** [d.get(k, dflt)]. *)
Definition dget_default (k : string) (dflt : value) (d : dict) : value :=
  default dflt (dget k d).

(** [d[k] = v]: overwrite in place, or append a new key. *)
Fixpoint dset (k : string) (v : value) (d : dict) : dict :=
  match d with
  | [] => [(k, v)]
  | (k', v') :: d' =>
    if String.eqb k k' then (k, v) :: d' else (k', v') :: dset k v d'
  end.

(** [d[k]], raising [KeyError]. *)
Definition dindex (k : string) (d : dict) : result value :=
  match dget k d with
  | Some v => Ok v
  | None => Raise (KeyError k)
  end.

(** [bool(v)]. *)
Definition truthy (v : value) : bool :=
  match v with
  | VNone => false
  | VBool b => b
  | VInt z => negb (z =? 0)
  | VFloat q => negb (Qeq_bool q 0)
  | VStr s => negb (String.eqb s "")
  | VList l => match l with [] => false | _ => true end
  | VDict d => match d with [] => false | _ => true end
  end.

(** [v.get(k, dflt)] on an arbitrary value: only dictionaries have [get]. *)
Definition vget_default (k : string) (dflt : value) (v : value) : result value :=
  match v with
  | VDict d => Ok (dget_default k dflt d)
  | _ => Raise (AttributeError "get")
  end.

(** [v.get(k)]. *)
Definition vget (k : string) (v : value) : result value := vget_default k VNone v.

(** The numeric reading of a value ([bool] is a subclass of [int]). *)
Definition as_number (v : value) : option Q :=
  match v with
  | VBool b => Some (inject_Z (if b then 1 else 0))
  | VInt z => Some (inject_Z z)
  | VFloat q => Some q
  | _ => None
  end.

(** [v >= threshold] against an integer threshold. *)
Definition ge_int (v : value) (threshold : Z) : result bool :=
  match as_number v with
  | Some q => Ok (Qle_bool (inject_Z threshold) q)
  | None => Raise (TypeError "'>=' not supported between these instances")
  end.

(** [for x in v]: the elements a [for] loop or [extend] sees. *)
Definition iter_value (v : value) : result (list value) :=
  match v with
  | VList l => Ok l
  | VDict d => Ok ((fun kv => VStr (fst kv)) <$> d)
  | VStr s => Ok ((fun c => VStr (String c EmptyString)) <$> list_ascii_of_string s)
  | _ => Raise (TypeError "object is not iterable")
  end.

(** [len(v)]. *)
Definition py_len (v : value) : result Z :=
  match v with
  | VList l => Ok (Z.of_nat (length l))
  | VDict d => Ok (Z.of_nat (length d))
  | VStr s => Ok (Z.of_nat (String.length s))
  | _ => Raise (TypeError "object has no len()")
  end.

(** ** Strings

    A Python [str] is modelled as a [string] with one [ascii] per character
    (code points up to 255). *)

Definition lower_char (c : ascii) : ascii :=
  let n := nat_of_ascii c in
  if ((65 <=? n) && (n <=? 90))%nat
     || ((192 <=? n) && (n <=? 222) && negb (n =? 215))%nat
  then ascii_of_nat (n + 32)
  else c.

(** [s.lower()]. *)
Fixpoint lower (s : string) : string :=
  match s with
  | EmptyString => EmptyString
  | String c s' => String (lower_char c) (lower s')
  end.

(** [needle in hay] for strings: substring test. *)
Fixpoint contains (needle hay : string) : bool :=
  if String.prefix needle hay then true
  else match hay with
       | EmptyString => false
       | String _ hay' => contains needle hay'
       end.

(** [any(domain in host for domain in domains)]. *)
Definition any_domain_in (domains : list string) (host : string) : bool :=
  existsb (fun domain => contains domain host) domains.

(** The part of [urllib.parse.urlparse(url).netloc] that the examples need:
    an optional [scheme:], then [//], then the authority up to the first of
    [/], [?], [#].  The library's stripping of control characters and its
    bracket checks are not modelled; the scoring function below takes the
    netloc function as an argument. *)
Definition is_scheme_char (c : ascii) : bool :=
  let n := nat_of_ascii c in
  (((97 <=? n) && (n <=? 122)) || ((65 <=? n) && (n <=? 90))
   || ((48 <=? n) && (n <=? 57)) || (n =? 43) || (n =? 45) || (n =? 46))%nat.

Definition is_ascii_alpha (c : ascii) : bool :=
  let n := nat_of_ascii c in
  (((97 <=? n) && (n <=? 122)) || ((65 <=? n) && (n <=? 90)))%nat.

Fixpoint split_scheme (acc_ok : bool) (s : string) : option string :=
  match s with
  | EmptyString => None
  | String c s' =>
    if Ascii.eqb c ":" then (if acc_ok then Some s' else None)
    else split_scheme (acc_ok && is_scheme_char c) s'
  end.

Definition after_scheme (url : string) : string :=
  match url with
  | EmptyString => url
  | String c _ =>
    if Ascii.eqb c ":" then url
    else match split_scheme (is_ascii_alpha c) url with
         | Some rest => rest
         | None => url
         end
  end.

Fixpoint until_delim (s : string) : string :=
  match s with
  | EmptyString => EmptyString
  | String c s' =>
    if Ascii.eqb c "/" || Ascii.eqb c "?" || Ascii.eqb c "#" then EmptyString
    else String c (until_delim s')
  end.

Definition urlparse_netloc (url : string) : string :=
  match after_scheme url with
  | String "/" (String "/" rest) => until_delim rest
  | _ => EmptyString
  end.

(** ** Content quality score ([AlibabaWebSailorAgent._calculate_content_quality]) *)

(** The fields of the agent that the modelled methods read. *)
Record websailor_agent : Type := {
  enabled : bool;
  preferred_domains : list string;
  blocked_domains : list string
}.

(** [AlibabaWebSailorAgent.__init__]. *)
Definition AlibabaWebSailorAgent_init : websailor_agent :=
  {| enabled := true;
     preferred_domains :=
       ["g1.globo.com"; "exame.com"; "valor.globo.com"; "estadao.com.br";
        "folha.uol.com.br"; "canaltech.com.br"; "tecmundo.com.br";
        "olhardigital.com.br"; "infomoney.com.br"; "startse.com";
        "revistapegn.globo.com"; "epocanegocios.globo.com"; "istoedinheiro.com.br";
        "convergenciadigital.com.br"; "mobiletime.com.br"; "teletime.com.br";
        "portaltelemedicina.com.br"; "saudedigitalbrasil.com.br"; "amb.org.br";
        "portal.cfm.org.br"; "scielo.br"; "ibge.gov.br"; "fiocruz.br"];
     blocked_domains := ["airbnb.com"] |}.

(** The loop [for keyword in query_keywords: if keyword.lower() in
    content.lower(): score += 5].  A keyword that is not a string has no
    [lower] method. *)
Fixpoint add_keyword_points (content : string) (keywords : list value) (score : Z)
  : result Z :=
  match keywords with
  | [] => Ok score
  | VStr keyword :: rest =>
    add_keyword_points content rest
      (if contains (lower keyword) (lower content) then score + 5 else score)
  | _ :: _ => Raise (AttributeError "lower")
  end.

(** The score is a Python float that only ever holds small integers
    ([0.0], then [+= 40 | 20 | 10 | 5 | 20], [-= 30]), on which float
    arithmetic is exact; it is modelled as an integer.  [netloc] is
    [lambda url: urlparse(url).netloc]. *)
Definition _calculate_content_quality (netloc : string -> string)
    (self : websailor_agent) (content url : string) (context : dict) : result Z :=
  let score := 0 in
  let length := Z.of_nat (String.length content) in
  let score :=
    if length >? 1000 then score + 40
    else if length >? 500 then score + 20
    else if length >? 100 then score + 10
    else score in
  let query_keywords := dget_default "keywords" (VList []) context in
  score ←
    (if truthy query_keywords then
       keywords ← iter_value query_keywords;
       add_keyword_points content keywords score
     else Ok score);
  let score :=
    if any_domain_in (preferred_domains self) (lower (netloc url))
    then score + 20 else score in
  let score :=
    if any_domain_in (blocked_domains self) (lower (netloc url))
    then score - 30 else score in
  Ok (Z.min 100 (Z.max 0 score)).

(** The heuristic in the words of the specification, to compare with. *)
Definition spec_length_band (length : Z) : Z :=
  if length >? 1000 then 40
  else if length >? 500 then 20
  else if length >? 100 then 10
  else 0.

Definition spec_keyword_matches (content : string) (keywords : list string) : Z :=
  Z.of_nat (length (filter (fun keyword => contains (lower keyword) (lower content) = true)
                           keywords)).

Definition spec_clamp (score : Z) : Z :=
  if score <? 0 then 0 else if score >? 100 then 100 else score.

Definition spec_quality_score (netloc : string -> string) (self : websailor_agent)
    (content url : string) (keywords : list string) : Z :=
  spec_clamp
    (spec_length_band (Z.of_nat (String.length content))
     + 5 * spec_keyword_matches content keywords
     + (if any_domain_in (preferred_domains self) (lower (netloc url)) then 20 else 0)
     - (if any_domain_in (blocked_domains self) (lower (netloc url)) then 30 else 0)).

(** A context whose ["keywords"] entry is the given list of strings. *)
Definition context_with_keywords (keywords : list string) (others : dict) : dict :=
  dset "keywords" (VList (VStr <$> keywords)) others.

(** ** Virality classifier ([RealSearchOrchestrator._identify_viral_content]) *)

Definition viral_threshold_likes : Z := 1000.
Definition viral_threshold_comments : Z := 100.
Definition viral_threshold_shares : Z := 50.

(** The condition of the [if] in the loop body, on the three values read
    from the item; Python's [or] does not evaluate its right operand when the
    left one is true. *)
Definition viral_of (likes comments shares : value) : result bool :=
  b ← ge_int likes viral_threshold_likes;
  if b : bool then Ok true else
  b ← ge_int comments viral_threshold_comments;
  if b : bool then Ok true else
  ge_int shares viral_threshold_shares.

Definition is_viral (item : dict) : result bool :=
  let likes := dget_default "likes" (VInt 0) item in
  let comments := dget_default "comments" (VInt 0) item in
  let shares := dget_default "shares" (VInt 0) item in
  viral_of likes comments shares.

Fixpoint _identify_viral_content (social_media_results : list dict)
  : result (list dict) :=
  match social_media_results with
  | [] => Ok []
  | item :: rest =>
    b ← is_viral item;
    viral_content ← _identify_viral_content rest;
    Ok (if b : bool then item :: viral_content else viral_content)
  end.

(** A social post used in the examples. *)
Definition sample_post : dict :=
  [("title", VStr "launch"); ("url", VStr "https://social.example/p/1");
   ("likes", VInt 1500); ("comments", VInt 10); ("shares", VInt 0)].

(** ** The world outside the process *)

Record response : Type := {
  status : Z;
  json : result value;      (* [await response.json()] *)
  text : result string      (* [await response.text()] *)
}.

Record request : Type := {
  verb : string;
  endpoint : string;
  credential : string;
  payload : dict
}.

(** What the standard [re] module computes for the two patterns of
    [_extract_search_results_from_content]. *)
Record re_module : Type := {
  findall_links : string -> list (string * string);
  findall_urls : string -> list string
}.

(** The object a name imported from [services.alibaba_websailor] would be
    bound to, as far as [_search_alibaba_websailor] looks at it. *)
Record websailor_object : Type := {
  wo_truthy : bool;
  wo_enabled : result bool;
  wo_navigate_and_research_deep : string -> dict -> result value
}.

Record world : Type := {
  net : request -> result response;
  getenv : string -> option string;
  quote_plus : string -> string;
  now_isoformat : string;
  elapsed : Q;
  str_of : value -> string;
  regex : re_module;
  websailor : websailor_object;
  capture_screenshot_async_impl : value -> string -> result value;
  engine_analyze_session_data : string -> result value;
  salvar_etapa : string -> result unit;
  salvar_erro : string -> exn -> result unit
}.

(** The top-level names of the modules involved.  Importing a module of the
    repository is modelled as succeeding; [from m import n] and the use of a
    global name then look the name up in these lists. *)
Record modules : Type := {
  websailor_module_names : list string;
  orchestrator_module_globals : list string;
  visual_capture_module_names : list string;
  visual_content_capture_attributes : list string
}.

Definition repository : modules :=
  {| websailor_module_names :=
       ["os"; "logging"; "time"; "requests"; "json"; "random";
        "Dict"; "List"; "Optional"; "Any";
        "quote_plus"; "urljoin"; "urlparse"; "BeautifulSoup"; "datetime"; "re";
        "ThreadPoolExecutor"; "as_completed";
        "salvar_etapa"; "salvar_erro"; "salvar_trecho_pesquisa_web";
        "predictive_analytics_service"; "visual_content_capture";
        "exa_client"; "extract_content_with_exa"; "HAS_EXA"; "logger";
        "AlibabaWebSailorAgent"; "alibaba_websailor_agent"];
     orchestrator_module_globals :=
       ["os"; "logging"; "asyncio"; "aiohttp"; "time";
        "Dict"; "List"; "Any"; "Optional"; "datetime"; "ThreadPoolExecutor";
        "quote_plus"; "json"; "predictive_analytics_service"; "logger";
        "RealSearchOrchestrator"; "real_search_orchestrator"];
     visual_capture_module_names :=
       ["os"; "logging"; "time"; "Dict"; "Any"; "datetime"; "Path";
        "webdriver"; "Options"; "Service"; "By"; "WebDriverWait"; "EC";
        "TimeoutException"; "WebDriverException"; "ChromeDriverManager";
        "logger"; "VisualContentCapture"; "visual_content_capture"];
     visual_content_capture_attributes :=
       ["driver"; "wait_timeout"; "page_load_timeout";
        "__init__"; "_setup_driver"; "_create_session_directory";
        "capture_screenshot"; "cleanup_old_screenshots"] |}.

(** [from module import name]. *)
Definition import_from {A} (module_names : list string) (name : string) (obj : A)
  : result A :=
  if bool_decide (name ∈ module_names) then Ok obj
  else Raise (ImportError ("cannot import name '" ++ name ++ "'")).

(** Evaluating a global name inside a function body. *)
Definition global_name {A} (module_globals : list string) (name : string) (obj : A)
  : result A :=
  if bool_decide (name ∈ module_globals) then Ok obj
  else Raise (NameError name).

(** [obj.attr]. *)
Definition getattr {A} (attributes : list string) (attr : string) (obj : A)
  : result A :=
  if bool_decide (attr ∈ attributes) then Ok obj
  else Raise (AttributeError attr).

(** ** Provider adapters *)

(** The dictionaries the adapters return:
    [{'success', 'provider', 'platform', 'results', 'error', 'raw_*'}], a
    missing key being [None]. *)
Record provider_result : Type := {
  success : bool;
  provider : option string;
  platform : option string;
  results : option (list dict);
  error : option string;
  raw : option value
}.

Definition failure (msg : string) : provider_result :=
  {| success := false; provider := None; platform := None; results := None;
     error := Some msg; raw := None |}.

Definition succeeded (name : string) (plat : option string) (items : list dict)
    (raw_data : option value) : provider_result :=
  {| success := true; provider := Some name; platform := plat;
     results := Some items; error := None; raw := raw_data |}.

(** [try: body except Exception as e: return {'success': False, 'error': str(e)}]. *)
Definition catch_all (body : result provider_result) : provider_result :=
  match body with
  | Ok r => r
  | Raise e => failure (str_exn e)
  end.

(** [if not api_key]: [None] and the empty string are both falsy. *)
Definition usable_key (api_key : option string) : option string :=
  match api_key with
  | Some k => if String.eqb k "" then None else Some k
  | None => None
  end.

Definition service_url (name : string) : string :=
  if String.eqb name "FIRECRAWL" then "https://api.firecrawl.dev/v0/scrape"
  else if String.eqb name "JINA" then "https://r.jina.ai/"
  else if String.eqb name "GOOGLE" then "https://www.googleapis.com/customsearch/v1"
  else if String.eqb name "EXA" then "https://api.exa.ai/search"
  else if String.eqb name "SERPER" then "https://google.serper.dev/search"
  else if String.eqb name "YOUTUBE" then "https://www.googleapis.com/youtube/v3/search"
  else "".

Section adapters.
Variable m : modules.
Variable w : world.

Definition _extract_search_results_from_content (content : value) (source : string)
  : result (list dict) :=
  re ← global_name (orchestrator_module_globals m) "re" (regex w);
  match content with
  | VStr content =>
    let links := findall_links re content in
    let results :=
      (fun '(title, url) =>
         [("title", VStr title); ("url", VStr url); ("snippet", VStr "");
          ("source", VStr source)]) <$> links in
    match results with
    | [] =>
      let urls := findall_urls re content in
      let snippet :=
        if (200 <? Z.of_nat (String.length content))
        then String.substring 0 200 content ++ "..." else content in
      Ok ((fun url =>
             [("title", VStr ("Conteudo de " ++ url)); ("url", VStr url);
              ("snippet", VStr snippet); ("source", VStr source)]) <$> urls)
    | _ => Ok results
    end
  | _ => Raise (TypeError "expected string or bytes-like object")
  end.

Definition _search_alibaba_websailor (query : string) (context : dict)
  : provider_result :=
  match
    alibaba_websailor ←
      import_from (websailor_module_names m) "alibaba_websailor" (websailor w);
    is_enabled ←
      (if wo_truthy alibaba_websailor then wo_enabled alibaba_websailor
       else Ok false);
    if negb is_enabled then Ok (failure "Alibaba WebSailor nao habilitado")
    else
      research_result ←
        wo_navigate_and_research_deep alibaba_websailor query context;
      consolidated ←
        (if truthy research_result then vget "conteudo_consolidado" research_result
         else Ok VNone);
      if negb (truthy consolidated)
      then Ok (failure "Nenhum resultado da pesquisa WebSailor")
      else
        consolidado ← vget_default "conteudo_consolidado" (VDict []) research_result;
        fontes ← vget_default "fontes_detalhadas" (VList []) consolidado;
        fontes_detalhadas ← iter_value fontes;
        results ←
          mapM (fun fonte =>
                  title ← vget_default "title" (VStr "") fonte;
                  url ← vget_default "url" (VStr "") fonte;
                  score ← vget_default "quality_score" (VFloat (7 # 10)) fonte;
                  size ← vget_default "content_length" (VInt 0) fonte;
                  Ok [("title", title); ("url", url); ("snippet", VStr "");
                      ("source", VStr "alibaba_websailor");
                      ("relevance_score", score); ("content_length", size)])
               fontes_detalhadas;
        Ok (succeeded "ALIBABA_WEBSAILOR" None results (Some research_result))
  with
  | Ok r => r
  | Raise (ImportError _) => failure "Alibaba WebSailor nao disponivel"
  | Raise e => failure (str_exn e)
  end.
End adapters.

(** [v[k]] with a string subscript. *)
Definition vindex (k : string) (v : value) : result value :=
  match v with
  | VDict d => dindex k d
  | VList _ => Raise (TypeError "list indices must be integers or slices, not str")
  | VStr _ => Raise (TypeError "string indices must be integers, not 'str'")
  | _ => Raise (TypeError "object is not subscriptable")
  end.

(** [v[:n]]. *)
Definition slice_prefix (n : nat) (v : value) : result value :=
  match v with
  | VStr s => Ok (VStr (String.substring 0 n s))
  | VList l => Ok (VList (take n l))
  | _ => Raise (TypeError "object is not subscriptable")
  end.

(** [f"{v}"]: a string formats as itself, anything else as the
    interpreter prints it. *)
Definition format_value (str_of : value -> string) (v : value) : string :=
  match v with
  | VStr s => s
  | _ => str_of v
  end.

Section stateful_adapters.
Variable m : modules.
Variable w : world.

Definition _search_firecrawl (self : orchestrator) (query : string)
  : provider_result * orchestrator :=
  let '(api_key, self) := get_next_api_key self "FIRECRAWL" in
  (catch_all
     (api_key ← api_key;
      match usable_key api_key with
      | None => Ok (failure "Firecrawl API key nao disponivel")
      | Some api_key =>
        let search_url :=
          "https://www.google.com/search?q=" ++ quote_plus w query ++ "&hl=pt-BR&gl=BR" in
        response ←
          net w {| verb := "POST"; endpoint := service_url "FIRECRAWL";
                   credential := api_key;
                   payload :=
                     [("url", VStr search_url);
                      ("formats", VList [VStr "markdown"; VStr "html"]);
                      ("onlyMainContent", VBool true);
                      ("includeTags",
                       VList [VStr "p"; VStr "h1"; VStr "h2"; VStr "h3"; VStr "article"]);
                      ("excludeTags",
                       VList [VStr "nav"; VStr "footer"; VStr "aside"; VStr "script"]);
                      ("waitFor", VInt 3000)] |};
        if status response =? 200 then
          data ← json response;
          inner ← vget_default "data" (VDict []) data;
          content ← vget_default "markdown" (VStr "") inner;
          results ← _extract_search_results_from_content m w content "firecrawl";
          raw_content ← slice_prefix 2000 content;
          Ok (succeeded "FIRECRAWL" None results (Some raw_content))
        else
          error_text ← text response;
          Ok (failure ("HTTP " ++ pretty (status response)))
      end),
   self).

(** The body of the [for search_url in search_urls] loop of [_search_jina],
    with its own [try ... except Exception: continue]. *)
Fixpoint jina_loop (api_key : string) (search_urls : list string)
    (results : list dict) : list dict :=
  match search_urls with
  | [] => results
  | search_url :: rest =>
    let attempt :=
      response ←
        net w {| verb := "GET"; endpoint := service_url "JINA" ++ search_url;
                 credential := api_key; payload := [] |};
      if status response =? 200 then
        content ← text response;
        extracted_results ←
          _extract_search_results_from_content m w (VStr content) "jina";
        Ok (results ++ extracted_results)%list
      else Ok results in
    jina_loop api_key rest (match attempt with Ok r => r | Raise _ => results end)
  end.

Definition _search_jina (self : orchestrator) (query : string)
  : provider_result * orchestrator :=
  let '(api_key, self) := get_next_api_key self "JINA" in
  (catch_all
     (api_key ← api_key;
      match usable_key api_key with
      | None => Ok (failure "Jina API key nao disponivel")
      | Some api_key =>
        let search_urls :=
          ["https://www.google.com/search?q=" ++ quote_plus w query ++ "&hl=pt-BR";
           "https://www.bing.com/search?q=" ++ quote_plus w query ++ "&cc=br";
           "https://search.yahoo.com/search?p=" ++ quote_plus w query ++ "&ei=UTF-8"] in
        let results := jina_loop api_key search_urls [] in
        Ok (succeeded "JINA" None (take 20 results) None)
      end),
   self).

Definition _search_google (self : orchestrator) (query : string)
  : provider_result * orchestrator :=
  let '(api_key, self) := get_next_api_key self "GOOGLE" in
  (catch_all
     (api_key ← api_key;
      let cx := usable_key (getenv w "GOOGLE_CSE_ID") in
      match usable_key api_key, cx with
      | Some api_key, Some cx =>
        response ←
          net w {| verb := "GET"; endpoint := service_url "GOOGLE";
                   credential := api_key;
                   payload := [("cx", VStr cx); ("q", VStr query); ("num", VInt 10);
                               ("hl", VStr "pt-BR"); ("gl", VStr "BR")] |};
        if status response =? 200 then
          data ← json response;
          items ← vget_default "items" (VList []) data;
          items ← iter_value items;
          results ←
            mapM (fun item =>
                    title ← vget "title" item;
                    link ← vget "link" item;
                    snippet ← vget "snippet" item;
                    Ok [("title", title); ("url", link); ("snippet", snippet);
                        ("source", VStr "google")])
                 items;
          Ok (succeeded "GOOGLE" None results None)
        else
          error_text ← text response;
          Ok (failure ("HTTP " ++ pretty (status response)))
      | _, _ => Ok (failure "Google API key ou CSE ID nao disponivel")
      end),
   self).

Definition _search_exa (self : orchestrator) (query : string)
  : provider_result * orchestrator :=
  let '(api_key, self) := get_next_api_key self "EXA" in
  (catch_all
     (api_key ← api_key;
      match usable_key api_key with
      | None => Ok (failure "Exa API key nao disponivel")
      | Some api_key =>
        response ←
          net w {| verb := "POST"; endpoint := service_url "EXA";
                   credential := api_key;
                   payload := [("query", VStr query); ("num_results", VInt 10);
                               ("type", VStr "search")] |};
        if status response =? 200 then
          data ← json response;
          items ← vget_default "results" (VList []) data;
          items ← iter_value items;
          results ←
            mapM (fun item =>
                    title ← vget "title" item;
                    url ← vget "url" item;
                    snippet ← vget "text" item;
                    Ok [("title", title); ("url", url); ("snippet", snippet);
                        ("source", VStr "exa")])
                 items;
          Ok (succeeded "EXA" None results None)
        else
          error_text ← text response;
          Ok (failure ("HTTP " ++ pretty (status response)))
      end),
   self).

Definition _search_serper (self : orchestrator) (query : string)
  : provider_result * orchestrator :=
  let '(api_key, self) := get_next_api_key self "SERPER" in
  (catch_all
     (api_key ← api_key;
      match usable_key api_key with
      | None => Ok (failure "Serper API key nao disponivel")
      | Some api_key =>
        response ←
          net w {| verb := "POST"; endpoint := service_url "SERPER";
                   credential := api_key;
                   payload := [("q", VStr query); ("gl", VStr "br"); ("hl", VStr "pt")] |};
        if status response =? 200 then
          data ← json response;
          items ← vget_default "organic" (VList []) data;
          items ← iter_value items;
          results ←
            mapM (fun item =>
                    title ← vget "title" item;
                    link ← vget "link" item;
                    snippet ← vget "snippet" item;
                    Ok [("title", title); ("url", link); ("snippet", snippet);
                        ("source", VStr "serper")])
                 items;
          Ok (succeeded "SERPER" None results None)
        else
          error_text ← text response;
          Ok (failure ("HTTP " ++ pretty (status response)))
      end),
   self).

Definition _search_youtube (self : orchestrator) (query : string)
  : provider_result * orchestrator :=
  let '(api_key, self) := get_next_api_key self "YOUTUBE" in
  (catch_all
     (api_key ← api_key;
      match usable_key api_key with
      | None => Ok (failure "YouTube API key nao disponivel")
      | Some api_key =>
        response ←
          net w {| verb := "GET"; endpoint := service_url "YOUTUBE";
                   credential := api_key;
                   payload := [("part", VStr "snippet"); ("q", VStr query);
                               ("type", VStr "video"); ("maxResults", VInt 10);
                               ("regionCode", VStr "BR");
                               ("relevanceLanguage", VStr "pt")] |};
        if status response =? 200 then
          data ← json response;
          items ← vget_default "items" (VList []) data;
          items ← iter_value items;
          results ←
            mapM (fun item =>
                    snippet ← vindex "snippet" item;
                    title ← vindex "title" snippet;
                    id ← vindex "id" item;
                    video_id ← vindex "videoId" id;
                    snippet ← vindex "snippet" item;
                    description ← vindex "description" snippet;
                    snippet ← vindex "snippet" item;
                    published_at ← vindex "publishedAt" snippet;
                    Ok [("title", title);
                        ("url", VStr ("https://www.youtube.com/watch?v="
                                      ++ format_value (str_of w) video_id));
                        ("snippet", description); ("source", VStr "youtube");
                        ("published_at", published_at)])
                 items;
          Ok (succeeded "YOUTUBE" (Some "youtube") results None)
        else
          error_text ← text response;
          Ok (failure ("HTTP " ++ pretty (status response)))
      end),
   self).
End stateful_adapters.

(** ** Search orchestrator ([RealSearchOrchestrator.execute_massive_real_search]) *)

Record search_statistics : Type := {
  total_sources : Z;
  unique_urls : Z;
  content_extracted : Z;
  api_calls_made : Z;
  search_duration : Q
}.

(** The returned [search_results] dictionary: the keys of the literal the
    function starts from, plus ['predictive_insights'], set in phase 6. *)
Record search_results : Type := {
  query : string;
  session_id : string;
  search_started : string;
  providers_used : list string;
  web_results : list dict;
  social_results : list dict;
  youtube_results : list dict;
  viral_content : list dict;
  screenshots_captured : list value;
  statistics : search_statistics;
  predictive_insights : value
}.

(** The same document as the dictionary the caller receives. *)
Definition search_results_as_dict (d : search_results) : dict :=
  [("query", VStr (query d));
   ("session_id", VStr (session_id d));
   ("search_started", VStr (search_started d));
   ("providers_used", VList (VStr <$> providers_used d));
   ("web_results", VList (VDict <$> web_results d));
   ("social_results", VList (VDict <$> social_results d));
   ("youtube_results", VList (VDict <$> youtube_results d));
   ("viral_content", VList (VDict <$> viral_content d));
   ("screenshots_captured", VList (screenshots_captured d));
   ("statistics",
    VDict [("total_sources", VInt (total_sources (statistics d)));
           ("unique_urls", VInt (unique_urls (statistics d)));
           ("content_extracted", VInt (content_extracted (statistics d)));
           ("api_calls_made", VInt (api_calls_made (statistics d)));
           ("search_duration", VFloat (search_duration (statistics d)))]);
   ("predictive_insights", predictive_insights d)].

(** What [set(...)] compares: strings by content, numbers by value
    ([True == 1 == 1.0]); lists and dictionaries are unhashable. *)
Inductive hash_key : Type :=
| HNone
| HNum (num den : Z)
| HStr (s : string).

#[global] Instance hash_key_eq_dec : EqDecision hash_key.
Proof. solve_decision. Defined.

Definition hash_of (v : value) : result hash_key :=
  match v with
  | VNone => Ok HNone
  | VBool b => Ok (HNum (if b then 1 else 0) 1)
  | VInt z => Ok (HNum z 1)
  | VFloat q => Ok (HNum (Qnum (Qred q)) (Zpos (Qden (Qred q))))
  | VStr s => Ok (HStr s)
  | VList _ => Raise (TypeError "unhashable type: 'list'")
  | VDict _ => Raise (TypeError "unhashable type: 'dict'")
  end.

(** [len(list(set(r.get('url', '') for r in all_results if r.get('url'))))]. *)
Definition count_unique_urls (all_results : list dict) : result Z :=
  keys ← mapM (fun r => hash_of (dget_default "url" (VStr "") r))
              (filter (fun r => truthy (dget_default "url" VNone r) = true) all_results);
  Ok (Z.of_nat (length (remove_dups keys))).

(** [sum(len(r.get('content', '')) for r in all_results)]. *)
Definition sum_content_lengths (all_results : list dict) : result Z :=
  sizes ← mapM (fun r => py_len (dget_default "content" (VStr "") r)) all_results;
  Ok (foldr Z.add 0 sizes).

(** [sum(self.session_stats['api_rotations'].values())]. *)
Definition sum_api_rotations (self : orchestrator) : Z :=
  map_fold (fun _ count acc => count + acc) 0 (api_rotations (stats self)).

(** [predictive_analytics_service.analyze_all_data]. *)
Definition analyze_all_data (w : world) (session_id : string) : result value :=
  match
    predictive_analysis_results ← engine_analyze_session_data w session_id;
    _ ← salvar_etapa w "predictive_analysis_results";
    Ok predictive_analysis_results
  with
  | Ok r => Ok r
  | Raise (FileNotFoundError msg) =>
    Ok (VDict [("success", VBool false); ("error", VStr msg)])
  | Raise e =>
    _ ← salvar_erro w "predictive_analysis" e;
    Ok (VDict [("success", VBool false); ("error", VStr (str_exn e))])
  end.

Section orchestrator.
Variable m : modules.
Variable w : world.

(** The loop of [_capture_viral_screenshots]; [item.get('url')] is read
    outside the [try], the capture call inside it. *)
Fixpoint capture_loop (viral_content : list dict) (session_id : string)
    (captured_screenshots : list value) : list value :=
  match viral_content with
  | [] => captured_screenshots
  | item :: rest =>
    let url := dget_default "url" VNone item in
    let captured_screenshots :=
      if truthy url then
        match
          capture_screenshot_async ←
            getattr (visual_content_capture_attributes m)
              "capture_screenshot_async" (capture_screenshot_async_impl w);
          screenshot_path ← capture_screenshot_async url session_id;
          Ok (if truthy screenshot_path
              then (captured_screenshots ++ [screenshot_path])%list
              else captured_screenshots)
        with
        | Ok captured => captured
        | Raise _ => captured_screenshots
        end
      else captured_screenshots in
    capture_loop rest session_id captured_screenshots
  end.

Definition _capture_viral_screenshots (viral_content : list dict)
    (session_id : string) : result (list value) :=
  _ ← import_from (visual_capture_module_names m) "visual_content_capture" tt;
  Ok (capture_loop viral_content session_id []).

(** [asyncio.gather] with [return_exceptions=True]: every task starts by
    taking its credential, in task order; the outcomes come back in task
    order. *)
Fixpoint gather
    (tasks : list (orchestrator -> string -> provider_result * orchestrator))
    (self : orchestrator) (query : string)
  : list (result provider_result) * orchestrator :=
  match tasks with
  | [] => ([], self)
  | task :: rest =>
    let '(r, self) := task self query in
    let '(rs, self) := gather rest self query in
    (Ok r :: rs, self)
  end.

(** The loop over the outcomes of the web wave. *)
Fixpoint merge_web_results (outcomes : list (result provider_result))
    (web_results : list dict) (providers_used : list string)
  : list dict * list string :=
  match outcomes with
  | [] => (web_results, providers_used)
  | Raise _ :: rest => merge_web_results rest web_results providers_used
  | Ok result :: rest =>
    match success result, results result with
    | true, Some (item :: items) =>
      merge_web_results rest
        (web_results ++ item :: items)%list
        (providers_used ++ [default "unknown" (provider result)])%list
    | _, _ => merge_web_results rest web_results providers_used
    end
  end.

(** The loop over the outcomes of the social wave. *)
Fixpoint merge_social_results (outcomes : list (result provider_result))
    (youtube_results social_results : list dict) : list dict * list dict :=
  match outcomes with
  | [] => (youtube_results, social_results)
  | Raise _ :: rest => merge_social_results rest youtube_results social_results
  | Ok result :: rest =>
    if success result then
      if bool_decide (platform result = Some "youtube") then
        merge_social_results rest
          (youtube_results ++ default [] (results result))%list social_results
      else
        merge_social_results rest
          youtube_results (social_results ++ default [] (results result))%list
    else merge_social_results rest youtube_results social_results
  end.

Definition enabled_task (self : orchestrator) (name : string)
    (task : orchestrator -> string -> provider_result * orchestrator)
  : list (orchestrator -> string -> provider_result * orchestrator) :=
  match api_keys self !! name with
  | Some _ => [task]
  | None => []
  end.

(** The [web_tasks] list of phase 2: one task per provider whose name is a
    key of [self.api_keys], in the order of the source. *)
Definition web_tasks (self : orchestrator)
  : list (orchestrator -> string -> provider_result * orchestrator) :=
  (enabled_task self "FIRECRAWL" (_search_firecrawl m w)
   ++ enabled_task self "JINA" (_search_jina m w)
   ++ enabled_task self "GOOGLE" (_search_google w)
   ++ enabled_task self "EXA" (_search_exa w)
   ++ enabled_task self "SERPER" (_search_serper w))%list.

Definition execute_massive_real_search (self : orchestrator) (query : string)
    (context : dict) (session_id : string)
  : result search_results * orchestrator :=
  (* FASE 1 *)
  let websailor_results := _search_alibaba_websailor m w query context in
  match
    (if success websailor_results then
       match results websailor_results with
       | Some found => Ok (found, ["ALIBABA_WEBSAILOR"])
       | None => Raise (KeyError "results")
       end
     else Ok ([], []))
  with
  | Raise e => (Raise e, self)
  | Ok (web_results, providers_used) =>
    (* FASE 2 *)
    let '(web_outcomes, self) := gather (web_tasks self) self query in
    let '(web_results, providers_used) :=
      merge_web_results web_outcomes web_results providers_used in
    (* FASE 3 *)
    let social_tasks := enabled_task self "YOUTUBE" (_search_youtube w) in
    let '(social_outcomes, self) := gather social_tasks self query in
    let '(youtube_results, social_results) :=
      merge_social_results social_outcomes [] [] in
    (* FASE 4 *)
    match _identify_viral_content (youtube_results ++ social_results)%list with
    | Raise e => (Raise e, self)
    | Ok viral_content =>
      (* FASE 5 *)
      match
        (match viral_content with
         | [] => Ok None
         | _ => screenshots ← _capture_viral_screenshots viral_content session_id;
                Ok (Some screenshots)
         end)
      with
      | Raise e => (Raise e, self)
      | Ok captured =>
        let screenshots_captured := default [] captured in
        let self :=
          match captured with
          | Some screenshots =>
            {| api_keys := api_keys self; key_indices := key_indices self;
               stats := {| api_rotations := api_rotations (stats self);
                           screenshots_captured_count :=
                             Z.of_nat (length screenshots) |} |}
          | None => self
          end in
        (* FASE 6 and the final statistics *)
        (predictive_insights ← analyze_all_data w session_id;
         let all_results := (web_results ++ social_results ++ youtube_results)%list in
         unique ← count_unique_urls all_results;
         extracted ← sum_content_lengths all_results;
         Ok {| query := query;
               session_id := session_id;
               search_started := now_isoformat w;
               providers_used := providers_used;
               web_results := web_results;
               social_results := social_results;
               youtube_results := youtube_results;
               viral_content := viral_content;
               screenshots_captured := screenshots_captured;
               statistics :=
                 {| total_sources := Z.of_nat (length all_results);
                    unique_urls := unique;
                    content_extracted := extracted;
                    api_calls_made := sum_api_rotations self;
                    search_duration := elapsed w |};
               predictive_insights := predictive_insights |},
         self)
      end
    end
  end.
End orchestrator.

(** ** Concrete worlds used in the examples *)

Definition json_response (body : value) : response :=
  {| status := 200; json := Ok body; text := Ok "" |}.

Definition text_response (body : string) : response :=
  {| status := 200; json := Raise (OtherException "not JSON"); text := Ok body |}.

Definition sample_websailor : websailor_object :=
  {| wo_truthy := true;
     wo_enabled := Ok true;
     wo_navigate_and_research_deep := fun _ _ =>
       Raise (TypeError "object dict can't be used in 'await' expression") |}.

(** No network, no stored session data. *)
Definition offline_world : world :=
  {| net := fun _ => Raise (OtherException "connection refused");
     getenv := fun _ => None;
     quote_plus := fun s => s;
     now_isoformat := "2025-01-01T00:00:00";
     elapsed := 0;
     str_of := fun _ => "";
     regex := {| findall_links := fun _ => []; findall_urls := fun _ => [] |};
     websailor := sample_websailor;
     capture_screenshot_async_impl := fun _ _ =>
       Raise (OtherException "no browser");
     engine_analyze_session_data := fun _ =>
       Raise (FileNotFoundError "no session data");
     salvar_etapa := fun _ => Ok tt;
     salvar_erro := fun _ _ => Ok tt |}.

Definition sample_item (title link : string) : value :=
  VDict [("title", VStr title); ("link", VStr link); ("snippet", VStr "text")].

(** Every provider answers; Google and Serper both list
    [https://example.com/a]. *)
Definition sample_net (r : request) : result response :=
  if String.eqb (endpoint r) (service_url "GOOGLE") then
    Ok (json_response
          (VDict [("items", VList [sample_item "A" "https://example.com/a";
                                   sample_item "A again" "https://example.com/a/"])]))
  else if String.eqb (endpoint r) (service_url "SERPER") then
    Ok (json_response
          (VDict [("organic", VList [sample_item "A" "https://example.com/a"])]))
  else if String.eqb (endpoint r) (service_url "FIRECRAWL") then
    Ok (json_response
          (VDict [("data", VDict [("markdown", VStr "[A](https://example.com/a)")])]))
  else if String.eqb (endpoint r) (service_url "YOUTUBE") then
    Ok (json_response
          (VDict [("items",
                   VList [VDict [("id", VDict [("videoId", VStr "v1")]);
                                 ("snippet",
                                  VDict [("title", VStr "T"); ("description", VStr "D");
                                         ("publishedAt", VStr "2025-01-01")])]])]))
  else if String.prefix (service_url "JINA") (endpoint r) then
    Ok (text_response "see https://example.com/a")
  else Ok {| status := 404; json := Raise (OtherException "not JSON");
             text := Ok "not found" |}.

Definition sample_world : world :=
  {| net := sample_net;
     getenv := fun name => if String.eqb name "GOOGLE_CSE_ID" then Some "cx-1" else None;
     quote_plus := fun s => s;
     now_isoformat := "2025-01-01T00:00:00";
     elapsed := 3 # 2;
     str_of := fun _ => "";
     regex := {| findall_links := fun _ => [("A", "https://example.com/a")];
                 findall_urls := fun _ => ["https://example.com/a"] |};
     websailor := sample_websailor;
     capture_screenshot_async_impl := fun _ _ => Ok (VStr "shot.png");
     engine_analyze_session_data := fun _ => Ok (VDict [("success", VBool true)]);
     salvar_etapa := fun _ => Ok tt;
     salvar_erro := fun _ _ => Ok tt |}.

Definition all_pools : gmap string (list string) :=
  {[ "FIRECRAWL" := ["fc-key"]; "JINA" := ["jina-key"]; "GOOGLE" := ["g-key"];
     "EXA" := ["exa-key"]; "SERPER" := ["s-key"]; "YOUTUBE" := ["yt-key"] ]}.

(** The two shapes a web adapter's return value can take. *)
Definition web_provider_names : list string :=
  ["FIRECRAWL"; "JINA"; "GOOGLE"; "EXA"; "SERPER"].

Definition web_adapter_shape (r : provider_result) : Prop :=
  (exists msg, r = failure msg) \/
  (exists name items raw_data,
     name ∈ web_provider_names /\ r = succeeded name None items raw_data).

(** The result lists a web outcome contributes to the merged corpus. *)
Definition contributed (outcome : result provider_result) : list dict :=
  match outcome with
  | Ok r => if success r then default [] (results r) else []
  | Raise _ => []
  end.

(** No credential configured for any provider the orchestrator can start. *)
Definition no_provider_enabled (self : orchestrator) : Prop :=
  forall name,
    name ∈ ["FIRECRAWL"; "JINA"; "GOOGLE"; "EXA"; "SERPER"; "YOUTUBE"] ->
    api_keys self !! name = None.

(** The document of a run in which no adapter contributed anything. *)
Definition empty_search_results (w : world) (self : orchestrator)
    (q sid : string) (insights : value) : search_results :=
  {| query := q;
     session_id := sid;
     search_started := now_isoformat w;
     providers_used := [];
     web_results := [];
     social_results := [];
     youtube_results := [];
     viral_content := [];
     screenshots_captured := [];
     statistics :=
       {| total_sources := 0;
          unique_urls := 0;
          content_extracted := 0;
          api_calls_made := sum_api_rotations self;
          search_duration := elapsed w |};
     predictive_insights := insights |}.

(** The [url] strings of a result list, as stored. *)
Definition url_strings (all_results : list dict) : list string :=
  omap (fun r => match dget "url" r with
                 | Some (VStr url) => Some url
                 | _ => None
                 end) all_results.

(** ** Visual capture ([VisualContentCapture.capture_screenshot]) *)

(** The browser and the disk, as oracles: what each Selenium or file-system
    call answers. *)
Record browser : Type := {
  setup_driver : nat -> result unit;          (* [_setup_driver()], per launch *)
  driver_get : string -> result unit;         (* [driver.get(url)] *)
  wait_for_body : string -> result unit;      (* [WebDriverWait(...).until(...)] *)
  driver_title : string -> result string;     (* [driver.title] *)
  driver_current_url : string -> result string;
  meta_description : string -> result string; (* [find_element(...).get_attribute] *)
  make_parent_directory : string -> result unit;
  save_screenshot : string -> string -> result (option Z);
                                  (* size of the file written, if one was *)
  timestamp : string
}.

(** [self.driver] together with a record of what has been done so far. *)
Record capture_state : Type := {
  driver : option nat;           (* the live driver, numbered by launch *)
  launched : nat;                (* drivers launched so far *)
  closed : list nat;             (* drivers on which [quit] was called *)
  navigations : list string;     (* every [driver.get(url)] issued, in order *)
  files : gmap string Z          (* screenshot files by path, with their size *)
}.

(** [VisualContentCapture.__init__]. *)
Definition VisualContentCapture_init : capture_state :=
  {| driver := None; launched := 0; closed := []; navigations := []; files := ∅ |}.

(** Computations that read and change the capture state and may raise. *)
Definition capture_m (A : Type) : Type := capture_state -> result A * capture_state.

Definition cm_ret {A} (a : A) : capture_m A := fun s => (Ok a, s).

Definition cm_bind {A B} (c : capture_m A) (k : A -> capture_m B) : capture_m B :=
  fun s => match c s with
           | (Ok a, s') => k a s'
           | (Raise e, s') => (Raise e, s')
           end.

#[global] Instance capture_m_ret : MRet capture_m := @cm_ret.
#[global] Instance capture_m_bind : MBind capture_m := fun A B k c => cm_bind c k.

(** An oracle call that leaves the state alone. *)
Definition cm_call {A} (r : result A) : capture_m A := fun s => (r, s).

Definition cm_raise {A} (e : exn) : capture_m A := fun s => (Raise e, s).

(** [try: body except Exception as e: handler(e)]. *)
Definition cm_try {A} (body : capture_m A) (handler : exn -> capture_m A)
  : capture_m A :=
  fun s => match body s with
           | (Ok a, s') => (Ok a, s')
           | (Raise e, s') => handler e s'
           end.

(** [if not self.driver: self.driver = self._setup_driver()]. *)
Definition ensure_driver (b : browser) : capture_m nat :=
  fun s => match driver s with
           | Some d => (Ok d, s)
           | None =>
             match setup_driver b (launched s) with
             | Ok _ =>
               (Ok (launched s),
                {| driver := Some (launched s); launched := S (launched s);
                   closed := closed s; navigations := navigations s;
                   files := files s |})
             | Raise e => (Raise e, s)
             end
           end.

(** [self.driver.get(url)]. *)
Definition navigate (b : browser) (url : string) : capture_m unit :=
  fun s => (driver_get b url,
            {| driver := driver s; launched := launched s; closed := closed s;
               navigations := (navigations s ++ [url])%list; files := files s |}).

(** [self.driver.save_screenshot(path)]: a file that gets written replaces
    whatever was at [path]. *)
Definition write_screenshot (b : browser) (url path : string)
  : capture_m (option Z) :=
  fun s => match save_screenshot b url path with
           | Ok (Some size) =>
             (Ok (Some size),
              {| driver := driver s; launched := launched s; closed := closed s;
                 navigations := navigations s; files := <[path := size]> (files s) |})
           | Ok None => (Ok None, s)
           | Raise e => (Raise e, s)
           end.

(** The [finally] clause: quit the driver if there is one (a failing [quit]
    is only logged) and forget it. *)
Definition teardown (s : capture_state) : capture_state :=
  match driver s with
  | Some d =>
    {| driver := None; launched := launched s; closed := (closed s ++ [d])%list;
       navigations := navigations s; files := files s |}
  | None => s
  end.

(** The body of the [try] block of [capture_screenshot]. *)
Definition capture_attempt (b : browser) (url output_path : string)
  : capture_m dict :=
  _ ← ensure_driver b;
  _ ← navigate b url;
  _ ← cm_try (cm_call (wait_for_body b url))
         (fun e => match e with
                   | TimeoutException => cm_ret tt
                   | _ => cm_raise e
                   end);
  title ← cm_call (driver_title b url);
  let page_title := if String.eqb title "" then "Sem titulo" else title in
  page_url ← cm_call (driver_current_url b url);
  let meta :=
    match meta_description b url with
    | Ok description => description
    | Raise _ => ""
    end in
  _ ← cm_call (make_parent_directory b output_path);
  written ← write_screenshot b url output_path;
  match written with
  | Some size =>
    if 0 <? size then
      cm_ret [("success", VBool true); ("url", VStr url);
              ("final_url", VStr page_url); ("title", VStr page_title);
              ("description", VStr meta); ("filepath", VStr output_path);
              ("filesize", VInt size); ("timestamp", VStr (timestamp b))]
    else cm_raise (OtherException "Screenshot nao foi criado ou esta vazio")
  | None => cm_raise (OtherException "Screenshot nao foi criado ou esta vazio")
  end.

(** [try: ... except Exception as e: return {'success': False, ...}
    finally: ...]: the handler builds the failure value, the [finally] clause
    runs on both exits. *)
Definition capture_screenshot (b : browser) (self : capture_state)
    (url output_path : string) : dict * capture_state :=
  let '(outcome, self) := capture_attempt b url output_path self in
  let artifact :=
    match outcome with
    | Ok artifact => artifact
    | Raise e =>
      [("success", VBool false); ("url", VStr url);
       ("error", VStr ("Erro ao capturar screenshot de " ++ url ++ ": "
                       ++ str_exn e));
       ("timestamp", VStr (timestamp b))]
    end in
  (artifact, teardown self).

(** A list of capture requests served one after the other. *)
Fixpoint capture_requests (b : browser) (self : capture_state)
    (requests : list (string * string)) : list dict * capture_state :=
  match requests with
  | [] => ([], self)
  | (url, output_path) :: rest =>
    let '(artifact, self) := capture_screenshot b self url output_path in
    let '(artifacts, self) := capture_requests b self rest in
    (artifact :: artifacts, self)
  end.

(** A browser in which every call works and every screenshot has 2048 bytes. *)
Definition working_browser : browser :=
  {| setup_driver := fun _ => Ok tt;
     driver_get := fun _ => Ok tt;
     wait_for_body := fun _ => Ok tt;
     driver_title := fun _ => Ok "Example";
     driver_current_url := fun url => Ok url;
     meta_description := fun _ => Raise (OtherException "no such element");
     make_parent_directory := fun _ => Ok tt;
     save_screenshot := fun _ _ => Ok (Some 2048);
     timestamp := "2025-01-01T00:00:00" |}.

(** ** Session collector ([MassiveDataCollector.execute_massive_collection]) *)

Module Collector.

(** The collaborators of the collector whose code is outside the modelled
    files, as oracles; [select_top_urls_impl] and [capture_screenshots_impl]
    are what the two methods called on [visual_content_capture] would return
    if the object has them. *)
Record collaborators : Type := {
  interleaved_search : string -> result value;
  trendfinder_is_available : result bool;
  trendfinder_search : string -> result value;
  supadata_is_available : result bool;
  supadata_search : string -> result value;
  search_all_platforms : string -> result value;
  select_top_urls_impl : value -> result value;
  capture_screenshots_impl : value -> string -> result value;
  get_provider_stats : result value;
  str_length : value -> Z;                    (* [len(str(item))] *)
  write_json : string -> result unit;         (* [mkdir], [open], [json.dump] *)
  salvar_etapa : string -> result unit;
  salvar_erro : string -> exn -> result unit;
  now : string;
  elapsed_time : Q                            (* [time.time() - start_time] *)
}.

Record collection_statistics : Type := {
  total_sources : Z;
  total_content_length : Z;
  collection_time : Q;
  sources_by_type : dict;
  screenshot_count : value;
  api_rotations : value
}.

(** The [massive_data] dictionary. *)
Record massive_data : Type := {
  session_id : string;
  query : string;
  context : dict;
  collection_started : string;
  web_search_data : value;
  social_media_data : dict;
  trends_data : value;
  supadata_results : value;
  visual_content : value;
  extracted_content : list value;
  screenshots : value;
  statistics : collection_statistics
}.

(** What a file of the session directory holds. *)
Inductive stored : Type :=
| SessionDocument (d : massive_data)
| CollectionReport (report : dict).

(** Durable storage, and the errors handed to [salvar_erro]. *)
Record disk : Type := {
  files : gmap string stored;
  errors_saved : list (string * exn)
}.

Definition empty_disk : disk := {| files := ∅; errors_saved := [] |}.

(** What the caller gets back: the session document, or the error
    dictionary [{'error': ..., 'details': str(e)}]. *)
Inductive outcome : Type :=
| Collected (d : massive_data)
| CollectionFailed (error details : string).

Definition massive_data_path (sid : string) : string :=
  "analyses_data/" ++ sid ++ "/massive_data_collected.json".

Definition report_path (sid : string) : string :=
  "analyses_data/" ++ sid ++ "/relatorio_coleta_detalhado.json".

Definition failure_value (msg : string) : value :=
  VDict [("success", VBool false); ("error", VStr msg)].

(** [k in v] for a dictionary [v]. *)
Definition has_key (k : string) (d : dict) : bool :=
  match dget k d with Some _ => true | None => false end.

(** [all_extracted_content.extend(v)], one list after the other. *)
Fixpoint extend_all (acc : list value) (parts : list value) : result (list value) :=
  match parts with
  | [] => Ok acc
  | part :: rest =>
    items ← iter_value part;
    extend_all (acc ++ items)%list rest
  end.

Section collector.
Variable m : modules.
Variable c : collaborators.

(** Phase 4, with its own [try ... except]. *)
Definition social_phase (q : string) : dict :=
  match
    social_results_raw ← search_all_platforms c q;
    ok ← vget "success" social_results_raw;
    if truthy ok then
      total_posts ← vget_default "total_results" (VInt 0) social_results_raw;
      platforms ← vget_default "platforms" (VDict []) social_results_raw;
      platforms_analyzed ← py_len platforms;
      Ok [("success", VBool true);
          ("all_platforms_data", social_results_raw);
          ("total_posts", total_posts);
          ("platforms_analyzed", VInt platforms_analyzed);
          ("extracted_at", VStr (now c))]
    else
      Ok [("success", VBool false);
          ("error", VStr "Falha na extracao de redes sociais");
          ("all_platforms_data", VDict [("platforms", VDict [])]);
          ("total_posts", VInt 0)]
  with
  | Ok social_results => social_results
  | Raise social_error =>
    [("success", VBool false);
     ("error", VStr (str_exn social_error));
     ("all_platforms_data", VDict [("platforms", VDict [])]);
     ("total_posts", VInt 0)]
  end.

(** Phase 6: the visual content, the screenshot count and the screenshot
    paths after the capture step. *)
Definition capture_phase (selected_urls : value) (sid : string)
  : value * value * value :=
  if truthy selected_urls then
    match
      capture_screenshots ←
        getattr (visual_content_capture_attributes m) "capture_screenshots"
          (capture_screenshots_impl c);
      capture_screenshots selected_urls sid
    with
    | Raise capture_error => (failure_value (str_exn capture_error), VInt 0, VList [])
    | Ok screenshot_results =>
      match vget_default "successful_captures" (VInt 0) screenshot_results with
      | Raise capture_error => (failure_value (str_exn capture_error), VInt 0, VList [])
      | Ok count =>
        match vget_default "successful_captures_paths" (VList []) screenshot_results with
        | Raise capture_error => (failure_value (str_exn capture_error), VInt 0, VList [])
        | Ok paths => (screenshot_results, count, paths)
        end
      end
    end
  else (failure_value "Nenhuma URL disponivel", VInt 0, VList []).

(** The [for provider_result in web_results["all_results"]] loop. *)
Fixpoint web_contents (provider_results : list value) (acc : list value)
  : result (list value) :=
  match provider_results with
  | [] => Ok acc
  | provider_result :: rest =>
    ok ← vget "success" provider_result;
    found ← (if truthy ok then vget "results" provider_result else Ok VNone);
    if truthy found then
      found ← vindex "results" provider_result;
      items ← iter_value found;
      web_contents rest (acc ++ items)%list
    else web_contents rest acc
  end.

(** The loop over [platforms.items()] when [platforms] is a dictionary. *)
Fixpoint platform_dict_contents (platforms : dict) (acc : list value)
  : result (list value) :=
  match platforms with
  | [] => Ok acc
  | (_, VDict data) :: rest =>
    if has_key "results" data then
      found ← dindex "results" data;
      items ← iter_value found;
      platform_dict_contents rest (acc ++ items)%list
    else platform_dict_contents rest acc
  | _ :: rest => platform_dict_contents rest acc
  end.

(** The loop over [platforms] when it is a list. *)
Fixpoint platform_list_contents (platforms : list value) (acc : list value)
  : result (list value) :=
  match platforms with
  | [] => Ok acc
  | VDict platform_data :: rest =>
    if has_key "results" platform_data then
      found ← dindex "results" platform_data;
      items ← iter_value found;
      platform_list_contents rest (acc ++ items)%list
    else if has_key "platform" platform_data then
      data ← vget_default "results" (VList [])
               (dget_default "data" (VDict []) platform_data);
      items ← iter_value data;
      platform_list_contents rest (acc ++ items)%list
    else platform_list_contents rest acc
  | _ :: rest => platform_list_contents rest acc
  end.

(** [[{"source": name, "content": x} for x in xs]]. *)
Definition tagged (name : string) (xs : list value) : list value :=
  (fun x => VDict [("source", VStr name); ("content", x)]) <$> xs.

(** The entries of a successful trends or Supadata answer. *)
Definition augmentation (name key : string) (answer : value) : result (list value) :=
  ok ← vget "success" answer;
  if truthy ok then
    entries ← vget_default key (VList []) answer;
    entries ← iter_value entries;
    Ok (tagged name entries)
  else Ok [].

(** [_count_social_results], which swallows its own exceptions. *)
Fixpoint count_dict_results (platforms : dict) (total : Z) : result Z :=
  match platforms with
  | [] => Ok total
  | (_, VDict data) :: rest =>
    if has_key "results" data then
      found ← dindex "results" data;
      n ← py_len found;
      count_dict_results rest (total + n)
    else count_dict_results rest total
  | _ :: rest => count_dict_results rest total
  end.

Fixpoint count_list_results (platforms : list value) (total : Z) : result Z :=
  match platforms with
  | [] => Ok total
  | VDict platform_data :: rest =>
    if has_key "results" platform_data then
      found ← dindex "results" platform_data;
      n ← py_len found;
      count_list_results rest (total + n)
    else
      match dget "data" platform_data with
      | Some (VDict data) =>
        n ← py_len (dget_default "results" (VList []) data);
        count_list_results rest (total + n)
      | _ => count_list_results rest total
      end
  | _ :: rest => count_list_results rest total
  end.

Definition _count_social_results (social_results : dict) : Z :=
  match
    platforms ← vget_default "platforms" (VDict [])
                  (dget_default "all_platforms_data" (VDict []) social_results);
    match platforms with
    | VDict d => count_dict_results d 0
    | VList l => count_list_results l 0
    | _ => Ok 0
    end
  with
  | Ok total => total
  | Raise _ => 0
  end.
(** Phases 1 to 7 up to the final statistics: everything before the
    document is written. *)
Definition collect (q : string) (ctx : dict) (sid : string) : result massive_data :=
  (* FASE 1 *)
  web_results ← interleaved_search c q;
  (* FASE 2 *)
  available ← trendfinder_is_available c;
  trends ← (if available : bool then trendfinder_search c q
            else Ok (failure_value "TrendFinder nao configurado"));
  (* FASE 3 *)
  available ← supadata_is_available c;
  supadata ← (if available : bool then supadata_search c q
              else Ok (failure_value "Supadata nao configurado"));
  (* FASE 4 *)
  let social_results := social_phase q in
  (* FASE 5 *)
  select_top_urls ←
    getattr (visual_content_capture_attributes m) "select_top_urls"
      (select_top_urls_impl c);
  selected_urls ← select_top_urls web_results;
  (* FASE 6 *)
  let '(visual, count, shots) := capture_phase selected_urls sid in
  (* FASE 7 *)
  all_results ← vget "all_results" web_results;
  contents ←
    (if truthy all_results then
       found ← vindex "all_results" web_results;
       provider_results ← iter_value found;
       web_contents provider_results []
     else Ok []);
  contents ←
    (let all_platforms_data := dget_default "all_platforms_data" VNone social_results in
     if truthy all_platforms_data then
       platforms ← vget_default "platforms" (VDict []) all_platforms_data;
       match platforms with
       | VDict by_name => platform_dict_contents by_name contents
       | VList listed => platform_list_contents listed contents
       | _ => Ok contents
       end
     else Ok contents);
  trend_entries ← augmentation "TrendFinder" "trends" trends;
  post_entries ← augmentation "Supadata" "posts" supadata;
  let all_extracted_content := (contents ++ trend_entries ++ post_entries)%list in
  successful_searches ← vget_default "successful_searches" (VInt 0) web_results;
  trends_listed ← vget_default "trends" (VList []) trends;
  trends_count ← py_len trends_listed;
  supadata_total ← vget_default "total_results" (VInt 0) supadata;
  provider_stats ← get_provider_stats c;
  Ok {| session_id := sid;
        query := q;
        context := ctx;
        collection_started := now c;
        web_search_data := web_results;
        social_media_data := social_results;
        trends_data := trends;
        supadata_results := supadata;
        visual_content := visual;
        extracted_content := all_extracted_content;
        screenshots := shots;
        statistics :=
          {| total_sources := Z.of_nat (length all_extracted_content);
             total_content_length :=
               foldr Z.add 0 (str_length c <$> all_extracted_content);
             collection_time := elapsed_time c;
             sources_by_type :=
               [("web_search_intercalado", successful_searches);
                ("social_media_fallback", VInt (_count_social_results social_results));
                ("trendfinder_mcp", VInt trends_count);
                ("supadata_mcp", supadata_total);
                ("screenshots", count)];
             screenshot_count := count;
             api_rotations := provider_stats |} |}.

(** The dictionary built by [_generate_collection_report]. *)
Definition collection_report (d : massive_data) (sid : string) : result dict :=
  paths ← vget_default "successful_captures_paths" (VList []) (visual_content d);
  web_statistics ← vget_default "statistics" (VDict []) (web_search_data d);
  web_total ← vget_default "total_results" (VInt 0) web_statistics;
  trends ← vget_default "trends" (VList []) (trends_data d);
  trends_count ← py_len trends;
  supadata_total ← vget_default "total_results" (VInt 0) (supadata_results d);
  Ok [("title", VStr "Relatorio Detalhado de Coleta de Dados");
      ("session_id", VStr sid);
      ("query", VStr (query d));
      ("timestamp", VStr (now c));
      ("visual_content_summary",
       VDict [("screenshot_count", screenshot_count (statistics d));
              ("screenshot_paths", paths)]);
      ("data_sources_summary",
       VDict [("web_search", web_total);
              ("social_media", dget_default "total_posts" (VInt 0) (social_media_data d));
              ("trends", VInt trends_count);
              ("supadata", supadata_total)])].

(** Writing one file of the session directory. *)
Definition persist (path : string) (content : stored) (dk : disk) : result unit * disk :=
  match write_json c path with
  | Ok _ => (Ok tt, {| files := <[path := content]> (files dk);
                       errors_saved := errors_saved dk |})
  | Raise e => (Raise e, dk)
  end.

(** The [try] block of [execute_massive_collection]: collect, write the
    session document, write the report, hand the data to [salvar_etapa]. *)
Definition collect_and_persist (q : string) (ctx : dict) (sid : string) (dk : disk)
  : result massive_data * disk :=
  match collect q ctx sid with
  | Raise e => (Raise e, dk)
  | Ok d =>
    match persist (massive_data_path sid) (SessionDocument d) dk with
    | (Raise e, dk) => (Raise e, dk)
    | (Ok _, dk) =>
      match collection_report d sid with
      | Raise e => (Raise e, dk)
      | Ok report =>
        match persist (report_path sid) (CollectionReport report) dk with
        | (Raise e, dk) => (Raise e, dk)
        | (Ok _, dk) =>
          match salvar_etapa c "massive_data_collected" with
          | Raise e => (Raise e, dk)
          | Ok _ => (Ok d, dk)
          end
        end
      end
    end
  end.

Definition execute_massive_collection (q : string) (ctx : dict) (sid : string)
    (dk : disk) : result outcome * disk :=
  match collect_and_persist q ctx sid dk with
  | (Ok d, dk) => (Ok (Collected d), dk)
  | (Raise e, dk) =>
    match salvar_erro c "massive_data_collection" e with
    | Ok _ =>
      (Ok (CollectionFailed "Falha na coleta massiva de dados" (str_exn e)),
       {| files := files dk;
          errors_saved := (errors_saved dk ++ [("massive_data_collection", e)])%list |})
    | Raise e' => (Raise e', dk)
    end
  end.
End collector.

(** Collaborators that all answer; the web search found nothing to rank. *)
Definition sample_collaborators : collaborators :=
  {| interleaved_search := fun _ =>
       Ok (VDict [("all_results",
                   VList [VDict [("success", VBool true);
                                 ("results", VList [VDict [("url", VStr "https://example.com/a")]])]]);
                  ("successful_searches", VInt 1)]);
     trendfinder_is_available := Ok false;
     trendfinder_search := fun _ => Raise (OtherException "unreachable");
     supadata_is_available := Ok false;
     supadata_search := fun _ => Raise (OtherException "unreachable");
     search_all_platforms := fun _ => Raise (OtherException "no social api");
     select_top_urls_impl := fun _ => Ok (VList []);
     capture_screenshots_impl := fun _ _ => Raise (OtherException "no browser");
     get_provider_stats := Ok (VDict []);
     str_length := fun _ => 10;
     write_json := fun _ => Ok tt;
     salvar_etapa := fun _ => Ok tt;
     salvar_erro := fun _ _ => Ok tt;
     now := "2025-01-01T00:00:00";
     elapsed_time := 1 |}.

(** The same, with the web search down. *)
Definition failing_collaborators : collaborators :=
  {| interleaved_search := fun _ => Raise (OtherException "all providers timed out");
     trendfinder_is_available := Ok false;
     trendfinder_search := fun _ => Raise (OtherException "unreachable");
     supadata_is_available := Ok false;
     supadata_search := fun _ => Raise (OtherException "unreachable");
     search_all_platforms := fun _ => Raise (OtherException "no social api");
     select_top_urls_impl := fun _ => Ok (VList []);
     capture_screenshots_impl := fun _ _ => Raise (OtherException "no browser");
     get_provider_stats := Ok (VDict []);
     str_length := fun _ => 10;
     write_json := fun _ => Ok tt;
     salvar_etapa := fun _ => Ok tt;
     salvar_erro := fun _ _ => Ok tt;
     now := "2025-01-01T00:00:00";
     elapsed_time := 1 |}.

(** A code base in which [VisualContentCapture] does have the two methods the
    collector calls. *)
Definition with_capture_methods : modules :=
  {| websailor_module_names := websailor_module_names repository;
     orchestrator_module_globals := orchestrator_module_globals repository;
     visual_capture_module_names := visual_capture_module_names repository;
     visual_content_capture_attributes :=
       (visual_content_capture_attributes repository
        ++ ["select_top_urls"; "capture_screenshots"])%list |}.

End Collector.

(** ** What the adapters can put into a document *)

(** A record that carries neither extracted content nor engagement metrics. *)
Definition plain_record (item : dict) : Prop :=
  dget "content" item = None /\ dget "likes" item = None /\
  dget "comments" item = None /\ dget "shares" item = None.

(** An adapter answer: the failure shape, or a success made of plain records
    under the provider name [label] and platform [plat]; [label = None]
    stands for an adapter whose successes carry no record at all. *)
Definition adapter_answer (label : option string) (plat : option string)
    (r : provider_result) : Prop :=
  (exists msg, r = failure msg) \/
  (exists name items raw_data,
     r = succeeded name plat items raw_data /\
     Forall plain_record items /\
     match label with
     | Some expected => name = expected
     | None => items = []
     end).

(** The provider names of the tasks [enabled_task] starts. *)
Definition enabled_label (self : orchestrator) (name : string) (label : option string)
  : list (option string) :=
  match api_keys self !! name with
  | Some _ => [label]
  | None => []
  end.

(** The providers of the web wave that have a pool, in task order, with the
    name under which each can contribute. *)
Definition web_labels (self : orchestrator) : list (option string) :=
  (enabled_label self "FIRECRAWL" None
   ++ enabled_label self "JINA" None
   ++ enabled_label self "GOOGLE" (Some "GOOGLE")
   ++ enabled_label self "EXA" (Some "EXA")
   ++ enabled_label self "SERPER" (Some "SERPER"))%list.

(** The providers whose credential a run takes, in the order it takes them. *)
Definition started_providers (self : orchestrator) : list string :=
  filter (fun name => is_Some (api_keys self !! name))
         ["FIRECRAWL"; "JINA"; "GOOGLE"; "EXA"; "SERPER"; "YOUTUBE"].

(** Every pool that exists holds at least one credential, as
    [_load_all_api_keys] builds them. *)
Definition pools_nonempty (self : orchestrator) : Prop :=
  forall provider keys, api_keys self !! provider = Some keys -> keys <> [].

(** ** Loading the credential pools ([RealSearchOrchestrator._load_all_api_keys])

    The process environment is a finite map; [os.getenv(name)] is a lookup,
    and an empty value is as good as none ([if main_key], [if numbered_key]).
    The [while True] loop over the numbered keys is bounded by a fuel:
    [None] means the fuel ran out before the loop left. *)

Definition getenv_truthy (environ : gmap string string) (name : string)
  : option string :=
  usable_key (environ !! name).

(** [f"{provider}_API_KEY_{counter}"]. *)
Definition numbered_name (provider : string) (counter : nat) : string :=
  provider ++ "_API_KEY_" ++ pretty counter.

Fixpoint numbered_keys (environ : gmap string string) (provider : string)
    (counter fuel : nat) : option (list string) :=
  match fuel with
  | O => None
  | S fuel' =>
    match getenv_truthy environ (numbered_name provider counter) with
    | Some numbered_key =>
      cons numbered_key <$> numbered_keys environ provider (S counter) fuel'
    | None => Some []
    end
  end.

(** The list [keys] built for one provider. *)
Definition provider_keys (environ : gmap string string) (provider : string)
    (fuel : nat) : option (list string) :=
  let main :=
    match getenv_truthy environ (provider ++ "_API_KEY") with
    | Some main_key => [main_key]
    | None => []
    end in
  (fun numbered => (main ++ numbered)%list) <$> numbered_keys environ provider 1 fuel.

Definition loaded_providers : list string :=
  ["FIRECRAWL"; "JINA"; "GOOGLE"; "EXA"; "SERPER"; "YOUTUBE"; "SUPADATA"; "X"].

Fixpoint load_providers (environ : gmap string string) (providers : list string)
    (fuel : nat) (pools : gmap string (list string))
  : option (gmap string (list string)) :=
  match providers with
  | [] => Some pools
  | provider :: rest =>
    keys ← provider_keys environ provider fuel;
    load_providers environ rest fuel
      (match keys with
       | [] => pools
       | _ => <[provider := keys]> pools
       end)
  end.

Definition _load_all_api_keys (environ : gmap string string) (fuel : nat)
  : option (gmap string (list string)) :=
  load_providers environ loaded_providers fuel ∅.

(** An environment with three Google keys, the third one behind a gap. *)
Definition sample_environ : gmap string string :=
  {[ "GOOGLE_API_KEY" := "g-main"; "GOOGLE_API_KEY_1" := "g-1";
     "GOOGLE_API_KEY_3" := "g-3"; "SERPER_API_KEY_1" := "s-1";
     "EXA_API_KEY" := "" ]}.

(** A browser whose pages never signal that their body is there, and one
    whose screenshots come out empty. *)
Definition slow_browser : browser :=
  {| setup_driver := fun _ => Ok tt;
     driver_get := fun _ => Ok tt;
     wait_for_body := fun _ => Raise TimeoutException;
     driver_title := fun _ => Ok "";
     driver_current_url := fun url => Ok url;
     meta_description := fun _ => Raise (OtherException "no such element");
     make_parent_directory := fun _ => Ok tt;
     save_screenshot := fun _ _ => Ok (Some 2048);
     timestamp := "2025-01-01T00:00:00" |}.

Definition blank_browser : browser :=
  {| setup_driver := fun _ => Ok tt;
     driver_get := fun _ => Ok tt;
     wait_for_body := fun _ => Ok tt;
     driver_title := fun _ => Ok "Example";
     driver_current_url := fun url => Ok url;
     meta_description := fun _ => Ok "An example page";
     make_parent_directory := fun _ => Ok tt;
     save_screenshot := fun _ _ => Ok (Some 0);
     timestamp := "2025-01-01T00:00:00" |}.

(** ** The research pipeline of the WebSailor agent
    ([AlibabaWebSailorAgent.navigate_and_research_deep] and what it calls) *)

(** [v > threshold] against an integer threshold. *)
Definition gt_int (v : value) (threshold : Z) : result bool :=
  match as_number v with
  | Some q => Ok (negb (Qle_bool q (inject_Z threshold)))
  | None => Raise (TypeError "'>' not supported between these instances")
  end.

(** [sum(vs)] for numbers, read as rationals; anything else cannot be added
    to a number. *)
Fixpoint sum_numbers (vs : list value) : result Q :=
  match vs with
  | [] => Ok (inject_Z 0)
  | v :: rest =>
    match as_number v with
    | Some q => total ← sum_numbers rest; Ok (Qplus q total)
    | None => Raise (TypeError "unsupported operand type(s) for +")
    end
  end.

(** [str.isspace] on the code points up to 255: what [strip()] removes and
    [split()] splits at. *)
Definition is_space (c : ascii) : bool :=
  let n := nat_of_ascii c in
  (((9 <=? n) && (n <=? 13)) || ((28 <=? n) && (n <=? 32))
   || (n =? 133) || (n =? 160))%nat.

Fixpoint lstrip (s : string) : string :=
  match s with
  | String c s' => if is_space c then lstrip s' else s
  | EmptyString => EmptyString
  end.

Fixpoint rstrip (s : string) : string :=
  match s with
  | String c s' =>
    match rstrip s' with
    | EmptyString => if is_space c then EmptyString else String c EmptyString
    | rest => String c rest
    end
  | EmptyString => EmptyString
  end.

(** [s.strip()]. *)
Definition strip (s : string) : string := rstrip (lstrip s).

(** [s.split()]: the maximal runs of characters that are not white space;
    [word] is the run being read. *)
Fixpoint split_words (s : string) (word : string) : list string :=
  match s with
  | EmptyString => if String.eqb word "" then [] else [word]
  | String c s' =>
    if is_space c
    then (if String.eqb word "" then split_words s' ""
          else word :: split_words s' "")
    else split_words s' (word ++ String c EmptyString)
  end.

(** [sep.join(parts)]. *)
Fixpoint join (sep : string) (parts : list string) : string :=
  match parts with
  | [] => ""
  | [part] => part
  | part :: rest => part ++ sep ++ join sep rest
  end.

Module WebSailor.

(** Computations that read and change a state of type [S] and may raise. *)
Definition st_m (S A : Type) : Type := S -> result A * S.

#[global] Instance st_m_ret {S} : MRet (st_m S) := fun A a s => (Ok a, s).
#[global] Instance st_m_bind {S} : MBind (st_m S) := fun A B k c s =>
  match c s with
  | (Ok a, s') => k a s'
  | (Raise e, s') => (Raise e, s')
  end.

(** A call that leaves the state alone. *)
Definition call {S A} (r : result A) : st_m S A := fun s => (r, s).

Definition modify {S} (f : S -> S) : st_m S unit := fun s => (Ok tt, f s).

Definition gets {S A} (f : S -> A) : st_m S A := fun s => (Ok (f s), s).

(** [try: body except Exception as e: handler(e)]: what the body did to the
    state before it raised stays done. *)
Definition try_except {S A} (body : st_m S A) (handler : exn -> st_m S A)
  : st_m S A :=
  fun s => match body s with
           | (Ok a, s') => (Ok a, s')
           | (Raise e, s') => handler e s'
           end.

(** The credentials [__init__] reads from the environment. *)
Record credentials : Type := {
  google_search_key : option string;
  jina_api_key : option string;
  google_cse_id : option string;
  serper_api_key : option string
}.

(** [self.navigation_stats]. *)
Record navigation_stats : Type := {
  total_searches : Z;
  successful_extractions : Z;
  failed_extractions : Z;
  blocked_urls : Z;
  preferred_sources : Z;
  total_content_chars : Z;
  avg_quality_score : value
}.

(** What the agent's methods change: its own counters and the global
    [visual_content_capture] object. *)
Record state : Type := {
  navigation : navigation_stats;
  visual_content_capture : capture_state
}.

(** [AlibabaWebSailorAgent.__init__] and the fresh capture object. *)
Definition initial_state : state :=
  {| navigation :=
       {| total_searches := 0; successful_extractions := 0;
          failed_extractions := 0; blocked_urls := 0; preferred_sources := 0;
          total_content_chars := 0; avg_quality_score := VFloat 0 |};
     visual_content_capture := VisualContentCapture_init |}.

(** The outside world of the agent, as oracles. *)
Record world : Type := {
  (* [requests.get(google_search_url, ...)], [raise_for_status()], [.json()] *)
  google_custom_search : string -> string -> string -> Z -> result value;
  (* [requests.post(serper_url, ...)], [raise_for_status()], [.json()] *)
  serper_search : string -> string -> Z -> result value;
  (* which of the two engine futures [as_completed] yields first *)
  serper_completes_first : string -> bool;
  (* [session.get(jina_reader_url + url, ...)]: status code and text *)
  jina_reader : string -> string -> result (Z * string);
  has_exa : bool;                                   (* [HAS_EXA] *)
  exa_is_available : result bool;
  extract_content_with_exa : string -> result value;
  (* [session.get(url)], [raise_for_status()] and the text of the main part
     of the parsed page, before white space is normalised *)
  page_text : string -> result string;
  get_content_quality_score : value -> result value;
  browser_of : browser;
  netloc : string -> string;                        (* [urlparse(url).netloc] *)
  salvar_etapa : string -> result unit;
  salvar_erro : string -> exn -> result unit;
  salvar_trecho_pesquisa_web : dict -> string -> result unit;
  now : string
}.

(** The attributes of [PredictiveAnalyticsService] objects in the
    repository. *)
Definition predictive_analytics_service_attributes : list string :=
  ["engine"; "__init__"; "analyze_all_data"; "analyze_content_chunk";
   "analyze_data_quality"; "refine_search_queries"].

(** The local variables of one run of [navigate_and_research_deep], with the
    state the run shares with everything else. *)
Record run : Type := {
  all_content : list dict;
  search_engines_used : list string;
  services : state
}.

Definition on_services {A} (c : st_m state A) : st_m run A :=
  fun r => let '(a, st) := c (services r) in
           (a, {| all_content := all_content r;
                  search_engines_used := search_engines_used r;
                  services := st |}).

(** A run starts with [all_content = []] and [search_engines_used = []]. *)
Definition new_locals (st : state) : run :=
  {| all_content := []; search_engines_used := []; services := st |}.

Definition with_new_locals {A} (c : st_m run A) : st_m state A :=
  fun st => let '(outcome, r) := c (new_locals st) in (outcome, services r).

Definition append_content (item : dict) : st_m run unit :=
  modify (fun r => {| all_content := (all_content r ++ [item])%list;
                      search_engines_used := search_engines_used r;
                      services := services r |}).

Definition append_engine (engine_name : string) : st_m run unit :=
  modify (fun r => {| all_content := all_content r;
                      search_engines_used := (search_engines_used r ++ [engine_name])%list;
                      services := services r |}).

Definition with_navigation (f : navigation_stats -> navigation_stats) : st_m state unit :=
  modify (fun st => {| navigation := f (navigation st);
                       visual_content_capture := visual_content_capture st |}).

(** [self.navigation_stats["preferred_sources"] += 1]. *)
Definition bump_preferred_sources : st_m state unit :=
  with_navigation (fun n =>
    {| total_searches := total_searches n;
       successful_extractions := successful_extractions n;
       failed_extractions := failed_extractions n;
       blocked_urls := blocked_urls n;
       preferred_sources := preferred_sources n + 1;
       total_content_chars := total_content_chars n;
       avg_quality_score := avg_quality_score n |}).

(** [self.navigation_stats["failed_extractions"] += 1]. *)
Definition bump_failed_extractions : st_m state unit :=
  with_navigation (fun n =>
    {| total_searches := total_searches n;
       successful_extractions := successful_extractions n;
       failed_extractions := failed_extractions n + 1;
       blocked_urls := blocked_urls n;
       preferred_sources := preferred_sources n;
       total_content_chars := total_content_chars n;
       avg_quality_score := avg_quality_score n |}).

(** [content_data and content_data.get("success")]. *)
Definition extraction_succeeded (content_data : option dict) : bool :=
  match content_data with
  | Some content_data => truthy (dget_default "success" VNone content_data)
  | None => false
  end.

(** The dictionary the three strategies build; the score, a float that holds
    an integer, is kept as that number. *)
Definition extracted (url : string) (title : value) (content : string) (quality : Z)
    (extraction_method : string) : dict :=
  [("success", VBool true); ("url", VStr url); ("title", title);
   ("content", VStr content); ("quality_score", VFloat (inject_Z quality));
   ("extraction_method", VStr extraction_method)].

(** [_generate_related_queries]. *)
Definition _generate_related_queries (query : string) (context : dict)
    (all_content : list dict) : list string :=
  [query ++ " tendencias"; query ++ " mercado"; query ++ " inovacoes"].

Section agent.
Variable attributes : list string.  (* of [predictive_analytics_service] *)
Variable w : world.
Variable keys : credentials.
Variable self : websailor_agent.

(** [_google_search_deep]. *)
Definition _google_search_deep (query : string) (num_results : Z) : value :=
  match usable_key (google_search_key keys), usable_key (google_cse_id keys) with
  | Some key, Some cx =>
    match
      search_results ← google_custom_search w key cx query num_results;
      vget_default "items" (VList []) search_results
    with
    | Ok items => items
    | Raise _ => VList []
    end
  | _, _ => VList []
  end.

(** [_serper_search_deep]. *)
Definition _serper_search_deep (query : string) (num_results : Z) : value :=
  match usable_key (serper_api_key keys) with
  | Some key =>
    match
      search_results ← serper_search w key query num_results;
      vget_default "organic" (VList []) search_results
    with
    | Ok organic => organic
    | Raise _ => VList []
    end
  | None => VList []
  end.

(** Strategy 1 of [_extract_content_multi_strategy], the Jina reader:
    [content_data] and [methods_tried] after it. *)
Definition jina_strategy (url : string) (title : value) (context : dict)
  : option dict * list value :=
  match usable_key (jina_api_key keys) with
  | Some key =>
    match
      response ← jina_reader w key url;
      let '(status_code, content) := response in
      if status_code =? 200 then
        if 100 <? Z.of_nat (String.length content) then
          quality ← _calculate_content_quality (netloc w) self content url context;
          Ok (Some (extracted url title content quality "jina_reader"), [])
        else Ok (None, [])
      else Ok (None, [VStr ("Jina (" ++ pretty status_code ++ ")")])
    with
    | Ok after => after
    | Raise _ => (None, [VStr "Jina (Erro)"])
    end
  | None => (None, [])
  end.

(** The Exa block of [_fallback_extraction]: [Some] when the function
    returns from inside it. *)
Definition exa_strategy (url : string) (title : value) (context : dict)
  : option dict :=
  match
    content ← extract_content_with_exa w url;
    match content with
    | VStr text =>
      if 50 <? Z.of_nat (String.length (strip text)) then
        quality ← _calculate_content_quality (netloc w) self text url context;
        Ok (Some (extracted url title text quality "exa"))
      else Ok None
    | other =>
      if truthy other then Raise (AttributeError "strip") else Ok None
    end
  with
  | Ok found => found
  | Raise _ => None
  end.

(** The BeautifulSoup block of [_fallback_extraction]. *)
Definition soup_strategy (url : string) (title : value) (context : dict)
  : option dict :=
  match
    text_content ← page_text w url;
    let content := join " " (split_words text_content "") in
    if 50 <? Z.of_nat (String.length content) then
      quality ← _calculate_content_quality (netloc w) self content url context;
      Ok (Some (extracted url title content quality "beautifulsoup"))
    else Ok None
  with
  | Ok found => found
  | Raise _ => None
  end.

(** [_fallback_extraction]: Exa first if it is there, then BeautifulSoup. *)
Definition _fallback_extraction (url : string) (title : value) (context : dict)
  : result (option dict) :=
  use_exa ← (if has_exa w then exa_is_available w else Ok false);
  match (if use_exa : bool then exa_strategy url title context else None) with
  | Some content_data => Ok (Some content_data)
  | None => Ok (soup_strategy url title context)
  end.

(** The block of [_extract_content_multi_strategy] that asks the predictive
    service for a score and captures a screenshot above 80; it is wrapped in
    a [try] whose handler only logs, so that what it did to [content_data]
    and to the capture object before an exception stays done. *)
Definition predictive_block (url : string) (session_id : option string)
    (content_data : dict) : st_m state dict :=
  fun st =>
  match
    score_of ← getattr attributes "get_content_quality_score"
                 (get_content_quality_score w);
    content ← dindex "content" content_data;
    score_of content
  with
  | Raise _ => (Ok content_data, st)
  | Ok quality_score =>
    let content_data := dset "quality_score_predictive" quality_score content_data in
    match
      high ← gt_int quality_score 80;
      if high : bool then
        content ← dindex "content" content_data;
        size ← py_len content;
        Ok (Some ("./analyses_data/files/" ++ default "None" session_id
                  ++ "/websailor_screenshot_" ++ pretty size ++ ".png"))
      else Ok None
    with
    | Raise _ => (Ok content_data, st)
    | Ok None => (Ok content_data, st)
    | Ok (Some screenshot_path) =>
      let '(capture_result, camera) :=
        capture_screenshot (browser_of w) (visual_content_capture st)
          url screenshot_path in
      let st := {| navigation := navigation st; visual_content_capture := camera |} in
      if truthy (dget_default "success" VNone capture_result) then
        match dindex "filepath" capture_result with
        | Ok filepath => (Ok (dset "screenshot_path" filepath content_data), st)
        | Raise _ => (Ok content_data, st)
        end
      else (Ok content_data, st)
    end
  end.

(** [_extract_content_multi_strategy]. *)
Definition _extract_content_multi_strategy (url : string) (title : value)
    (context : dict) (session_id : option string) : st_m state (option dict) :=
  let '(content_data, methods_tried) := jina_strategy url title context in
  after ←
    (if extraction_succeeded content_data then mret (content_data, methods_tried)
     else
       content_data ← call (_fallback_extraction url title context);
       if extraction_succeeded content_data then
         mret (content_data,
               (methods_tried
                ++ [dget_default "extraction_method" (VStr "fallback")
                      (default [] content_data)])%list)
       else mret (content_data, (methods_tried ++ [VStr "Todos_Fallbacks_Falharam"])%list));
  let '(content_data, methods_tried) := after in
  if extraction_succeeded content_data then
    let content_data := default [] content_data in
    let content_data := dset "methods_tried" (VList methods_tried) content_data in
    let is_preferred :=
      any_domain_in (preferred_domains self) (lower (netloc w url)) in
    let content_data := dset "is_preferred_source" (VBool is_preferred) content_data in
    _ ← (if is_preferred then bump_preferred_sources else mret tt);
    content_data ←
      (if truthy (dget_default "content" VNone content_data)
       then predictive_block url session_id content_data
       else mret content_data);
    mret (Some content_data)
  else
    _ ← bump_failed_extractions;
    mret None.

(** The call of [_extract_content_multi_strategy] from the result loop, where
    [url] is whatever truthy value the search result carries.  With a URL
    that is not a string no strategy can succeed: each of them ends in
    [urlparse(url)] inside [_calculate_content_quality], if it gets that far,
    and [urlparse] raises on such a value; the exceptions are caught where
    the strategies catch them, so what is left is the availability check
    of Exa, the failure counter and [None]. *)
Definition extract_from (url title : value) (context : dict)
    (session_id : option string) : st_m state (option dict) :=
  match url with
  | VStr url => _extract_content_multi_strategy url title context session_id
  | _ =>
    _ ← call (if has_exa w then exa_is_available w else Ok false);
    _ ← bump_failed_extractions;
    mret None
  end.

(** The body of [for result in results[:5]]. *)
Definition process_result (engine_name : string) (context : dict)
    (session_id : option string) (result : value) : st_m run unit :=
  url ← call (url ← vget "url" result;
              if truthy url then Ok url else vget "link" result);
  if negb (truthy url) then mret tt
  else
    title ← call (vget_default "title" (VStr "") result);
    content_data ← on_services (extract_from url title context session_id);
    if extraction_succeeded content_data then
      let content_data := default [] content_data in
      let content_data := dset "search_engine" (VStr engine_name) content_data in
      content_length ← call (py_len (dget_default "content" (VStr "") content_data));
      let content_data := dset "content_length" (VInt content_length) content_data in
      _ ← append_content content_data;
      _ ← call (salvar_trecho_pesquisa_web w content_data
                  (default "sessao_desconhecida" (usable_key session_id)));
      extractions ← gets (fun r => length (all_content r));
      _ ← call (salvar_etapa w ("websailor_extracao_" ++ pretty extractions));
      mret tt
    else mret tt.

Fixpoint process_results (engine_name : string) (context : dict)
    (session_id : option string) (results : list value) : st_m run unit :=
  match results with
  | [] => mret tt
  | result :: rest =>
    _ ← process_result engine_name context session_id result;
    process_results engine_name context session_id rest
  end.

(** The body of [for future in as_completed(...)] for one engine, whose
    function has returned [results]; an exception ends the work on this
    engine and nothing else. *)
Definition process_engine (engine_name : string) (results : value)
    (context : dict) (session_id : option string) : st_m run unit :=
  try_except
    (if truthy results then
       _ ← append_engine engine_name;
       _ ← call (py_len results);
       first ← call (slice_prefix 5 results);
       first ← call (iter_value first);
       process_results engine_name context session_id first
     else mret tt)
    (fun _ => mret tt).

(** Level 1: both engines are asked for [min(max_pages, 10)] results and
    their answers are worked through in the order in which they arrive. *)
Definition level1 (query : string) (context : dict) (max_pages : Z)
    (session_id : option string) : st_m run unit :=
  let google := ("Google Custom Search",
                 _google_search_deep query (Z.min max_pages 10)) in
  let serper := ("Serper API", _serper_search_deep query (Z.min max_pages 10)) in
  let '(first, second) :=
    if serper_completes_first w query then (serper, google) else (google, serper) in
  _ ← process_engine (fst first) (snd first) context session_id;
  process_engine (fst second) (snd second) context session_id.

(** [_process_and_analyze_content]. *)
Definition _process_and_analyze_content (all_content : list dict) (query : string)
    (context : dict) : result dict :=
  sizes ← mapM (fun item => py_len (dget_default "content" (VStr "") item)) all_content;
  average_quality ←
    match all_content with
    | [] => Ok (VInt 0)
    | _ =>
      total ← sum_numbers ((fun item => dget_default "quality_score" (VInt 0) item)
                           <$> all_content);
      Ok (VFloat (total / inject_Z (Z.of_nat (length all_content))))
    end;
  summary ←
    mapM (fun c =>
            url ← dindex "url" c;
            title ← dindex "title" c;
            size ← py_len (dget_default "content" (VStr "") c);
            Ok (VDict [("url", url); ("title", title); ("length", VInt size);
                       ("quality", dget_default "quality_score" (VInt 0) c)]))
         all_content;
  Ok [("query", VStr query);
      ("total_documents", VInt (Z.of_nat (length all_content)));
      ("total_characters", VInt (foldr Z.add 0 sizes));
      ("average_quality_score", average_quality);
      ("extracted_content_summary", VList summary);
      ("analysis_timestamp", VStr (now w))].

(** [_generate_emergency_research]. *)
Definition _generate_emergency_research (query : string) (context : dict) : dict :=
  [("query", VStr query);
   ("total_documents", VInt 0);
   ("total_characters", VInt 0);
   ("average_quality_score", VInt 0);
   ("extracted_content_summary", VList []);
   ("analysis_timestamp", VStr (now w));
   ("status", VStr "emergency_fallback");
   ("message",
    VStr "Pesquisa de emergencia: falha critica na navegacao principal.")].

(** [_update_navigation_stats]: the counters are updated one after the
    other, so that an exception leaves the earlier updates in place. *)
Definition _update_navigation_stats (all_content : list dict) : st_m state unit :=
  _ ← with_navigation (fun n =>
        {| total_searches := total_searches n + 1;
           successful_extractions := successful_extractions n;
           failed_extractions := failed_extractions n;
           blocked_urls := blocked_urls n;
           preferred_sources := preferred_sources n;
           total_content_chars := total_content_chars n;
           avg_quality_score := avg_quality_score n |});
  _ ← with_navigation (fun n =>
        {| total_searches := total_searches n;
           successful_extractions :=
             successful_extractions n
             + Z.of_nat (length (filter
                          (fun c => truthy (dget_default "success" VNone c) = true)
                          all_content));
           failed_extractions := failed_extractions n;
           blocked_urls := blocked_urls n;
           preferred_sources := preferred_sources n;
           total_content_chars := total_content_chars n;
           avg_quality_score := avg_quality_score n |});
  sizes ← call (mapM (fun c => py_len (dget_default "content" (VStr "") c)) all_content);
  _ ← with_navigation (fun n =>
        {| total_searches := total_searches n;
           successful_extractions := successful_extractions n;
           failed_extractions := failed_extractions n;
           blocked_urls := blocked_urls n;
           preferred_sources := preferred_sources n;
           total_content_chars := total_content_chars n + foldr Z.add 0 sizes;
           avg_quality_score := avg_quality_score n |});
  total_quality_score ←
    call (sum_numbers ((fun c => dget_default "quality_score" (VInt 0) c)
                       <$> all_content));
  with_navigation (fun n =>
    {| total_searches := total_searches n;
       successful_extractions := successful_extractions n;
       failed_extractions := failed_extractions n;
       blocked_urls := blocked_urls n;
       preferred_sources := preferred_sources n;
       total_content_chars := total_content_chars n;
       avg_quality_score :=
         if 0 <? successful_extractions n
         then VFloat (total_quality_score / inject_Z (successful_extractions n))
         else avg_quality_score n |}).

Section levels.
(** The function called for the related queries: the method itself. *)
Variable research :
  string -> dict -> Z -> Z -> option string -> st_m state dict.

(** The loop over [related_queries[:3]]. *)
Fixpoint related_loop (related_queries : list string) (context : dict)
    (session_id : option string) : st_m run unit :=
  match related_queries with
  | [] => mret tt
  | related_query :: rest =>
    _ ← try_except
          (related_content ← on_services (research related_query context 5 1 session_id);
           append_content (dset "related_query" (VStr related_query) related_content))
          (fun _ => mret tt);
    related_loop rest context session_id
  end.

(** Levels 1 to 3: what [all_content] holds when the processing starts. *)
Definition collect_content (query : string) (context : dict) (max_pages depth_levels : Z)
    (session_id : option string) : st_m run (list dict) :=
  _ ← level1 query context max_pages session_id;
  found ← gets all_content;
  _ ← (if 2 <? depth_levels then
         match found with
         | [] => mret tt
         | _ =>
           related_loop (take 3 (_generate_related_queries query context found))
             context session_id
         end
       else mret tt);
  gets all_content.

(** The [try] block of [navigate_and_research_deep]. *)
Definition research_attempt (query : string) (context : dict) (max_pages depth_levels : Z)
    (session_id : option string) : st_m state dict :=
  _ ← call (salvar_etapa w "websailor_iniciado");
  all_content ←
    with_new_locals (collect_content query context max_pages depth_levels session_id);
  processed_research ← call (_process_and_analyze_content all_content query context);
  _ ← _update_navigation_stats all_content;
  _ ← call (salvar_etapa w "websailor_resultado");
  mret processed_research.

(** The method body: the [try] block and its handler, which reports the
    error and answers with the emergency research. *)
Definition research_body (query : string) (context : dict) (max_pages depth_levels : Z)
    (session_id : option string) : st_m state dict :=
  try_except (research_attempt query context max_pages depth_levels session_id)
    (fun e =>
       _ ← call (salvar_erro w "websailor_critico" e);
       mret (_generate_emergency_research query context)).
End levels.

(** [navigate_and_research_deep].  The method calls itself for the related
    queries, with [depth_levels=1], and a call with [depth_levels=1] calls
    nothing: two levels of the body are the whole recursion. *)
Definition navigate_and_research_deep
  : string -> dict -> Z -> Z -> option string -> st_m state dict :=
  research_body
    (research_body
       (fun _ _ _ _ _ =>
          call (Raise (OtherException "maximum recursion depth exceeded")))).
End agent.

(** What level 1 extracts, from a given state of the services. *)
Definition level1_content (attributes : list string) (w : world) (keys : credentials)
    (self : websailor_agent) (query : string) (context : dict) (max_pages : Z)
    (session_id : option string) (st : state) : list dict :=
  all_content (snd (level1 attributes w keys self query context max_pages session_id
                      (new_locals st))).

(** The dictionary [_extract_content_multi_strategy] returns, before the
    predictive block has added anything to it. *)
Definition extraction_record (url : string) (title : value) (content : string)
    (quality : Z) (extraction_method : string) (methods_tried : list value)
    (is_preferred : bool) : dict :=
  (extracted url title content quality extraction_method
   ++ [("methods_tried", VList methods_tried);
       ("is_preferred_source", VBool is_preferred)])%list.

(** What the predictive block can add. *)
Definition predictive_entries (entries : dict) : Prop :=
  entries = [] \/
  (exists score, entries = [("quality_score_predictive", score)]) \/
  (exists score path,
     entries = [("quality_score_predictive", score); ("screenshot_path", path)]).

(** What an element of [all_content] looks like after level 1. *)
Definition level1_item (item : dict) : Prop :=
  exists url title content quality extraction_method methods_tried is_preferred
         entries engine_name,
    item = (extraction_record url title content quality extraction_method
              methods_tried is_preferred
            ++ entries
            ++ [("search_engine", VStr engine_name);
                ("content_length", VInt (Z.of_nat (String.length content)))])%list /\
    50 < Z.of_nat (String.length content) /\
    0 <= quality <= 100 /\
    extraction_method ∈ ["jina_reader"; "exa"; "beautifulsoup"] /\
    engine_name ∈ ["Google Custom Search"; "Serper API"] /\
    predictive_entries entries.

(** An element of [all_content] to which the predictive block has added
    nothing. *)
Definition without_predictive_entries (item : dict) : Prop :=
  dget "quality_score_predictive" item = None /\
  dget "screenshot_path" item = None.

(** A world in which the Jina reader serves every page and everything that
    stores or logs returns. *)
Definition sample_world : world :=
  {| google_custom_search := fun _ _ _ _ =>
       Ok (VDict [("items",
                   VList [VDict [("title", VStr "Energy drinks in Brazil");
                                 ("link", VStr "https://exame.com/energy")];
                          VDict [("title", VStr "No address")]])]);
     serper_search := fun _ _ _ => Raise (OtherException "serper is down");
     serper_completes_first := fun _ => true;
     jina_reader := fun _ url =>
       Ok (200, "The market for energy drinks keeps growing in every region of the country, "
                ++ "and so does the number of brands that compete for it.");
     has_exa := false;
     exa_is_available := Ok false;
     extract_content_with_exa := fun _ => Ok VNone;
     page_text := fun _ => Raise (OtherException "connection refused");
     get_content_quality_score := fun _ => Ok (VInt 90);
     browser_of := working_browser;
     netloc := urlparse_netloc;
     salvar_etapa := fun _ => Ok tt;
     salvar_erro := fun _ _ => Ok tt;
     salvar_trecho_pesquisa_web := fun _ _ => Ok tt;
     now := "2025-01-01T00:00:00" |}.

Definition sample_credentials : credentials :=
  {| google_search_key := Some "g-key"; jina_api_key := Some "j-key";
     google_cse_id := Some "cse"; serper_api_key := None |}.

End WebSailor.

(** ** The workflow routes ([routes/enhanced_workflow.py]) *)

Fixpoint ends_with_slash (s : string) : bool :=
  match s with
  | EmptyString => false
  | String c EmptyString => Ascii.eqb c "/"
  | String _ rest => ends_with_slash rest
  end.

(** [os.path.join(a, b)] on POSIX. *)
Definition os_path_join (a b : string) : string :=
  match b with
  | String "/" _ => b
  | _ => if String.eqb a "" || ends_with_slash a then a ++ b else a ++ "/" ++ b
  end.

(** [v.strip()]: only strings have the method. *)
Definition strip_value (v : value) : result string :=
  match v with
  | VStr s => Ok (strip s)
  | _ => Raise (AttributeError "strip")
  end.

Module Workflow.

(** What a background job does that can be seen from outside, in order. *)
Inductive event : Type :=
| Saved (name : string)              (* [salvar_etapa(name, ...)] *)
| Searched (query : string)          (* [execute_massive_real_search] *)
| AnalysedViral                      (* [analyze_and_capture_viral_content] *)
| Synthesised                        (* [execute_enhanced_synthesis] *)
| Predicted                          (* [analyze_all_data] *)
| ModulesGenerated                   (* [generate_all_modules] *)
| ReportCompiled.                    (* [compile_final_markdown_report] *)

#[global] Instance event_eq_dec : EqDecision event.
Proof. solve_decision. Defined.

Record state : Type := {
  search : orchestrator;             (* the global [real_search_orchestrator] *)
  files : gmap string string;        (* the files under [analyses_data] *)
  trace : list event
}.

(** The services the routes WebSailor.call whose code is outside the modelled files. *)
Record collaborators : Type := {
  analyze_and_capture_viral_content : dict -> string -> result value;
  makedirs : string -> result unit;
  open_for_writing : string -> result unit;
  (* [json.dump(report, f)]: what it writes, and the exception it ends in *)
  json_dump : dict -> string * option exn;
  execute_enhanced_synthesis : string -> result value;
  generate_all_modules : string -> dict -> result value;
  compile_final_markdown_report : string -> value -> result value;
  salvar_etapa : string -> result unit;
  now : string
}.

(** The global names of the module: its imports and its own functions. *)
Definition enhanced_workflow_globals : list string :=
  ["logging"; "time"; "uuid"; "asyncio"; "os"; "glob"; "datetime"; "Dict"; "Any";
   "Blueprint"; "request"; "jsonify"; "send_file"; "real_search_orchestrator";
   "viral_content_analyzer"; "enhanced_synthesis_engine";
   "enhanced_module_processor"; "comprehensive_report_generator_v3";
   "salvar_etapa"; "predictive_analytics_service"; "logger"; "enhanced_workflow_bp";
   "start_step1_collection"; "start_step2_synthesis"; "start_step3_generation";
   "execute_complete_workflow"; "_generate_collection_report";
   "_save_collection_report"].

Definition record (e : event) : WebSailor.st_m state unit :=
  WebSailor.modify (fun st => {| search := search st; files := files st;
                       trace := (trace st ++ [e])%list |}).

Definition write_file (path content : string) : WebSailor.st_m state unit :=
  WebSailor.modify (fun st => {| search := search st;
                       files := <[path := content]> (files st);
                       trace := trace st |}).

Section routes.
Variable globals : list string.
Variable m : modules.
Variable w : world.
Variable c : collaborators.

(** [salvar_etapa(name, ...)]. *)
Definition salvar (name : string) : WebSailor.st_m state unit :=
  _ ← record (Saved name);
  WebSailor.call (salvar_etapa c name).

(** [loop.run_until_complete(real_search_orchestrator
    .execute_massive_real_search(...))]: the returned document, as the
    dictionary it is. *)
Definition run_search (query : string) (context : dict) (session_id : string)
  : WebSailor.st_m state dict :=
  _ ← record (Searched query);
  ((fun st =>
      let '(outcome, self) :=
        execute_massive_real_search m w (search st) query context session_id in
      (match outcome with
       | Ok search_results => Ok (search_results_as_dict search_results)
       | Raise e => Raise e
       end,
       {| search := self; files := files st; trace := trace st |}))
   : WebSailor.st_m state dict).

(** [_generate_collection_report]. *)
Definition _generate_collection_report (search_results : dict) (viral_analysis : value)
    (session_id : string) (context : dict) : dict :=
  [("title", VStr "Relatorio de Coleta de Dados");
   ("session_id", VStr session_id);
   ("query", dget_default "query" (VStr "N/A") search_results);
   ("timestamp", VStr (now c));
   ("statistics", dget_default "statistics" (VDict []) search_results);
   ("viral_content_summary", viral_analysis);
   ("context", VDict context)].

(** [_save_collection_report]: the file is opened for writing, which creates
    or empties it, before [json.dump] is looked up. *)
Definition _save_collection_report (report : dict) (session_id : string)
  : WebSailor.st_m state unit :=
  let report_dir := os_path_join "analyses_data" session_id in
  _ ← WebSailor.call (makedirs c report_dir);
  let report_path := os_path_join report_dir "collection_report.json" in
  _ ← WebSailor.call (open_for_writing c report_path);
  _ ← write_file report_path "";
  dump ← WebSailor.call (global_name globals "json" (json_dump c));
  let '(written, raised) := dump report in
  _ ← write_file report_path written;
  match raised with
  | Some e => WebSailor.call (Raise e)
  | None => mret tt
  end.

(** The search, the viral analysis and the collection report, as both jobs
    run them. *)
Definition collect (query : string) (context : dict) (session_id : string)
  : WebSailor.st_m state unit :=
  search_results ← run_search query context session_id;
  _ ← record AnalysedViral;
  viral_analysis ← WebSailor.call (analyze_and_capture_viral_content c search_results session_id);
  let collection_report :=
    _generate_collection_report search_results viral_analysis session_id context in
  _save_collection_report collection_report session_id.

(** [execute_collection], the background job of step 1. *)
Definition execute_collection (query : string) (context : dict) (session_id : string)
  : WebSailor.st_m state unit :=
  WebSailor.try_except
    (_ ← collect query context session_id;
     salvar "etapa1_concluida")
    (fun _ => salvar "etapa1_erro").

(** [execute_full_workflow], the background job of the complete workflow,
    on the JSON body [data] of the request. *)
Definition execute_full_workflow (data : value) (session_id : string)
  : WebSailor.st_m state unit :=
  WebSailor.try_except
    (segmento ← WebSailor.call (found ← vget_default "segmento" (VStr "") data; strip_value found);
     produto ← WebSailor.call (found ← vget_default "produto" (VStr "") data; strip_value found);
     let query := strip (segmento ++ " " ++ produto ++ " Brasil 2024 mercado") in
     publico ← WebSailor.call (vget_default "publico" (VStr "") data);
     preco ← WebSailor.call (vget_default "preco" (VStr "") data);
     objetivo_receita ← WebSailor.call (vget_default "objetivo_receita" (VStr "") data);
     let context :=
       [("segmento", VStr segmento); ("produto", VStr produto);
        ("publico", publico); ("preco", preco);
        ("objetivo_receita", objetivo_receita);
        ("workflow_type", VStr "complete")] in
     _ ← collect query context session_id;
     _ ← record Synthesised;
     synthesis_result ← WebSailor.call (execute_enhanced_synthesis c session_id);
     _ ← record Predicted;
     predictive_insights ← WebSailor.call (analyze_all_data w session_id);
     _ ← record ModulesGenerated;
     modules_result ←
       WebSailor.call (generate_all_modules c session_id
               [("initial_predictive_insights", predictive_insights)]);
     _ ← record ReportCompiled;
     final_report ← WebSailor.call (compile_final_markdown_report c session_id predictive_insights);
     salvar "workflow_completo")
    (fun _ => salvar "workflow_completo_erro").

(** The answer of a route: the status code and the JSON body. *)
Record answer : Type := {
  status_code : Z;
  body : dict
}.

(** The arguments of the background job a route has started. *)
Record job : Type := {
  job_query : string;
  job_context : dict;
  job_session_id : string
}.

(** [start_step1_collection], on the outcome of [request.get_json()] and the
    session id generated from the clock and a UUID; the job it returns is the
    one it has started in a thread. *)
Definition start_step1_collection (request_json : result value) (session_id : string)
  : state -> answer * option job * state :=
  fun st =>
  match
    (data ← WebSailor.call request_json;
     segmento ← WebSailor.call (found ← vget_default "segmento" (VStr "") data; strip_value found);
     produto ← WebSailor.call (found ← vget_default "produto" (VStr "") data; strip_value found);
     publico ← WebSailor.call (found ← vget_default "publico" (VStr "") data; strip_value found);
     if String.eqb segmento "" then mret None
     else
       let query_parts :=
         ([segmento] ++ (if String.eqb produto "" then [] else [produto])
          ++ ["Brasil"; "2024"; "mercado"])%list in
       let query := join " " query_parts in
       let context :=
         [("segmento", VStr segmento); ("produto", VStr produto);
          ("publico", VStr publico); ("query_original", VStr query);
          ("etapa", VInt 1); ("workflow_type", VStr "enhanced_v3")] in
       _ ← salvar "etapa1_iniciada";
       mret (Some {| job_query := query; job_context := context;
                     job_session_id := session_id |})) st
  with
  | (Ok (Some started), st') =>
    ({| status_code := 200;
        body := [("success", VBool true);
                 ("session_id", VStr session_id);
                 ("message", VStr "Etapa 1 iniciada: Coleta massiva de dados");
                 ("query", VStr (job_query started));
                 ("estimated_duration", VStr "3-5 minutos");
                 ("next_step", VStr "/api/workflow/step2/start");
                 ("status_endpoint", VStr ("/api/workflow/status/" ++ session_id))] |},
     Some started, st')
  | (Ok None, st') =>
    ({| status_code := 400; body := [("error", VStr "Segmento e obrigatorio")] |},
     None, st')
  | (Raise e, st') =>
    ({| status_code := 500;
        body := [("success", VBool false); ("error", VStr (str_exn e));
                 ("message", VStr "Falha ao iniciar coleta de dados")] |},
     None, st')
  end.
End routes.

Definition sample_collaborators : collaborators :=
  {| analyze_and_capture_viral_content := fun _ _ => Ok (VDict []);
     makedirs := fun _ => Ok tt;
     open_for_writing := fun _ => Ok tt;
     json_dump := fun _ => ("{}", None);
     execute_enhanced_synthesis := fun _ => Ok (VDict []);
     generate_all_modules := fun _ _ => Ok (VDict []);
     compile_final_markdown_report := fun _ _ => Ok (VDict []);
     salvar_etapa := fun _ => Ok tt;
     now := "2025-01-01T00:00:00" |}.

Definition initial_state : state :=
  {| search := init ∅; files := ∅; trace := [] |}.

End Workflow.

(** ** The social-media clients
    ([FirecrwalSocialClient] and [SocialMediaExtractor.search_all_platforms]) *)

(** [type(v).__name__]. *)
Definition type_name (v : value) : string :=
  match v with
  | VNone => "NoneType"
  | VBool _ => "bool"
  | VInt _ => "int"
  | VFloat _ => "float"
  | VStr _ => "str"
  | VList _ => "list"
  | VDict _ => "dict"
  end.

(** [await v] for a value that is not awaitable; none of the JSON-like
    values is. *)
Definition await_value (v : value) : result value :=
  Raise (TypeError ("object " ++ type_name v ++ " can't be used in 'await' expression")).

(** The integer reading of a value. *)
Definition as_int (v : value) : option Z :=
  match v with
  | VBool b => Some (if b then 1 else 0)
  | VInt z => Some z
  | _ => None
  end.

(** [total + amount] for a running total that is a number: integers add to
    an integer, a float makes the sum a float (read as a rational, like
    [sum_numbers]); nothing else can be added to a number. *)
Definition add_to_number (total amount : value) : result value :=
  match as_int total, as_int amount with
  | Some x, Some y => Ok (VInt (x + y))
  | _, _ =>
    match as_number total, as_number amount with
    | Some p, Some q => Ok (VFloat (Qplus p q))
    | _, _ => Raise (TypeError "unsupported operand type(s) for +")
    end
  end.

(** [v == 0]. *)
Definition eq_zero (v : value) : bool :=
  match as_number v with
  | Some q => Qeq_bool q (inject_Z 0)
  | None => false
  end.

Module Firecrawl.

(** A [requests.Response], as far as the client looks at it. *)
Record reply : Type := {
  status_code : Z;
  reason : string;
  url : string;
  json : result value      (* [response.json()] *)
}.

(** The attributes [__init__] sets. *)
Record client : Type := {
  api_key : option string;
  base_url : string;
  enabled : bool;
  authorization : string   (* [self.headers["Authorization"]] *)
}.

(** [FirecrwalSocialClient.__init__], on the process environment. *)
Definition init (environ : gmap string string) : client :=
  let api_key := environ !! "FIRECRWAL_API_KEY" in
  {| api_key := api_key;
     base_url := default "https://api.firecrawl.com/v1" (environ !! "FIRECRWAL_API_URL");
     enabled := match api_key with Some key => negb (String.eqb key "") | None => false end;
     authorization := "Bearer " ++ default "None" api_key |}.

Definition domains : list (string * string) :=
  [("youtube", "youtube.com"); ("twitter", "twitter.com");
   ("linkedin", "linkedin.com"); ("instagram", "instagram.com");
   ("facebook", "facebook.com"); ("tiktok", "tiktok.com")].

Fixpoint lookup_domain (platform : string) (table : list (string * string))
  : option string :=
  match table with
  | [] => None
  | (name, domain) :: rest =>
    if String.eqb platform name then Some domain else lookup_domain platform rest
  end.

Definition _get_platform_domain (platform : string) : string :=
  default platform (lookup_domain platform domains).

(** [response.raise_for_status()]: an [HTTPError] for the statuses 400 to
    599, nothing for any other. *)
Definition raise_for_status (response : reply) : result unit :=
  if (400 <=? status_code response) && (status_code response <? 500) then
    Raise (OtherException (pretty (status_code response) ++ " Client Error: "
                           ++ reason response ++ " for url: " ++ url response))
  else if (500 <=? status_code response) && (status_code response <? 600) then
    Raise (OtherException (pretty (status_code response) ++ " Server Error: "
                           ++ reason response ++ " for url: " ++ url response))
  else Ok tt.

Section client.
Variable post : request -> result reply.   (* [requests.post] *)
Variable now : string.
Variable self : client.

(** The request [_execute_firecrawl_search] posts for a query. *)
Definition search_request (query : string) : request :=
  {| verb := "POST";
     endpoint := base_url self ++ "/search";
     credential := authorization self;
     payload := [("query", VStr query);
                 ("page_options", VDict [("onlyMainContent", VBool true)]);
                 ("crawl_options", VDict [("depth", VInt 1)]);
                 ("return_only_urls", VBool false)] |}.

(** [_execute_firecrawl_search]; the state is the log of the requests
    posted.  Its handler logs and re-raises.  After a status that is neither
    200 nor an error status the function falls off its end and returns
    [None]. *)
Definition _execute_firecrawl_search (query context : string)
  : WebSailor.st_m (list request) value :=
  match api_key self with
  | Some (String _ _) =>
    _ ← WebSailor.modify (fun log => log ++ [search_request query])%list;
    response ← WebSailor.call (post (search_request query));
    if status_code response =? 200 then WebSailor.call (json response)
    else
      _ ← WebSailor.call (raise_for_status response);
      mret VNone
  | _ => WebSailor.call (Raise (OtherException "FIRECRWAL_API_KEY nao configurada."))
  end.

(** The loop of [search_social_media] over the platforms. *)
Fixpoint search_platforms (query : string) (platforms : list string) (results : dict)
  : WebSailor.st_m (list request) dict :=
  match platforms with
  | [] => mret results
  | platform :: rest =>
    let platform_query := query ++ " site:" ++ _get_platform_domain platform in
    platform_results ← _execute_firecrawl_search platform_query platform;
    search_platforms query rest (dset platform platform_results results)
  end.

(** [platforms or ["instagram", "facebook"]]. *)
Definition platforms_or_default (platforms : option (list string)) : list string :=
  match platforms with
  | Some (platform :: rest) => platform :: rest
  | _ => ["instagram"; "facebook"]
  end.

(** [search_social_media], a plain method, not a coroutine function. *)
Definition search_social_media (query : string) (platforms : option (list string))
  : WebSailor.st_m (list request) value :=
  if negb (enabled self) then
    mret (VDict [("success", VBool false);
                 ("error", VStr "Firecrwal Social Client nao habilitado")])
  else
    let platforms := platforms_or_default platforms in
    results ← search_platforms query platforms [];
    mret (VDict [("total_platforms", VInt (Z.of_nat (length platforms)));
                 ("platforms_searched", VList (VStr <$> platforms));
                 ("results", VDict results);
                 ("timestamp", VStr now);
                 ("source", VStr "firecrawl_real")]).

(** The request posted for a platform of [search_social_media]. *)
Definition platform_request (query platform : string) : request :=
  search_request (query ++ " site:" ++ _get_platform_domain platform).

(** An entry of the [results] of [search_social_media]: [None], or the JSON
    body of the reply with status 200 to the request for its platform. *)
Definition answered_entry (query : string) (entry : string * value) : Prop :=
  exists response,
    post (platform_request query (fst entry)) = Ok response /\
    if status_code response =? 200 then json response = Ok (snd entry)
    else snd entry = VNone /\ raise_for_status response = Ok tt.

Definition is_available : bool := enabled self.

(** [get_provider_status]. *)
Definition get_provider_status : dict :=
  [("name", VStr "firecrwal");
   ("enabled", VBool (enabled self));
   ("status", VStr (if enabled self then "active" else "disabled"));
   ("api_configured",
    VBool match api_key self with Some key => negb (String.eqb key "") | None => false end);
   ("base_url", VStr (base_url self))].
End client.
End Firecrawl.

Module Social.

(** [services.tavily_mcp_client] is not part of the sources at hand: its
    three methods are whatever they are, and each may raise.  The two
    searches stand for the awaited call. *)
Record tavily : Type := {
  is_available : result bool;
  search_youtube_content : string -> result value;
  search_social_media : string -> list string -> result value
}.

(** [results["platforms"][name] = data]. *)
Definition set_platform (name : string) (data : value) (results : dict) : result dict :=
  platforms ← dindex "platforms" results;
  match platforms with
  | VDict entries => Ok (dset "platforms" (VDict (dset name data entries)) results)
  | _ => Raise (TypeError "object does not support item assignment")
  end.

(** [results["total_results"] += amount]. *)
Definition add_total (amount : value) (results : dict) : result dict :=
  total ← dindex "total_results" results;
  total ← add_to_number total amount;
  Ok (dset "total_results" total results).

(** [data.get("results", {}).get(name, {}).get("total_results", 0)]. *)
Definition platform_total (name : string) (data : value) : result value :=
  found ← vget_default "results" (VDict []) data;
  found ← vget_default name (VDict []) found;
  vget_default "total_results" (VInt 0) found.

(** The three statements under [if ... > 0] for a platform reported under
    [data["results"][name]]. *)
Definition keep_platform (name : string) (data : value) (results : dict) : result dict :=
  found ← vindex "results" data;
  found ← vindex name found;
  results ← set_platform name found results;
  amount ← vindex "total_results" found;
  add_total amount results.

(** The dictionary [search_all_platforms] works on, by its two entries that
    change. *)
Definition platform_results (query now : string) (platforms : dict) (total : value)
  : dict :=
  [("query", VStr query); ("platforms", VDict platforms); ("total_results", total);
   ("search_quality", VStr "real_data"); ("generated_at", VStr now)].

(** [data["total_results"]] as a rational, 0 when there is none. *)
Definition reported_total (data : value) : Q :=
  match vindex "total_results" data with
  | Ok total => default (inject_Z 0) (as_number total)
  | Raise _ => inject_Z 0
  end.

(** [sum(data["total_results"] for data in platforms.values())]. *)
Definition sum_reported (platforms : dict) : Q :=
  foldr (fun entry total => Qplus (reported_total (snd entry)) total) (inject_Z 0)
    platforms.

Section extractor.
Variable tavily_client : tavily.
Variable post : request -> result Firecrawl.reply.
Variable now : string.
Variable firecrawl_client : Firecrawl.client.

(** One of the platforms asked from Firecrawl: the method is called, and
    what it returns is awaited. *)
Definition firecrawl_platform (name : string) (query : string) (results : dict)
  : WebSailor.st_m (list request) dict :=
  returned ← Firecrawl.search_social_media post now firecrawl_client query (Some [name]);
  data ← WebSailor.call (await_value returned);
  total ← WebSailor.call (platform_total name data);
  positive ← WebSailor.call (gt_int total 0);
  if positive : bool then WebSailor.call (keep_platform name data results)
  else mret results.

(** The block under [if self.tavily_client.is_available()]. *)
Definition tavily_platforms (query : string) (results : dict) : result dict :=
  youtube_data ← search_youtube_content tavily_client query;
  total ← vget_default "total_results" (VInt 0) youtube_data;
  positive ← gt_int total 0;
  results ←
    (if positive : bool then
       results ← set_platform "youtube" youtube_data results;
       amount ← vindex "total_results" youtube_data;
       add_total amount results
     else Ok results);
  twitter_data ← search_social_media tavily_client query ["twitter"];
  total ← platform_total "twitter" twitter_data;
  positive ← gt_int total 0;
  if positive : bool then keep_platform "twitter" twitter_data results
  else Ok results.

(** The block under [if self.firecrawl_client.is_available()]. *)
Definition firecrawl_platforms (query : string) (results : dict)
  : WebSailor.st_m (list request) dict :=
  results ← firecrawl_platform "instagram" query results;
  firecrawl_platform "facebook" query results.

(** [search_all_platforms]; the state is the log of the requests posted to
    Firecrawl. *)
Definition search_all_platforms (query : string) : WebSailor.st_m (list request) dict :=
  let results :=
    [("query", VStr query); ("platforms", VDict []); ("total_results", VInt 0);
     ("search_quality", VStr "real_data"); ("generated_at", VStr now)] in
  available ← WebSailor.call (is_available tavily_client);
  results ←
    (if available : bool then WebSailor.call (tavily_platforms query results)
     else mret results);
  results ←
    (if Firecrawl.is_available firecrawl_client then firecrawl_platforms query results
     else mret results);
  total ← WebSailor.call (dindex "total_results" results);
  mret (dset "success" (VBool (negb (eq_zero total))) results).
End extractor.

(** [await social_media_extractor.search_all_platforms(query)], as the
    massive collector makes the call: it sees the dictionary or the
    exception, not the requests posted. *)
Definition awaited_search_all_platforms (tavily_client : tavily)
    (post : request -> result Firecrawl.reply) (now : string)
    (firecrawl_client : Firecrawl.client) (query : string) : result value :=
  match fst (search_all_platforms tavily_client post now firecrawl_client query []) with
  | Ok results => Ok (VDict results)
  | Raise e => Raise e
  end.

(** The collaborators of the massive collector, with this extractor as its
    [social_media_extractor]. *)
Definition with_extractor (c : Collector.collaborators) (tavily_client : tavily)
    (post : request -> result Firecrawl.reply) (now : string)
    (firecrawl_client : Firecrawl.client) : Collector.collaborators :=
  {| Collector.interleaved_search := Collector.interleaved_search c;
     Collector.trendfinder_is_available := Collector.trendfinder_is_available c;
     Collector.trendfinder_search := Collector.trendfinder_search c;
     Collector.supadata_is_available := Collector.supadata_is_available c;
     Collector.supadata_search := Collector.supadata_search c;
     Collector.search_all_platforms :=
       awaited_search_all_platforms tavily_client post now firecrawl_client;
     Collector.select_top_urls_impl := Collector.select_top_urls_impl c;
     Collector.capture_screenshots_impl := Collector.capture_screenshots_impl c;
     Collector.get_provider_stats := Collector.get_provider_stats c;
     Collector.str_length := Collector.str_length c;
     Collector.write_json := Collector.write_json c;
     Collector.salvar_etapa := Collector.salvar_etapa c;
     Collector.salvar_erro := Collector.salvar_erro c;
     Collector.now := Collector.now c;
     Collector.elapsed_time := Collector.elapsed_time c |}.

(** A Tavily client that finds twelve videos and no tweet. *)
Definition sample_tavily : tavily :=
  {| is_available := Ok true;
     search_youtube_content := fun query =>
       Ok (VDict [("total_results", VInt 12);
                  ("results", VList [VDict [("title", VStr query)]])]);
     search_social_media := fun _ _ =>
       Ok (VDict [("results", VDict [("twitter", VDict [("total_results", VInt 0)])])]) |}.

(** A Firecrawl service that answers every search with two posts. *)
Definition sample_post_service (rq : request) : result Firecrawl.reply :=
  Ok {| Firecrawl.status_code := 200; Firecrawl.reason := "OK";
        Firecrawl.url := endpoint rq;
        Firecrawl.json := Ok (VDict [("total_results", VInt 2)]) |}.
(** A Tavily client that is not configured. *)
Definition unavailable_tavily : tavily :=
  {| is_available := Ok false;
     search_youtube_content := fun _ => Raise (OtherException "tavily not configured");
     search_social_media := fun _ _ => Raise (OtherException "tavily not configured") |}.

(** An environment with a key for Firecrawl. *)
Definition firecrawl_environ : gmap string string :=
  {[ "FIRECRWAL_API_KEY" := "fc-key" ]}.
End Social.

(** * Properties *)

Local Open Scope list_scope.

(** ** Credential pool *)

Section credential_pool.
Implicit Types (self : orchestrator) (provider : string) (keys : list string).

Lemma getitem_in_range {A} (l : list A) (i : Z) :
  0 <= i < Z.of_nat (length l) ->
  getitem l i = l !! Z.to_nat i /\ is_Some (l !! Z.to_nat i).
Proof.
  intros Hi. unfold getitem. rewrite decide_True by done.
  split; [done|]. apply lookup_lt_is_Some. lia.
Qed.

Lemma get_next_api_key_disabled self provider :
  api_keys self !! provider = None \/ api_keys self !! provider = Some [] ->
  get_next_api_key self provider = (Ok None, self).
Proof. unfold get_next_api_key. by intros [-> | ->]. Qed.

Lemma get_next_api_key_step self provider keys c :
  api_keys self !! provider = Some keys ->
  key_indices self !! provider = Some c ->
  0 <= c < Z.of_nat (length keys) ->
  exists key,
    keys !! Z.to_nat c = Some key /\
    get_next_api_key self provider =
      (Ok (Some key),
       {| api_keys := api_keys self;
          key_indices :=
            <[provider := (c + 1) `mod` Z.of_nat (length keys)]> (key_indices self);
          stats := bump_rotation provider (stats self) |}).
Proof.
  intros Hk Hc Hr. destruct (getitem_in_range keys c Hr) as [Hg [key Hkey]].
  exists key. split; [done|]. unfold get_next_api_key. rewrite Hk.
  destruct keys as [|k0 keys']; [simpl in Hr; lia|].
  rewrite Hc, Hg, Hkey. done.
Qed.

Lemma init_cursors_in_range (pools : gmap string (list string)) :
  cursors_in_range (init pools).
Proof.
  intros provider keys Hk Hne. simpl in *. exists 0. split.
  - by rewrite lookup_fmap, Hk.
  - destruct keys; [done|]. simpl. lia.
Qed.

Lemma get_next_api_key_api_keys self provider :
  api_keys (snd (get_next_api_key self provider)) = api_keys self.
Proof.
  unfold get_next_api_key.
  destruct (api_keys self !! provider) as [[|k0 keys]|]; [done| |done].
  destruct (key_indices self !! provider); [|done].
  by destruct (getitem _ _).
Qed.

Lemma get_next_api_key_cursors_in_range self provider :
  cursors_in_range self ->
  cursors_in_range (snd (get_next_api_key self provider)).
Proof.
  intros Hinv p keys Hk Hne.
  rewrite get_next_api_key_api_keys in Hk.
  destruct (Hinv p keys Hk Hne) as (c & Hc & Hr).
  destruct (api_keys self !! provider) as [pool|] eqn:Hp;
    [|rewrite get_next_api_key_disabled by auto; eauto].
  destruct pool as [|k0 pool'] eqn:Hpool;
    [rewrite get_next_api_key_disabled by auto; eauto|].
  rewrite <- Hpool in *. assert (pool <> []) as Hpne by (by subst).
  destruct (Hinv provider pool Hp Hpne) as (c' & Hc' & Hr').
  destruct (get_next_api_key_step self provider pool c' Hp Hc' Hr')
    as (key & _ & ->). simpl.
  destruct (decide (provider = p)) as [->|Hneq].
  - rewrite lookup_insert_eq. assert (pool = keys) as -> by congruence.
    eexists; split; [done|]. apply Z.mod_pos_bound. lia.
  - rewrite lookup_insert_ne by done. eauto.
Qed.

Lemma run_calls_cursors_in_range providers self :
  cursors_in_range self -> cursors_in_range (run_calls self providers).
Proof.
  revert self. induction providers as [|p ps IH]; intros self Hinv; [done|].
  simpl. apply IH. by apply get_next_api_key_cursors_in_range.
Qed.

(** The [j]-th of [n] consecutive calls returns the credential at position
    [(c + j) mod k], and the cursor ends at [(c + n) mod k]. *)
Lemma get_next_api_key_n_spec n self provider keys c :
  api_keys self !! provider = Some keys ->
  key_indices self !! provider = Some c ->
  0 <= c < Z.of_nat (length keys) ->
  let k := Z.of_nat (length keys) in
  let '(rs, self') := get_next_api_key_n self provider n in
  rs = (fun j : nat => Ok (keys !! Z.to_nat ((c + Z.of_nat j) `mod` k))) <$> seq 0 n /\
  api_keys self' = api_keys self /\
  key_indices self' !! provider = Some ((c + Z.of_nat n) `mod` k).
Proof.
  revert self c. induction n as [|n IH]; intros self c Hk Hc Hr k.
  - simpl. split; [done|]. split; [done|].
    rewrite Z.add_0_r, Z.mod_small by done. done.
  - simpl. destruct (get_next_api_key_step self provider keys c Hk Hc Hr)
      as (key & Hkey & ->).
    set (self1 := {| api_keys := _ |}).
    assert (0 <= (c + 1) `mod` k < k) as Hr1 by (apply Z.mod_pos_bound; lia).
    specialize (IH self1 ((c + 1) `mod` k) Hk (lookup_insert_eq _ _ _) Hr1).
    destruct (get_next_api_key_n self1 provider n) as [rs self2].
    destruct IH as (-> & Hk2 & Hc2). split; [|split].
    + f_equal.
      * rewrite Z.add_0_r, Z.mod_small by done. by rewrite Hkey.
      * rewrite <- fmap_S_seq, <- list_fmap_compose. apply list_fmap_ext.
        intros _ j _. simpl. do 3 f_equal. fold k.
        rewrite Zplus_mod_idemp_l. f_equal. lia.
    + done.
    + rewrite Hc2. f_equal. fold k. rewrite Zplus_mod_idemp_l. f_equal. lia.
Qed.

(** One full period, started at cursor [c], is the pool rotated by [c]. *)
Lemma period_is_rotation keys (c : Z) :
  0 <= c < Z.of_nat (length keys) ->
  (fun j : nat => @Ok (option string)
      (keys !! Z.to_nat ((c + Z.of_nat j) `mod` Z.of_nat (length keys))))
    <$> seq 0 (length keys)
  = (fun key => Ok (Some key)) <$> rotate (Z.to_nat c) keys.
Proof.
  intros Hr. apply list_eq. intros j. rewrite !list_lookup_fmap.
  destruct (decide (j < length keys)%nat) as [Hj|Hj].
  - rewrite lookup_seq_lt by done. rewrite lookup_rotate_r by done. simpl.
    unfold rotate_nat_add. rewrite Z2Nat.id by lia.
    destruct (lookup_lt_is_Some_2 keys
      (Z.to_nat ((c + Z.of_nat j) `mod` Z.of_nat (length keys)))) as [key ->];
      [|done].
    pose proof (Z.mod_pos_bound (c + Z.of_nat j) (Z.of_nat (length keys))). lia.
  - rewrite lookup_seq_ge by lia. simpl.
    rewrite (lookup_ge_None_2 (rotate _ _)); [done|]. rewrite length_rotate. lia.
Qed.

Lemma seq_from_zero (j n : nat) : seq j n = Nat.add j <$> seq 0 n.
Proof. by rewrite fmap_add_seq, Nat.add_0_r. Qed.

Lemma rotate_Permutation {A} (n : nat) (l : list A) : rotate n l ≡ₚ l.
Proof.
  unfold rotate. rewrite Permutation_app_comm. by rewrite take_drop.
Qed.
End credential_pool.

(** C3.  Round-robin credential rotation.  (1) From the state built by
    [__init__], any sequence of [get_next_api_key] calls keeps every cursor of
    a non-empty pool inside [[0, k)].  (2) In such a state, for a provider
    whose pool [keys] has [k > 0] credentials: one call returns the credential
    at the cursor [c], moves that cursor to [(c + 1) mod k] and touches no
    other cursor and no pool; among [n] consecutive calls the [j]-th returns
    [keys[(c + j) mod k]], so calls [j] and [j + k] return the same
    credential, every window of [k] consecutive calls is a permutation of the
    pool (each position exactly once), and the cursor ends at
    [(c + n) mod k].  (3) For a provider without credentials the call returns
    [None] and changes nothing. *)
Theorem get_next_api_key_round_robin :
  (forall pools providers, cursors_in_range (run_calls (init pools) providers)) /\
  (forall self provider keys,
     cursors_in_range self ->
     api_keys self !! provider = Some keys ->
     (0 < length keys)%nat ->
     let k := Z.of_nat (length keys) in
     exists c,
       key_indices self !! provider = Some c /\ 0 <= c < k /\
       (exists key self',
          get_next_api_key self provider = (Ok (Some key), self') /\
          getitem keys c = Some key /\
          api_keys self' = api_keys self /\
          key_indices self' !! provider = Some ((c + 1) `mod` k) /\
          0 <= (c + 1) `mod` k < k /\
          (forall p, p <> provider ->
                     key_indices self' !! p = key_indices self !! p)) /\
       (forall n : nat,
          let rs := fst (get_next_api_key_n self provider n) in
          let self' := snd (get_next_api_key_n self provider n) in
          length rs = n /\
          (forall j : nat, (j < n)%nat ->
             exists key, keys !! Z.to_nat ((c + Z.of_nat j) `mod` k) = Some key /\
                         rs !! j = Some (Ok (Some key))) /\
          (forall j : nat, (j + length keys < n)%nat ->
             rs !! (j + length keys)%nat = rs !! j) /\
          (forall j : nat, (j + length keys <= n)%nat ->
             take (length keys) (drop j rs) ≡ₚ (fun key => Ok (Some key)) <$> keys) /\
          key_indices self' !! provider = Some ((c + Z.of_nat n) `mod` k) /\
          0 <= (c + Z.of_nat n) `mod` k < k)) /\
  (forall self provider,
     api_keys self !! provider = None \/ api_keys self !! provider = Some [] ->
     get_next_api_key self provider = (Ok None, self)).
Proof.
  split; [|split].
  - intros pools providers. apply run_calls_cursors_in_range, init_cursors_in_range.
  - intros self provider keys Hinv Hk Hlen k.
    assert (keys <> []) as Hne by (intros ->; simpl in Hlen; lia).
    destruct (Hinv provider keys Hk Hne) as (c & Hc & Hr).
    exists c. split; [done|]. split; [done|]. split.
    + destruct (get_next_api_key_step self provider keys c Hk Hc Hr)
        as (key & Hkey & Heq).
      eexists key, _. split; [exact Heq|]. simpl.
      split; [by rewrite (proj1 (getitem_in_range keys c Hr))|].
      split; [done|]. split; [by rewrite lookup_insert_eq|].
      split; [apply Z.mod_pos_bound; lia|].
      intros p Hp. by rewrite lookup_insert_ne.
    + intros n rs self'. subst rs self'.
      pose proof (get_next_api_key_n_spec n self provider keys c Hk Hc Hr) as Hn.
      destruct (get_next_api_key_n self provider n) as [rs self']. simpl in *.
      fold k in Hn. destruct Hn as (Hrs & _ & Hcur).
      assert (forall j : nat, 0 <= (c + Z.of_nat j) `mod` k < k) as Hmod
        by (intros j; apply Z.mod_pos_bound; lia).
      assert (forall j : nat, (j < n)%nat ->
                rs !! j = Some (Ok (keys !! Z.to_nat ((c + Z.of_nat j) `mod` k))))
        as Hj.
      { intros j Hlt. rewrite Hrs, list_lookup_fmap, lookup_seq_lt by done. done. }
      split; [by rewrite Hrs, length_fmap, length_seq|].
      split; [|split; [|split; [|split]]].
      * intros j Hlt. specialize (Hmod j).
        destruct (lookup_lt_is_Some_2 keys (Z.to_nat ((c + Z.of_nat j) `mod` k)))
          as [key Hkey]; [lia|].
        exists key. split; [done|]. by rewrite Hj, Hkey.
      * intros j Hlt. rewrite !Hj by lia. do 3 f_equal.
        rewrite Nat2Z.inj_add. fold k.
        replace (c + (Z.of_nat j + k)) with (c + Z.of_nat j + 1 * k) by lia.
        by rewrite Z_mod_plus_full.
      * intros j Hle. rewrite Hrs, <- fmap_drop, <- fmap_take.
        rewrite drop_seq, take_seq.
        replace (length keys `min` (n - j))%nat with (length keys) by lia.
        simpl. rewrite <- (rotate_Permutation
                 (Z.to_nat ((c + Z.of_nat j) `mod` k)) keys) at 2.
        rewrite <- period_is_rotation by apply Hmod.
        simpl. rewrite (seq_from_zero j), <- list_fmap_compose.
        erewrite list_fmap_ext; [reflexivity|]. intros _ i _. simpl.
        do 3 f_equal. fold k.
        rewrite Zplus_mod_idemp_l. f_equal. lia.
      * done.
      * apply Hmod.
  - intros self provider. apply get_next_api_key_disabled.
Qed.

Example get_next_api_key_four_calls :
  fst (get_next_api_key_n (init sample_pools) "GOOGLE" 4) =
    [Ok (Some "g-key-0"); Ok (Some "g-key-1"); Ok (Some "g-key-2"); Ok (Some "g-key-0")]
  /\ key_indices (snd (get_next_api_key_n (init sample_pools) "GOOGLE" 4)) !! "GOOGLE"
     = Some 1
  /\ fst (get_next_api_key (init sample_pools) "EXA") = Ok None.
Proof. vm_compute. done. Qed.

Lemma get_next_api_key_round_robin_witness :
  cursors_in_range (init sample_pools) /\
  api_keys (init sample_pools) !! "GOOGLE" = Some ["g-key-0"; "g-key-1"; "g-key-2"] /\
  (0 < length ["g-key-0"; "g-key-1"; "g-key-2"])%nat /\
  exists c, key_indices (init sample_pools) !! "GOOGLE" = Some c /\ 0 <= c < 3.
Proof.
  split; [apply init_cursors_in_range|].
  split; [reflexivity|]. split; [simpl; lia|].
  destruct (proj1 (proj2 get_next_api_key_round_robin) (init sample_pools) "GOOGLE"
              ["g-key-0"; "g-key-1"; "g-key-2"])
    as (c & Hc & Hr & _).
  - apply init_cursors_in_range.
  - reflexivity.
  - simpl; lia.
  - exists c. split; [exact Hc | exact Hr].
Defined.

(** ** Dictionaries *)

Lemma dget_dset_eq k v (d : dict) : dget k (dset k v d) = Some v.
Proof.
  induction d as [|[k' v'] d IH]; simpl.
  - by rewrite String.eqb_refl.
  - destruct (String.eqb k k') eqn:E; simpl; rewrite ?String.eqb_refl, ?E; done.
Qed.

Lemma dget_dset_ne k k' v (d : dict) : k <> k' -> dget k' (dset k v d) = dget k' d.
Proof.
  intros Hne. induction d as [|[k0 v0] d IH]; simpl.
  - destruct (String.eqb_spec k' k); [congruence|done].
  - destruct (String.eqb_spec k k0) as [->|Hk]; simpl.
    + destruct (String.eqb_spec k' k0); [congruence|done].
    + destruct (String.eqb_spec k' k0); [done|apply IH].
Qed.

(** ** Content quality score *)

Section quality.
Variable netloc : string -> string.
Implicit Types (self : websailor_agent) (content url : string).

Lemma lower_empty s : lower s = "" -> s = "".
Proof. by destruct s. Qed.

Lemma prefix_empty_r s : String.prefix s "" = true -> s = "".
Proof. by destruct s. Qed.

Lemma contains_empty_hay needle : contains needle "" = true -> needle = "".
Proof. by destruct needle. Qed.

Lemma add_keyword_points_strings content (keywords : list string) score :
  add_keyword_points content (VStr <$> keywords) score
  = Ok (score + 5 * spec_keyword_matches content keywords).
Proof.
  revert score. unfold spec_keyword_matches.
  induction keywords as [|kw kws IH]; intros score; simpl.
  - f_equal. lia.
  - rewrite IH. rewrite filter_cons.
    destruct (decide (contains (lower kw) (lower content) = true)) as [->|Hn].
    + f_equal. simpl length. lia.
    + apply not_true_is_false in Hn. rewrite Hn. done.
Qed.

Lemma spec_clamp_min_max score : Z.min 100 (Z.max 0 score) = spec_clamp score.
Proof.
  unfold spec_clamp. destruct (Z.ltb_spec score 0); [lia|].
  destruct (Z.gtb_spec score 100); lia.
Qed.

Lemma spec_clamp_bounds score : 0 <= spec_clamp score <= 100.
Proof. rewrite <- spec_clamp_min_max. lia. Qed.

Lemma spec_keyword_matches_empty_content (keywords : list string) :
  Forall (fun keyword => keyword <> "") keywords ->
  spec_keyword_matches "" keywords = 0.
Proof.
  unfold spec_keyword_matches. induction 1 as [|kw kws Hkw _ IH]; [done|].
  rewrite filter_cons. destruct (decide _) as [Hc|_]; [|done].
  simpl in Hc. apply contains_empty_hay, lower_empty in Hc. done.
Qed.

Lemma keywords_branch content (keywords : list string) (s0 : Z) :
  (if truthy (VList (VStr <$> keywords))
   then kws ← iter_value (VList (VStr <$> keywords));
        add_keyword_points content kws s0
   else Ok s0)
  = Ok (s0 + 5 * spec_keyword_matches content keywords).
Proof.
  destruct keywords as [|kw kws].
  - simpl. unfold spec_keyword_matches. simpl. f_equal. lia.
  - change (truthy _) with true. cbv iota.
    change (iter_value _) with (@Ok (list value) (VStr <$> kw :: kws)).
    change (mbind ?f (Ok ?x)) with (f x). cbv beta.
    apply add_keyword_points_strings.
Qed.

Lemma calculate_content_quality_keywords self content url keywords others :
  _calculate_content_quality netloc self content url
    (context_with_keywords keywords others)
  = Ok (spec_quality_score netloc self content url keywords).
Proof.
  unfold _calculate_content_quality, context_with_keywords, dget_default.
  rewrite dget_dset_eq. simpl default. rewrite keywords_branch.
  change (mbind ?f (Ok ?x)) with (f x). cbv beta.
  unfold spec_quality_score, spec_length_band.
  rewrite spec_clamp_min_max. do 2 f_equal.
  repeat case_match; lia.
Qed.
End quality.

Lemma calculate_content_quality_in_range netloc self content url context score :
  _calculate_content_quality netloc self content url context = Ok score ->
  0 <= score <= 100.
Proof.
  unfold _calculate_content_quality.
  destruct (if truthy _ then _ else _) as [s|e]; simpl; [|done].
  intros [= <-]. lia.
Qed.

Lemma calculate_content_quality_no_keywords netloc self content url context :
  dget "keywords" context = None ->
  _calculate_content_quality netloc self content url context
  = Ok (spec_quality_score netloc self content url []).
Proof.
  intros Hk. unfold _calculate_content_quality, dget_default. rewrite Hk. simpl.
  unfold spec_quality_score, spec_length_band, spec_keyword_matches. simpl.
  rewrite spec_clamp_min_max. do 2 f_equal. repeat case_match; lia.
Qed.




Example calculate_content_quality_examples :
  urlparse_netloc "https://G1.globo.com/economia?x=1" = "G1.globo.com" /\
  _calculate_content_quality urlparse_netloc AlibabaWebSailorAgent_init
    "Energy drinks in Brazil" "https://www.airbnb.com/x"
    (context_with_keywords ["ENERGY"; "brazil"; "tea"] []) = Ok 0 /\
  _calculate_content_quality urlparse_netloc AlibabaWebSailorAgent_init
    "Energy drinks in Brazil" "https://exame.com/x"
    (context_with_keywords ["ENERGY"; "brazil"; "tea"] []) = Ok 30 /\
  _calculate_content_quality urlparse_netloc AlibabaWebSailorAgent_init
    "abc" "https://exame.com/x" [("keywords", VList [VInt 3])]
    = Raise (AttributeError "lower").
Proof. repeat split; reflexivity. Qed.

(** ** Virality classifier *)

Section virality.
Implicit Types (item : dict) (v : value).

Lemma ge_int_number v q threshold :
  as_number v = Some q -> ge_int v threshold = Ok (Qle_bool (inject_Z threshold) q).
Proof. unfold ge_int. by intros ->. Qed.

Lemma ge_int_mono v v' q q' threshold :
  as_number v = Some q -> as_number v' = Some q' -> (q <= q')%Q ->
  ge_int v threshold = Ok true -> ge_int v' threshold = Ok true.
Proof.
  intros Hv Hv' Hle. rewrite (ge_int_number v q), (ge_int_number v' q') by done.
  intros [= H]. f_equal. apply Qle_bool_iff. apply Qle_bool_iff in H.
  by eapply Qle_trans.
Qed.

Lemma ge_int_VInt z threshold : ge_int (VInt z) threshold = Ok (threshold <=? z).
Proof.
  unfold ge_int. simpl. f_equal. apply eq_true_iff_eq.
  rewrite Qle_bool_iff, <- Zle_Qle. symmetry. apply Z.leb_le.
Qed.

Lemma is_viral_viral_of item :
  is_viral item = viral_of (dget_default "likes" (VInt 0) item)
                           (dget_default "comments" (VInt 0) item)
                           (dget_default "shares" (VInt 0) item).
Proof. done. Qed.

Lemma viral_of_mono_likes v v' q q' comments shares :
  as_number v = Some q -> as_number v' = Some q' -> (q <= q')%Q ->
  viral_of v comments shares = Ok true -> viral_of v' comments shares = Ok true.
Proof.
  intros Hv Hv' Hle. unfold viral_of.
  pose proof (ge_int_mono v v' q q' viral_threshold_likes Hv Hv' Hle) as Hm.
  rewrite (ge_int_number v' q') by done.
  destruct (ge_int v viral_threshold_likes) as [[|]|e] eqn:E; simpl; try done.
  - intros _. specialize (Hm eq_refl). rewrite (ge_int_number v' q') in Hm by done.
    injection Hm as ->. done.
  - intros H. by destruct (Qle_bool _ q').
Qed.

Lemma viral_of_mono_comments v v' q q' likes shares :
  as_number v = Some q -> as_number v' = Some q' -> (q <= q')%Q ->
  viral_of likes v shares = Ok true -> viral_of likes v' shares = Ok true.
Proof.
  intros Hv Hv' Hle. unfold viral_of.
  destruct (ge_int likes viral_threshold_likes) as [[|]|e]; simpl; try done.
  pose proof (ge_int_mono v v' q q' viral_threshold_comments Hv Hv' Hle) as Hm.
  rewrite (ge_int_number v' q') by done.
  destruct (ge_int v viral_threshold_comments) as [[|]|e] eqn:E; simpl; try done.
  - intros _. specialize (Hm eq_refl). rewrite (ge_int_number v' q') in Hm by done.
    injection Hm as ->. done.
  - intros H. by destruct (Qle_bool _ q').
Qed.

Lemma viral_of_mono_shares v v' q q' likes comments :
  as_number v = Some q -> as_number v' = Some q' -> (q <= q')%Q ->
  viral_of likes comments v = Ok true -> viral_of likes comments v' = Ok true.
Proof.
  intros Hv Hv' Hle. unfold viral_of.
  destruct (ge_int likes viral_threshold_likes) as [[|]|e]; simpl; try done.
  destruct (ge_int comments viral_threshold_comments) as [[|]|e]; simpl; try done.
  by apply ge_int_mono with (q := q) (q' := q').
Qed.

Lemma is_viral_mono item metric v v' q q' :
  metric ∈ ["likes"; "comments"; "shares"] ->
  as_number v = Some q -> as_number v' = Some q' -> (q <= q')%Q ->
  is_viral (dset metric v item) = Ok true ->
  is_viral (dset metric v' item) = Ok true.
Proof.
  intros Hm Hv Hv' Hle. rewrite !is_viral_viral_of. unfold dget_default.
  repeat (apply elem_of_cons in Hm as [->|Hm]);
    [| | |by apply elem_of_nil in Hm];
    rewrite !dget_dset_eq, !(dget_dset_ne _ _ v), !(dget_dset_ne _ _ v') by done;
    simpl default.
  - by apply viral_of_mono_likes with (q := q) (q' := q').
  - by apply viral_of_mono_comments with (q := q) (q' := q').
  - by apply viral_of_mono_shares with (q := q) (q' := q').
Qed.

Lemma identify_viral_content_singleton item :
  _identify_viral_content [item] = Ok [item] <-> is_viral item = Ok true.
Proof.
  simpl. destruct (is_viral item) as [[|]|e]; simpl; split; try done.
Qed.
End virality.

(** C7.  Virality classification is monotone in each engagement metric.  An
    item whose likes, comments and shares are integers is classified viral
    exactly when likes >= 1000 or comments >= 100 or shares >= 50; and for any
    item and any one of the three metrics, replacing its (numeric) value by a
    greater or equal one, the other entries untouched, keeps an item that
    [_identify_viral_content] selected selected. *)
Theorem identify_viral_content_monotone :
  (forall item (likes comments shares : Z),
     dget_default "likes" (VInt 0) item = VInt likes ->
     dget_default "comments" (VInt 0) item = VInt comments ->
     dget_default "shares" (VInt 0) item = VInt shares ->
     is_viral item = Ok ((1000 <=? likes) || (100 <=? comments) || (50 <=? shares))) /\
  (forall item metric v v' q q',
     metric ∈ ["likes"; "comments"; "shares"] ->
     as_number v = Some q -> as_number v' = Some q' -> (q <= q')%Q ->
     _identify_viral_content [dset metric v item] = Ok [dset metric v item] ->
     _identify_viral_content [dset metric v' item] = Ok [dset metric v' item]).
Proof.
  split.
  - intros item likes comments shares Hl Hc Hs.
    rewrite is_viral_viral_of, Hl, Hc, Hs. unfold viral_of.
    rewrite !ge_int_VInt. simpl.
    unfold viral_threshold_likes, viral_threshold_comments, viral_threshold_shares.
    destruct (1000 <=? likes); [done|]. simpl.
    destruct (100 <=? comments); done.
  - intros item metric v v' q q' Hm Hv Hv' Hle.
    rewrite !identify_viral_content_singleton.
    by apply is_viral_mono with (q := q) (q' := q').
Qed.

Lemma identify_viral_content_monotone_witness :
  "comments" ∈ ["likes"; "comments"; "shares"] /\
  as_number (VInt 10) = Some (inject_Z 10) /\
  as_number (VInt 250) = Some (inject_Z 250) /\
  (inject_Z 10 <= inject_Z 250)%Q /\
  _identify_viral_content [dset "comments" (VInt 10) sample_post]
    = Ok [dset "comments" (VInt 10) sample_post] /\
  _identify_viral_content [dset "comments" (VInt 250) sample_post]
    = Ok [dset "comments" (VInt 250) sample_post].
Proof.
  assert ("comments" ∈ ["likes"; "comments"; "shares"]) as Hin
    by (repeat constructor).
  assert (inject_Z 10 <= inject_Z 250)%Q as Hle by (rewrite <- Zle_Qle; lia).
  split; [exact Hin|]. split; [reflexivity|]. split; [reflexivity|].
  split; [exact Hle|]. split; [reflexivity|].
  exact (proj2 identify_viral_content_monotone sample_post "comments"
           (VInt 10) (VInt 250) (inject_Z 10) (inject_Z 250)
           Hin eq_refl eq_refl Hle eq_refl).
Defined.

Example identify_viral_content_examples :
  _identify_viral_content
    [sample_post; [("url", VStr "u2"); ("likes", VInt 999)];
     [("url", VStr "u3"); ("shares", VInt 50)]]
  = Ok [sample_post; [("url", VStr "u3"); ("shares", VInt 50)]]
  /\ is_viral [("likes", VNone)] = Raise (TypeError "'>=' not supported between these instances")
  /\ is_viral [("likes", VInt 2000); ("comments", VNone)] = Ok true.
Proof. repeat split; reflexivity. Qed.

(** ** Provider adapters in the repository as it is *)

Section repository_adapters.
Variable w : world.
Implicit Types (self : orchestrator) (query : string).

Lemma websailor_import_fails :
  import_from (websailor_module_names repository) "alibaba_websailor" (websailor w)
  = Raise (ImportError "cannot import name 'alibaba_websailor'").
Proof. reflexivity. Qed.

Lemma search_alibaba_websailor_unavailable query context :
  _search_alibaba_websailor repository w query context
  = failure "Alibaba WebSailor nao disponivel".
Proof. reflexivity. Qed.

Lemma extract_search_results_raises content source :
  _extract_search_results_from_content repository w content source
  = Raise (NameError "re").
Proof. reflexivity. Qed.

Lemma jina_loop_keeps_results api_key search_urls results :
  jina_loop repository w api_key search_urls results = results.
Proof.
  revert results. induction search_urls as [|u us IH]; intros results; [done|].
  cbn [jina_loop]. rewrite IH.
  destruct (net w _) as [response|e]; [|done]. simpl.
  destruct (status response =? 200); [|done].
  destruct (text response) as [content|e]; done.
Qed.

Lemma search_firecrawl_fails self query :
  exists msg, fst (_search_firecrawl repository w self query) = failure msg.
Proof.
  unfold _search_firecrawl.
  destruct (get_next_api_key self "FIRECRAWL") as [[api_key|e] self']; simpl;
    [|by eexists].
  destruct (usable_key api_key) as [key|]; [|by eexists].
  destruct (net w _) as [response|e]; simpl; [|by eexists].
  destruct (status response =? 200).
  - destruct (json response) as [data|e]; simpl; [|by eexists].
    destruct (vget_default "data" (VDict []) data) as [inner|e]; simpl; [|by eexists].
    destruct (vget_default "markdown" (VStr "") inner) as [content|e]; simpl;
      by eexists.
  - destruct (text response) as [error_text|e]; simpl; by eexists.
Qed.

Lemma search_jina_empty self query :
  (exists msg, fst (_search_jina repository w self query) = failure msg) \/
  fst (_search_jina repository w self query) = succeeded "JINA" None [] None.
Proof.
  unfold _search_jina.
  destruct (get_next_api_key self "JINA") as [[api_key|e] self'];
    cbn -[jina_loop]; [|left; by eexists].
  destruct (usable_key api_key) as [key|]; [|left; by eexists].
  right. cbn -[jina_loop]. by rewrite jina_loop_keeps_results.
Qed.
End repository_adapters.

(** C9.  In the repository as it is, the module
    [real_search_orchestrator] never binds the name [re], so every call of
    [_extract_search_results_from_content] raises [NameError].
    Consequently [_search_firecrawl] always returns the failure shape
    (on a 200 response whose body yields a markdown value, with the
    [NameError]'s text as error), and whenever [_search_jina] returns
    [success: True] its results are the empty list. *)
Theorem extract_search_results_name_error (w : world) :
  ("re" ∉ orchestrator_module_globals repository) /\
  (forall content source,
     _extract_search_results_from_content repository w content source
     = Raise (NameError "re")) /\
  (forall self query,
     success (fst (_search_firecrawl repository w self query)) = false /\
     results (fst (_search_firecrawl repository w self query)) = None /\
     is_Some (error (fst (_search_firecrawl repository w self query)))) /\
  (forall self query api_key self' response data inner content,
     get_next_api_key self "FIRECRAWL" = (Ok (Some api_key), self') ->
     api_key <> "" ->
     (forall rq', net w {| verb := "POST"; endpoint := service_url "FIRECRAWL";
                           credential := api_key; payload := rq' |} = Ok response) ->
     status response = 200 ->
     json response = Ok data ->
     vget_default "data" (VDict []) data = Ok inner ->
     vget_default "markdown" (VStr "") inner = Ok content ->
     fst (_search_firecrawl repository w self query)
     = failure "name 're' is not defined") /\
  (forall self query,
     success (fst (_search_jina repository w self query)) = true ->
     results (fst (_search_jina repository w self query)) = Some [] /\
     provider (fst (_search_jina repository w self query)) = Some "JINA").
Proof.
  split; [|split; [|split; [|split]]].
  - intros Hin. apply (bool_decide_eq_true_2 _) in Hin. vm_compute in Hin.
    discriminate Hin.
  - apply extract_search_results_raises.
  - intros self query. destruct (search_firecrawl_fails w self query) as [msg ->].
    simpl. eauto.
  - intros self query api_key self' response data inner content
      Hkey Hne Hnet Hst Hjson Hdata Hmd.
    unfold _search_firecrawl. rewrite Hkey. simpl.
    unfold usable_key. apply String.eqb_neq in Hne. rewrite Hne.
    rewrite Hnet. simpl. rewrite Hst. simpl. rewrite Hjson. simpl.
    rewrite Hdata. simpl. rewrite Hmd. reflexivity.
  - intros self query Hs.
    destruct (search_jina_empty w self query) as [[msg Hf]| ->]; [|done].
    rewrite Hf in Hs. done.
Qed.

Lemma extract_search_results_name_error_witness :
  success (fst (_search_jina repository sample_world (init all_pools) "energy drinks"))
    = true /\
  results (fst (_search_jina repository sample_world (init all_pools) "energy drinks"))
    = Some [] /\
  fst (_search_firecrawl repository sample_world (init all_pools) "energy drinks")
    = failure "name 're' is not defined".
Proof.
  pose proof (extract_search_results_name_error sample_world)
    as (_ & _ & _ & Hfire & Hjina).
  split; [reflexivity|].
  split; [exact (proj1 (Hjina (init all_pools) "energy drinks" eq_refl))|].
  eapply (Hfire (init all_pools) "energy drinks" "fc-key").
  - reflexivity.
  - discriminate.
  - intros rq'. reflexivity.
  - reflexivity.
  - reflexivity.
  - reflexivity.
  - reflexivity.
Defined.

(** ** The orchestrator run, phase by phase *)

Section orchestrator_run.
Variable w : world.
Implicit Types (self : orchestrator) (q sid : string) (doc : search_results).

Lemma capture_loop_captures_nothing viral_content session_id captured :
  capture_loop repository w viral_content session_id captured = captured.
Proof.
  revert captured. induction viral_content as [|item rest IH]; intros captured;
    [done|].
  cbn [capture_loop]. rewrite IH.
  by destruct (truthy (dget_default "url" VNone item)).
Qed.

Lemma capture_viral_screenshots_empty viral_content session_id :
  _capture_viral_screenshots repository w viral_content session_id = Ok [].
Proof.
  unfold _capture_viral_screenshots.
  change (import_from _ _ _) with (@Ok unit tt).
  change (mbind ?f (Ok ?x)) with (f x). cbv beta.
  by rewrite capture_loop_captures_nothing.
Qed.

(** Everything a returned document is made of. *)
Lemma execute_massive_real_search_returns self q context sid doc self' :
  execute_massive_real_search repository w self q context sid
    = (Ok doc, self') ->
  exists web_outcomes self1 social_outcomes self2,
    gather (web_tasks repository w self) self q = (web_outcomes, self1) /\
    gather (enabled_task self1 "YOUTUBE" (_search_youtube w)) self1 q
      = (social_outcomes, self2) /\
    web_results doc = fst (merge_web_results web_outcomes [] []) /\
    providers_used doc = snd (merge_web_results web_outcomes [] []) /\
    youtube_results doc = fst (merge_social_results social_outcomes [] []) /\
    social_results doc = snd (merge_social_results social_outcomes [] []) /\
    _identify_viral_content (youtube_results doc ++ social_results doc)%list
      = Ok (viral_content doc) /\
    screenshots_captured doc = [] /\
    analyze_all_data w sid = Ok (predictive_insights doc) /\
    total_sources (statistics doc)
      = Z.of_nat (length (web_results doc ++ social_results doc
                          ++ youtube_results doc)%list) /\
    count_unique_urls (web_results doc ++ social_results doc
                       ++ youtube_results doc)%list
      = Ok (unique_urls (statistics doc)) /\
    sum_content_lengths (web_results doc ++ social_results doc
                         ++ youtube_results doc)%list
      = Ok (content_extracted (statistics doc)) /\
    api_calls_made (statistics doc) = sum_api_rotations self' /\
    api_rotations (stats self') = api_rotations (stats self2) /\
    query doc = q /\ session_id doc = sid.
Proof.
  unfold execute_massive_real_search.
  rewrite search_alibaba_websailor_unavailable. cbn [success failure].
  destruct (gather (web_tasks repository w self) self q)
    as [web_outcomes self1] eqn:Hg1.
  destruct (merge_web_results web_outcomes [] []) as [web providers] eqn:Hweb.
  destruct (gather _ self1 q) as [social_outcomes self2] eqn:Hg2.
  destruct (merge_social_results social_outcomes [] []) as [youtube social] eqn:Hsoc.
  destruct (_identify_viral_content _) as [viral|e] eqn:Hviral; [|done].
  assert (match viral with
          | [] => Ok None
          | _ :: _ =>
            screenshots ← _capture_viral_screenshots repository w viral sid;
            Ok (Some screenshots)
          end = Ok (match viral with [] => None | _ => Some [] end)) as ->.
  { destruct viral; [done|]. by rewrite capture_viral_screenshots_empty. }
  destruct (analyze_all_data w sid) as [insights|e] eqn:Hpred;
    [|by destruct viral].
  change (mbind ?f (Ok ?x)) with (f x). cbv beta.
  destruct (count_unique_urls _) as [unique|e] eqn:Hunique;
    [|by destruct viral].
  change (mbind ?f (Ok ?x)) with (f x). cbv beta.
  destruct (sum_content_lengths _) as [extracted|e] eqn:Hsum;
    [|by destruct viral].
  change (mbind ?f (Ok ?x)) with (f x). cbv beta.
  intros [= <- <-]. exists web_outcomes, self1, social_outcomes, self2.
  cbn [web_results providers_used youtube_results social_results viral_content
       screenshots_captured predictive_insights statistics total_sources
       unique_urls content_extracted api_calls_made query session_id fst snd].
  rewrite Hweb, Hsoc. repeat split; try done; by destruct viral.
Qed.
End orchestrator_run.

(** C10.  The class [VisualContentCapture] defines no attribute
    [capture_screenshot_async]; every capture call of
    [_capture_viral_screenshots] therefore raises [AttributeError], which the
    per-item handler swallows, and the method returns the empty list for any
    viral content.  Hence the [screenshots_captured] list of every document
    the orchestrator returns is empty. *)
Theorem capture_viral_screenshots_always_empty (w : world) :
  ("capture_screenshot_async" ∉ visual_content_capture_attributes repository) /\
  (forall url sid,
     (capture_screenshot_async ←
        getattr (visual_content_capture_attributes repository)
          "capture_screenshot_async" (capture_screenshot_async_impl w);
      capture_screenshot_async url sid)
     = Raise (AttributeError "capture_screenshot_async")) /\
  (forall viral_content sid,
     _capture_viral_screenshots repository w viral_content sid = Ok []) /\
  (forall self q context sid doc self',
     execute_massive_real_search repository w self q context sid = (Ok doc, self') ->
     screenshots_captured doc = []).
Proof.
  split; [|split; [|split]].
  - intros Hin. apply (bool_decide_eq_true_2 _) in Hin. vm_compute in Hin.
    discriminate Hin.
  - reflexivity.
  - apply capture_viral_screenshots_empty.
  - intros self q context sid doc self' Hrun.
    destruct (execute_massive_real_search_returns w self q context sid doc self' Hrun)
      as (? & ? & ? & ? & H). apply H.
Qed.

Lemma capture_viral_screenshots_always_empty_witness :
  match execute_massive_real_search repository sample_world (init all_pools)
          "energy drinks" [] "session-1" with
  | (Ok doc, _) => screenshots_captured doc = []
  | (Raise _, _) => False
  end /\
  _capture_viral_screenshots repository sample_world [sample_post] "session-1" = Ok [].
Proof.
  split.
  - destruct (execute_massive_real_search repository sample_world (init all_pools)
                "energy drinks" [] "session-1") as [[doc|e] self'] eqn:Hrun.
    + exact (proj2 (proj2 (proj2 (capture_viral_screenshots_always_empty sample_world)))
               _ _ _ _ _ _ Hrun).
    + vm_compute in Hrun. discriminate Hrun.
  - apply (proj1 (proj2 (proj2 (capture_viral_screenshots_always_empty sample_world)))).
Defined.

(** ** What the web wave can contribute *)

Section web_wave.
Variable w : world.
Implicit Types (self : orchestrator) (q : string).

Ltac adapter_cases :=
  repeat (cbn [fst catch_all]; unfold mbind, result_bind;
          match goal with
          | |- context [match ?x with _ => _ end] => destruct x
          | |- context [if ?b then _ else _] => destruct b
          end);
  cbn [fst catch_all];
  first [ left; eexists; reflexivity
        | right; eexists _, _, _; split; [|reflexivity];
          repeat constructor ].

Lemma search_firecrawl_shape self q :
  web_adapter_shape (fst (_search_firecrawl repository w self q)).
Proof. destruct (search_firecrawl_fails w self q) as [msg ->]. left. eauto. Qed.

Lemma search_jina_shape self q :
  web_adapter_shape (fst (_search_jina repository w self q)).
Proof.
  destruct (search_jina_empty w self q) as [[msg ->]| ->]; [left; eauto|].
  right. eexists _, _, _. split; [|reflexivity]. repeat constructor.
Qed.

Lemma search_google_shape self q : web_adapter_shape (fst (_search_google w self q)).
Proof. unfold _search_google. adapter_cases. Qed.

Lemma search_exa_shape self q : web_adapter_shape (fst (_search_exa w self q)).
Proof. unfold _search_exa. adapter_cases. Qed.

Lemma search_serper_shape self q : web_adapter_shape (fst (_search_serper w self q)).
Proof. unfold _search_serper. adapter_cases. Qed.

Lemma gather_Forall (P : provider_result -> Prop) tasks self q :
  Forall (fun task => forall s q', P (fst (task s q'))) tasks ->
  Forall (fun outcome => exists r, outcome = Ok r /\ P r)
         (fst (gather tasks self q)).
Proof.
  intros Htasks. revert self. induction Htasks as [|task rest Ht _ IH]; intros self.
  - constructor.
  - cbn [gather]. specialize (Ht self q).
    destruct (task self q) as [r self1]. specialize (IH self1).
    destruct (gather rest self1 q) as [rs self2]. simpl in *.
    constructor; eauto.
Qed.

Lemma web_tasks_shape self :
  Forall (fun task => forall s q', web_adapter_shape (fst (task s q')))
         (web_tasks repository w self).
Proof.
  unfold web_tasks, enabled_task.
  rewrite !Forall_app.
  repeat split; case_match; try apply Forall_nil_2;
    apply Forall_cons_2; try apply Forall_nil_2; intros s q'.
  - apply search_firecrawl_shape.
  - apply search_jina_shape.
  - apply search_google_shape.
  - apply search_exa_shape.
  - apply search_serper_shape.
Qed.

Lemma merge_web_results_providers outcomes web providers name :
  Forall (fun outcome => exists r, outcome = Ok r /\ web_adapter_shape r) outcomes ->
  name ∈ snd (merge_web_results outcomes web providers) ->
  name ∈ providers \/ name ∈ web_provider_names.
Proof.
  intros Hall. revert web providers.
  induction Hall as [|o rest (r & -> & Hr) _ IH]; intros web providers; [by left|].
  cbn [merge_web_results].
  destruct Hr as [[msg ->]|(p & items & raw_data & Hp & ->)]; cbn; [apply IH|].
  destruct items as [|item items]; [apply IH|].
  intros Hin. destruct (IH _ _ Hin) as [Hin'|]; [|by right].
  apply elem_of_app in Hin' as [?|Hin']; [by left|].
  apply list_elem_of_singleton in Hin' as ->. by right.
Qed.

(** The merged web corpus is a plain concatenation: nothing is dropped. *)
Lemma merge_web_results_concat outcomes web providers :
  fst (merge_web_results outcomes web providers)
  = (web ++ concat (contributed <$> outcomes))%list.
Proof.
  revert web providers. induction outcomes as [|o rest IH]; intros web providers.
  - simpl. by rewrite app_nil_r.
  - rewrite fmap_cons. cbn [merge_web_results concat]. unfold contributed at 1.
    destruct o as [r|e]; [|apply IH].
    destruct (success r); [|apply IH].
    destruct (results r) as [[|item items]|]; simpl; rewrite IH; [done| |done].
    by rewrite <- app_assoc.
Qed.
End web_wave.

(** C8.  The module [services.alibaba_websailor] binds
    [alibaba_websailor_agent] but no name [alibaba_websailor], so the import
    inside [_search_alibaba_websailor] raises [ImportError], which the method
    turns into a [success: False] value, for every query and context.
    Consequently, in every document the orchestrator returns, the web results
    are exactly what the phase-2 adapters contributed, and
    ['ALIBABA_WEBSAILOR'] is not among [providers_used]. *)
Theorem search_alibaba_websailor_never_succeeds (w : world) :
  ("alibaba_websailor" ∉ websailor_module_names repository) /\
  ("alibaba_websailor_agent" ∈ websailor_module_names repository) /\
  (forall q context,
     _search_alibaba_websailor repository w q context
       = failure "Alibaba WebSailor nao disponivel" /\
     success (_search_alibaba_websailor repository w q context) = false) /\
  (forall self q context sid doc self',
     execute_massive_real_search repository w self q context sid = (Ok doc, self') ->
     ("ALIBABA_WEBSAILOR" ∉ providers_used doc) /\
     exists web_outcomes self1,
       gather (web_tasks repository w self) self q = (web_outcomes, self1) /\
       web_results doc = concat (contributed <$> web_outcomes)).
Proof.
  split; [|split; [|split]].
  - intros Hin. apply (bool_decide_eq_true_2 _) in Hin. vm_compute in Hin.
    discriminate Hin.
  - apply (bool_decide_eq_true_1 _). reflexivity.
  - intros q context. split; reflexivity.
  - intros self q context sid doc self' Hrun.
    destruct (execute_massive_real_search_returns w self q context sid doc self' Hrun)
      as (web_outcomes & self1 & _ & _ & Hg & _ & Hweb & Hprov & _).
    split.
    + intros Hin. rewrite Hprov in Hin.
      apply merge_web_results_providers in Hin as [Hin|Hin].
      * by apply elem_of_nil in Hin.
      * apply (bool_decide_eq_true_2 _) in Hin. vm_compute in Hin. discriminate Hin.
      * replace web_outcomes with (fst (gather (web_tasks repository w self) self q))
          by (by rewrite Hg).
        apply gather_Forall, web_tasks_shape.
    + exists web_outcomes, self1. split; [done|].
      by rewrite Hweb, merge_web_results_concat.
Qed.

Lemma search_alibaba_websailor_never_succeeds_witness :
  match execute_massive_real_search repository sample_world (init all_pools)
          "energy drinks" [] "session-1" with
  | (Ok doc, _) =>
    ("ALIBABA_WEBSAILOR" ∉ providers_used doc) /\ providers_used doc = ["GOOGLE"; "SERPER"]
  | (Raise _, _) => False
  end.
Proof.
  destruct (execute_massive_real_search repository sample_world (init all_pools)
              "energy drinks" [] "session-1") as [[doc|e] self'] eqn:Hrun.
  - split.
    + exact (proj1 (proj2 (proj2 (proj2
               (search_alibaba_websailor_never_succeeds sample_world)))
               _ _ _ _ _ _ Hrun)).
    + vm_compute in Hrun. by injection Hrun as <- _.
  - vm_compute in Hrun. discriminate Hrun.
Defined.

(** ** Runs without any provider *)

Lemma analyze_all_data_returns (w : world) sid :
  (forall name e, is_ok (salvar_erro w name e) = true) ->
  is_ok (analyze_all_data w sid) = true.
Proof.
  intros Hlog. unfold analyze_all_data.
  destruct (engine_analyze_session_data w sid) as [r|e]; simpl.
  - destruct (salvar_etapa w _) as [[]|e]; simpl; [done|].
    specialize (Hlog "predictive_analysis" e).
    destruct e; try done; by destruct (salvar_erro w _ _).
  - specialize (Hlog "predictive_analysis" e).
    destruct e; try done; by destruct (salvar_erro w _ _).
Qed.

Lemma search_results_has_no_success_field (doc : search_results) :
  dget "success" (search_results_as_dict doc) = None /\
  dget "error" (search_results_as_dict doc) = None.
Proof. split; reflexivity. Qed.




(** ** URL statistics *)

Section url_statistics.
Context {A B : Type}.
Implicit Types (f : A -> result B) (l : list A) (k : list B).

Lemma mapM_result_cons f x l :
  mapM f (x :: l) = (y ← f x; k ← mapM f l; Ok (y :: k)).
Proof. reflexivity. Qed.

Lemma mapM_result_length f l k : mapM f l = Ok k -> length k = length l.
Proof.
  revert k. induction l as [|x l IH]; intros k.
  - by intros [= <-].
  - rewrite mapM_result_cons. destruct (f x) as [y|e]; [|done]. simpl.
    destruct (mapM f l) as [k'|e]; [|done]. simpl.
    intros [= <-]. simpl. f_equal. by apply IH.
Qed.

Lemma mapM_result_app f l1 l2 :
  mapM f (l1 ++ l2)
  = (k1 ← mapM f l1; k2 ← mapM f l2; Ok (k1 ++ k2)%list).
Proof.
  induction l1 as [|x l1 IH].
  - simpl. by destruct (mapM f l2).
  - rewrite <- app_comm_cons, !mapM_result_cons, IH.
    destruct (f x) as [y|e]; [|done]. simpl.
    destruct (mapM f l1) as [k1|e]; [|done]. simpl.
    by destruct (mapM f l2).
Qed.
End url_statistics.

Lemma remove_dups_app_covered `{EqDecision K} (l1 l2 : list K) :
  l1 ⊆ l2 -> remove_dups (l1 ++ l2) = remove_dups l2.
Proof.
  induction l1 as [|x l1 IH]; intros Hsub; [done|]. simpl.
  destruct (decide_rel elem_of x (l1 ++ l2)) as [_|Hnin].
  - apply IH. intros y Hy. apply Hsub. by right.
  - exfalso. apply Hnin, elem_of_app. right. apply Hsub. by left.
Qed.

Lemma remove_dups_fmap_inj `{EqDecision K, EqDecision K'} (f : K -> K')
    `{!Inj (=) (=) f} (l : list K) :
  remove_dups (f <$> l) = f <$> remove_dups l.
Proof.
  induction l as [|x l IH]; [done|]. rewrite fmap_cons. simpl.
  destruct (decide_rel elem_of x l) as [Hin|Hnin];
    destruct (decide_rel elem_of (f x) (f <$> l)) as [Hin'|Hnin'].
  - done.
  - exfalso. by apply Hnin', list_elem_of_fmap_inj.
  - exfalso. by apply Hnin, (list_elem_of_fmap_inj f).
  - by rewrite fmap_cons, IH.
Qed.

Lemma length_remove_dups_le `{EqDecision K} (l : list K) :
  (length (remove_dups l) <= length l)%nat.
Proof.
  induction l as [|x l IH]; simpl; [done|].
  destruct (decide_rel elem_of x l); simpl; lia.
Qed.

Lemma count_unique_urls_bounds (all_results : list dict) n :
  count_unique_urls all_results = Ok n ->
  0 <= n <= Z.of_nat (length all_results).
Proof.
  unfold count_unique_urls.
  destruct (mapM _ _) as [keys|e] eqn:Hkeys; [|done]. simpl. intros [= <-].
  apply mapM_result_length in Hkeys.
  pose proof (length_remove_dups_le keys).
  pose proof (length_filter (fun r => truthy (dget_default "url" VNone r) = true)
                all_results). lia.
Qed.

Lemma count_unique_urls_idempotent (all_results : list dict) :
  count_unique_urls (all_results ++ all_results) = count_unique_urls all_results.
Proof.
  unfold count_unique_urls. rewrite filter_app, mapM_result_app.
  destruct (mapM _ _) as [keys|e]; [|done]. simpl.
  by rewrite remove_dups_app_covered.
Qed.




(** ** Visual capture *)

Section visual_capture.
Variable b : browser.
Implicit Types (self : capture_state) (url output_path : string).

(** What one run of the [try] body does to the state, from a state without a
    live driver and with a browser that launches. *)
Lemma wait_step_is_a_call (r : result unit) :
  exists r' : result unit,
    cm_try (cm_call r)
      (fun e => match e with
                | TimeoutException => cm_ret tt
                | _ => cm_raise e
                end)
    = cm_call r'.
Proof.
  destruct r as [[]|e]; [by exists (Ok tt)|].
  destruct e; try (by eexists (Raise _)). by exists (Ok tt).
Qed.

Lemma capture_attempt_effects self url output_path :
  driver self = None ->
  is_ok (setup_driver b (launched self)) = true ->
  let outcome := fst (capture_attempt b url output_path self) in
  let self' := snd (capture_attempt b url output_path self) in
  driver self' = Some (launched self) /\
  launched self' = S (launched self) /\
  closed self' = closed self /\
  navigations self' = navigations self ++ [url] /\
  (forall artifact, outcome = Ok artifact ->
     dget "success" artifact = Some (VBool true) /\
     dget "filepath" artifact = Some (VStr output_path) /\
     dget "url" artifact = Some (VStr url) /\
     exists size, 0 < size /\ files self' !! output_path = Some size).
Proof.
  intros Hdrv Hsetup. unfold capture_attempt.
  destruct (wait_step_is_a_call (wait_for_body b url)) as [waited ->].
  unfold mbind, capture_m_bind, cm_bind, ensure_driver, navigate,
    cm_call, cm_ret, cm_raise, write_screenshot.
  rewrite Hdrv. destruct (setup_driver b (launched self)) as [[]|e]; [|done].
  destruct (driver_get b url) as [[]|?];
    [destruct waited as [[]|?];
     [destruct (driver_title b url) as [title|?];
      [destruct (driver_current_url b url) as [page_url|?];
       [destruct (make_parent_directory b output_path) as [[]|?];
        [destruct (save_screenshot b url output_path) as [[size|]|?];
         [destruct (0 <? size) eqn:Hsize|..]|]|]|]|]|];
    simpl; repeat split; try done; simplify_eq; try reflexivity.
  all: eexists; split; [|apply lookup_insert_eq]; by apply Z.ltb_lt.
Qed.


Lemma capture_attempt_no_launch self url output_path e :
  driver self = None ->
  setup_driver b (launched self) = Raise e ->
  capture_attempt b url output_path self = (Raise e, self).
Proof.
  intros Hdrv Hsetup.
  unfold capture_attempt, mbind, capture_m_bind, cm_bind, ensure_driver.
  by rewrite Hdrv, Hsetup.
Qed.

Lemma teardown_driver self : driver (teardown self) = None.
Proof. unfold teardown. by destruct (driver self) eqn:E. Qed.

Lemma capture_screenshot_driver self url output_path :
  driver (snd (capture_screenshot b self url output_path)) = None.
Proof.
  unfold capture_screenshot.
  destruct (capture_attempt b url output_path self) as [outcome self'].
  apply teardown_driver.
Qed.

Lemma capture_screenshot_attempt self url output_path :
  driver self = None ->
  is_ok (setup_driver b (launched self)) = true ->
  navigations (snd (capture_screenshot b self url output_path))
    = navigations self ++ [url] /\
  launched (snd (capture_screenshot b self url output_path)) = S (launched self) /\
  closed (snd (capture_screenshot b self url output_path))
    = closed self ++ [launched self].
Proof.
  intros Hdrv Hsetup.
  pose proof (capture_attempt_effects self url output_path Hdrv Hsetup) as H.
  unfold capture_screenshot.
  destruct (capture_attempt b url output_path self) as [outcome self'].
  cbn [fst snd] in *. destruct H as (Hd & Hl & Hc & Hn & _).
  unfold teardown. rewrite Hd. cbn. by rewrite Hl, Hc, Hn.
Qed.

Lemma capture_requests_attempts n self url output_path :
  (forall k, is_ok (setup_driver b k) = true) ->
  driver self = None ->
  length (fst (capture_requests b self (replicate n (url, output_path)))) = n /\
  navigations (snd (capture_requests b self (replicate n (url, output_path))))
    = navigations self ++ replicate n url /\
  launched (snd (capture_requests b self (replicate n (url, output_path))))
    = (launched self + n)%nat.
Proof.
  intros Hsetup. revert self. induction n as [|n IH]; intros self Hdrv.
  - simpl. rewrite app_nil_r. repeat split; lia.
  - cbn [replicate capture_requests].
    pose proof (capture_screenshot_attempt self url output_path Hdrv (Hsetup _))
      as (Hn & Hl & _).
    pose proof (capture_screenshot_driver self url output_path) as Hd.
    destruct (capture_screenshot b self url output_path) as [artifact self1].
    cbn [fst snd] in *. specialize (IH self1 Hd).
    destruct (capture_requests b self1 (replicate n (url, output_path)))
      as [artifacts self2].
    cbn [fst snd] in *. destruct IH as (IH1 & IH2 & IH3).
    rewrite IH2, IH3, Hn, Hl, <- app_assoc. simpl. repeat split; lia.
Qed.
End visual_capture.




(** ** Session collector *)

Section session_collector.
Variable m : modules.
Variable c : Collector.collaborators.
Implicit Types (q sid : string) (ctx : dict) (dk : Collector.disk).

Lemma string_app_inv_head (s a b : string) :
  (s ++ a)%string = (s ++ b)%string -> a = b.
Proof. induction s as [|ch s IH]; simpl; [done|]. intros [= H]. by apply IH. Qed.

Lemma session_paths_differ sid :
  Collector.report_path sid <> Collector.massive_data_path sid.
Proof.
  unfold Collector.report_path, Collector.massive_data_path. intros H.
  apply string_app_inv_head, string_app_inv_head in H. discriminate H.
Qed.

Lemma persist_files path content dk :
  match Collector.persist c path content dk with
  | (Ok _, dk') =>
    Collector.files dk' = <[path := content]> (Collector.files dk) /\
    Collector.errors_saved dk' = Collector.errors_saved dk
  | (Raise e, dk') => dk' = dk /\ Collector.write_json c path = Raise e
  end.
Proof. unfold Collector.persist. by destruct (Collector.write_json c path). Qed.

(** Where the [try] block can end, and what the disk then holds. *)
Lemma collect_and_persist_cases q ctx sid dk :
  let run := Collector.collect_and_persist m c q ctx sid dk in
  Collector.errors_saved (snd run) = Collector.errors_saved dk /\
  match fst run with
  | Ok d =>
    Collector.collect m c q ctx sid = Ok d /\
    Collector.files (snd run) !! Collector.massive_data_path sid
      = Some (Collector.SessionDocument d)
  | Raise e =>
    (Collector.collect m c q ctx sid = Raise e /\ snd run = dk) \/
    (exists d, Collector.collect m c q ctx sid = Ok d /\
               Collector.write_json c (Collector.massive_data_path sid) = Raise e /\
               snd run = dk) \/
    (exists d, Collector.collect m c q ctx sid = Ok d /\
               Collector.files (snd run) !! Collector.massive_data_path sid
                 = Some (Collector.SessionDocument d))
  end.
Proof.
  unfold Collector.collect_and_persist.
  destruct (Collector.collect m c q ctx sid) as [d|e]; [|simpl; auto].
  pose proof (persist_files (Collector.massive_data_path sid)
                (Collector.SessionDocument d) dk) as H1.
  destruct (Collector.persist c (Collector.massive_data_path sid) _ dk)
    as [[[]|e] dk1].
  2:{ destruct H1 as [-> Hw]. simpl. split; [done|]. right. left. by exists d. }
  destruct H1 as [Hf1 He1].
  assert (Collector.files dk1 !! Collector.massive_data_path sid
          = Some (Collector.SessionDocument d)) as Hdoc
    by (by rewrite Hf1, lookup_insert_eq).
  destruct (Collector.collection_report c d sid) as [report|e];
    [|simpl; split; [done|]; right; right; by exists d].
  pose proof (persist_files (Collector.report_path sid)
                (Collector.CollectionReport report) dk1) as H2.
  destruct (Collector.persist c (Collector.report_path sid) _ dk1)
    as [[[]|e] dk2].
  2:{ destruct H2 as [-> _]. simpl. split; [done|]. right; right; by exists d. }
  destruct H2 as [Hf2 He2].
  assert (Collector.files dk2 !! Collector.massive_data_path sid
          = Some (Collector.SessionDocument d)) as Hdoc2.
  { rewrite Hf2, lookup_insert_ne; [done|]. apply session_paths_differ. }
  destruct (Collector.salvar_etapa c _) as [[]|e]; simpl.
  - split; [congruence|]. done.
  - split; [congruence|]. right; right; by exists d.
Qed.
End session_collector.

Lemma collect_stops_at_a_failed_search (m : modules) (c : Collector.collaborators)
    q ctx sid e :
  Collector.interleaved_search c q = Raise e ->
  Collector.collect m c q ctx sid = Raise e.
Proof. intros H. unfold Collector.collect. by rewrite H. Qed.

(** In the repository as it is, [VisualContentCapture] has no method
    [select_top_urls]: once phases 1 to 3 have returned, phase 5 raises
    [AttributeError]. *)
Lemma collect_select_top_urls_missing (c : Collector.collaborators) q ctx sid :
  is_ok (Collector.interleaved_search c q) = true ->
  Collector.trendfinder_is_available c = Ok false ->
  Collector.supadata_is_available c = Ok false ->
  Collector.collect repository c q ctx sid = Raise (AttributeError "select_top_urls").
Proof.
  intros H1 H2 H3. unfold Collector.collect.
  destruct (Collector.interleaved_search c q) as [web|e]; [|done].
  rewrite H2, H3. reflexivity.
Qed.

(** C2 (as amended).  [execute_massive_collection] never raises as long as
    the error logger returns.  When it returns the session document, that
    document has been written to the session's [massive_data_collected.json]
    before the call returned.  When a phase raises outside its local handler,
    the call logs the error and returns the error dictionary
    [{'error', 'details'}] instead; if the failure happened before the write
    (for instance in the first phase), nothing is written: no emergency
    document exists. *)
Theorem execute_massive_collection_persistence
    (m : modules) (c : Collector.collaborators) q ctx sid dk :
  let run := Collector.execute_massive_collection m c q ctx sid dk in
  ((forall name e, is_ok (Collector.salvar_erro c name e) = true) ->
   is_ok (fst run) = true) /\
  (forall d,
     fst run = Ok (Collector.Collected d) ->
     Collector.files (snd run) !! Collector.massive_data_path sid
       = Some (Collector.SessionDocument d) /\
     Collector.errors_saved (snd run) = Collector.errors_saved dk) /\
  (forall err details,
     fst run = Ok (Collector.CollectionFailed err details) ->
     exists e,
       fst (Collector.collect_and_persist m c q ctx sid dk) = Raise e /\
       err = "Falha na coleta massiva de dados"%string /\
       details = str_exn e /\
       Collector.errors_saved (snd run)
         = Collector.errors_saved dk ++ [("massive_data_collection"%string, e)]) /\
  (forall e,
     Collector.collect m c q ctx sid = Raise e ->
     Collector.files (snd run) = Collector.files dk /\
     (is_ok (Collector.salvar_erro c "massive_data_collection" e) = true ->
      fst run = Ok (Collector.CollectionFailed "Falha na coleta massiva de dados"
                      (str_exn e)))) /\
  (forall e,
     Collector.interleaved_search c q = Raise e ->
     Collector.collect m c q ctx sid = Raise e).
Proof.
  intros run. subst run. unfold Collector.execute_massive_collection.
  pose proof (collect_and_persist_cases m c q ctx sid dk) as [Herr Hcases].
  destruct (Collector.collect_and_persist m c q ctx sid dk) as [[d|e] dk1] eqn:Hrun;
    cbn [fst snd] in *.
  - destruct Hcases as [Hcollect Hdoc].
    split; [done|]. split; [by intros d' [= <-]|]. split; [done|].
    split; [intros e He; congruence|].
    intros e He. by apply collect_stops_at_a_failed_search.
  - split; [|split; [|split; [|split]]].
    + intros Hlog. specialize (Hlog "massive_data_collection"%string e).
      by destruct (Collector.salvar_erro c _ e).
    + intros d. by destruct (Collector.salvar_erro c _ e).
    + intros err details.
      destruct (Collector.salvar_erro c _ e) as [[]|e']; [|done].
      cbn [fst snd Collector.errors_saved]. intros [= <- <-].
      exists e. by rewrite Herr.
    + intros e0 He0.
      assert (e0 = e /\ dk1 = dk) as [-> ->].
      { destruct Hcases as [[H1 H2]|[(d & H1 & _)|(d & H1 & _)]]; [|congruence..].
        split; congruence. }
      split; [by destruct (Collector.salvar_erro c _ e) as [[]|e']|].
      by destruct (Collector.salvar_erro c _ e) as [[]|e'].
    + intros e0 He0. by apply collect_stops_at_a_failed_search.
Qed.

Lemma execute_massive_collection_persistence_witness :
  Collector.interleaved_search Collector.failing_collaborators "energy drinks"
    = Raise (OtherException "all providers timed out") /\
  Collector.collect repository Collector.failing_collaborators
    "energy drinks" [] "session-1"
    = Raise (OtherException "all providers timed out") /\
  (exists d,
     fst (Collector.execute_massive_collection Collector.with_capture_methods
            Collector.sample_collaborators "energy drinks" [] "session-1"
            Collector.empty_disk) = Ok (Collector.Collected d) /\
     Collector.files
       (snd (Collector.execute_massive_collection Collector.with_capture_methods
               Collector.sample_collaborators "energy drinks" [] "session-1"
               Collector.empty_disk))
       !! Collector.massive_data_path "session-1"
     = Some (Collector.SessionDocument d)).
Proof.
  split; [reflexivity|]. split.
  - exact (proj2 (proj2 (proj2 (proj2
             (execute_massive_collection_persistence repository
                Collector.failing_collaborators "energy drinks" [] "session-1"
                Collector.empty_disk))))
             (OtherException "all providers timed out") eq_refl).
  - destruct (fst (Collector.execute_massive_collection Collector.with_capture_methods
                     Collector.sample_collaborators "energy drinks" [] "session-1"
                     Collector.empty_disk)) as [[d|err details]|e] eqn:Hrun.
    + exists d. split; [reflexivity|].
      exact (proj1 (proj1 (proj2
               (execute_massive_collection_persistence Collector.with_capture_methods
                  Collector.sample_collaborators "energy drinks" [] "session-1"
                  Collector.empty_disk)) d Hrun)).
    + vm_compute in Hrun. discriminate Hrun.
    + vm_compute in Hrun. discriminate Hrun.
Defined.

(** C2, the claim as stated fails: when the first phase raises, the call
    returns the error dictionary and the session directory stays empty; no
    session document, emergency or otherwise, is persisted. *)
Lemma execute_massive_collection_nothing_persisted_counterexample :
  exists dk',
    Collector.execute_massive_collection repository Collector.failing_collaborators
      "energy drinks" [] "session-1" Collector.empty_disk
    = (Ok (Collector.CollectionFailed "Falha na coleta massiva de dados"
             "all providers timed out"), dk') /\
    Collector.files dk' = ∅ /\
    Collector.files dk' !! Collector.massive_data_path "session-1" = None /\
    Collector.errors_saved dk'
      = [("massive_data_collection"%string, OtherException "all providers timed out")].
Proof.
  eexists. split; [vm_compute; reflexivity|].
  split; [reflexivity|]. split; [reflexivity|]. reflexivity.
Qed.

(** ** What a returned document can contain *)

Lemma mapM_result_Forall {A B} (P : B -> Prop) (f : A -> result B) l k :
  (forall x y, f x = Ok y -> P y) -> mapM f l = Ok k -> Forall P k.
Proof.
  intros Hf. revert k. induction l as [|x l IH]; intros k.
  - intros [= <-]. constructor.
  - rewrite mapM_result_cons. destruct (f x) as [y|e] eqn:Hy; [|done]. simpl.
    destruct (mapM f l) as [k'|e]; [|done]. simpl. intros [= <-].
    constructor; eauto.
Qed.

Section adapter_answers.
Variable w : world.
Implicit Types (self : orchestrator) (q : string).

Ltac walk :=
  repeat (cbn [fst catch_all]; unfold mbind, result_bind;
          match goal with
          | |- context [match ?x with _ => _ end] => destruct x eqn:?
          | |- context [if ?b then _ else _] => destruct b eqn:?
          end);
  cbn [fst catch_all].

Ltac plain_items :=
  match goal with
  | H : mapM _ _ = Ok _ |- Forall plain_record _ =>
    eapply mapM_result_Forall; [|exact H];
    let x := fresh "x" in let y := fresh "y" in
    intros x y; cbv beta; unfold mbind, result_bind;
    repeat match goal with
           | |- context [match ?t with _ => _ end] => destruct t
           end;
    intros ?; simplify_eq; repeat split; reflexivity
  end.

Ltac answer :=
  first [ left; eexists; reflexivity
        | right; eexists _, _, _; split; [reflexivity|];
          split; [plain_items|reflexivity] ].

Lemma search_firecrawl_answer self q :
  adapter_answer None None (fst (_search_firecrawl repository w self q)).
Proof. destruct (search_firecrawl_fails w self q) as [msg ->]. left. eauto. Qed.

Lemma search_jina_answer self q :
  adapter_answer None None (fst (_search_jina repository w self q)).
Proof.
  destruct (search_jina_empty w self q) as [[msg ->]| ->]; [left; eauto|].
  right. eexists _, _, _. split; [reflexivity|]. split; [constructor|done].
Qed.

Lemma search_google_answer self q :
  adapter_answer (Some "GOOGLE") None (fst (_search_google w self q)).
Proof. unfold _search_google. walk; answer. Qed.

Lemma search_exa_answer self q :
  adapter_answer (Some "EXA") None (fst (_search_exa w self q)).
Proof. unfold _search_exa. walk; answer. Qed.

Lemma search_serper_answer self q :
  adapter_answer (Some "SERPER") None (fst (_search_serper w self q)).
Proof. unfold _search_serper. walk; answer. Qed.

Lemma search_youtube_answer self q :
  adapter_answer (Some "YOUTUBE") (Some "youtube") (fst (_search_youtube w self q)).
Proof. unfold _search_youtube. walk; answer. Qed.
End adapter_answers.

Section document_contents.
Variable w : world.
Implicit Types (self : orchestrator) (q sid : string) (doc : search_results).

Lemma gather_answers (plat : option string) tasks labels self q :
  Forall2 (fun task label =>
             forall s q', adapter_answer label plat (fst (task s q')))
          tasks labels ->
  Forall2 (fun outcome label =>
             exists r, outcome = Ok r /\ adapter_answer label plat r)
          (fst (gather tasks self q)) labels.
Proof.
  intros Htasks. revert self.
  induction Htasks as [|task label rest labels Ht _ IH]; intros self.
  - constructor.
  - cbn [gather]. specialize (Ht self q).
    destruct (task self q) as [r self1]. specialize (IH self1).
    destruct (gather rest self1 q) as [rs self2]. simpl in *.
    constructor; eauto.
Qed.

Lemma enabled_task_answers (plat : option string) self name label task :
  (forall s q', adapter_answer label plat (fst (task s q'))) ->
  Forall2 (fun task label =>
             forall s q', adapter_answer label plat (fst (task s q')))
          (enabled_task self name task) (enabled_label self name label).
Proof.
  intros Ht. unfold enabled_task, enabled_label.
  destruct (api_keys self !! name); [|constructor].
  constructor; [exact Ht|constructor].
Qed.

Lemma web_tasks_answers self :
  Forall2 (fun task label =>
             forall s q', adapter_answer label None (fst (task s q')))
          (web_tasks repository w self) (web_labels self).
Proof.
  unfold web_tasks, web_labels.
  repeat apply Forall2_app; apply enabled_task_answers; intros s q'.
  - apply search_firecrawl_answer.
  - apply search_jina_answer.
  - apply search_google_answer.
  - apply search_exa_answer.
  - apply search_serper_answer.
Qed.

Lemma web_labels_sublist self :
  omap id (web_labels self) `sublist_of` ["GOOGLE"; "EXA"; "SERPER"].
Proof.
  unfold web_labels, enabled_label.
  destruct (api_keys self !! "FIRECRAWL"), (api_keys self !! "JINA"),
    (api_keys self !! "GOOGLE"), (api_keys self !! "EXA"),
    (api_keys self !! "SERPER"); cbn;
    repeat first [ apply sublist_nil_l | apply sublist_skip | apply sublist_cons ].
Qed.

Lemma merge_web_results_answers outcomes labels web providers :
  Forall2 (fun outcome label =>
             exists r, outcome = Ok r /\ adapter_answer label None r)
          outcomes labels ->
  Forall plain_record web ->
  Forall plain_record (fst (merge_web_results outcomes web providers)) /\
  exists added,
    snd (merge_web_results outcomes web providers) = providers ++ added /\
    added `sublist_of` omap id labels.
Proof.
  intros Hall. revert web providers.
  induction Hall as [|o label rest labels (r & -> & Hr) _ IH];
    intros web providers Hweb.
  - simpl. split; [done|]. exists []. by rewrite app_nil_r.
  - cbn [merge_web_results].
    assert (forall added, added `sublist_of` omap id labels ->
              added `sublist_of` omap id (label :: labels)) as Hskip.
    { intros added Hs. destruct label; cbn; [by apply sublist_cons|done]. }
    destruct Hr as [[msg ->]|(name & items & raw_data & -> & Hitems & Hlabel)]; cbn.
    { destruct (IH web providers Hweb) as (Hp & added & -> & Hs). eauto. }
    destruct items as [|item items].
    { destruct (IH web providers Hweb) as (Hp & added & -> & Hs). eauto. }
    destruct label as [expected|]; [subst name|done].
    destruct (IH (web ++ item :: items) (providers ++ [expected]))
      as (Hp & added & -> & Hs); [by apply Forall_app|].
    split; [done|]. exists (expected :: added).
    split; [by rewrite <- app_assoc|]. cbn. by apply sublist_skip.
Qed.

Lemma merge_social_results_answers outcomes labels youtube social :
  Forall2 (fun outcome label =>
             exists r, outcome = Ok r /\ adapter_answer label (Some "youtube") r)
          outcomes labels ->
  Forall plain_record youtube ->
  Forall plain_record (fst (merge_social_results outcomes youtube social)) /\
  snd (merge_social_results outcomes youtube social) = social.
Proof.
  intros Hall. revert youtube social.
  induction Hall as [|o label rest labels (r & -> & Hr) _ IH];
    intros youtube social Hyt; [done|].
  cbn [merge_social_results].
  destruct Hr as [[msg ->]|(name & items & raw_data & -> & Hitems & _)]; cbn.
  - by apply IH.
  - apply IH. by apply Forall_app.
Qed.

Lemma plain_record_not_viral (item : dict) : plain_record item -> is_viral item = Ok false.
Proof.
  intros (_ & Hl & Hc & Hs). unfold is_viral, dget_default. by rewrite Hl, Hc, Hs.
Qed.

Lemma identify_viral_content_plain (items : list dict) :
  Forall plain_record items -> _identify_viral_content items = Ok [].
Proof.
  induction 1 as [|item items Hitem _ IH]; [done|].
  cbn [_identify_viral_content]. by rewrite plain_record_not_viral, IH.
Qed.

Lemma sum_content_lengths_plain (items : list dict) :
  Forall plain_record items -> sum_content_lengths items = Ok 0.
Proof.
  unfold sum_content_lengths. intros Hall.
  assert (mapM (fun r => py_len (dget_default "content" (VStr "") r)) items
          = Ok (replicate (length items) 0)) as ->.
  { induction Hall as [|item items (Hc & _) _ IH]; [done|].
    rewrite mapM_result_cons, IH. unfold dget_default. by rewrite Hc. }
  simpl. f_equal. induction (length items) as [|n IH]; simpl; lia.
Qed.

(** The parts of a returned document, with what the adapters guarantee
    about them. *)
Lemma returned_document_contents self q context sid doc self' :
  execute_massive_real_search repository w self q context sid = (Ok doc, self') ->
  Forall plain_record (web_results doc) /\
  Forall plain_record (youtube_results doc) /\
  social_results doc = [] /\
  providers_used doc `sublist_of` ["GOOGLE"; "EXA"; "SERPER"].
Proof.
  intros Hrun.
  destruct (execute_massive_real_search_returns w self q context sid doc self' Hrun)
    as (web_outcomes & self1 & social_outcomes & self2 & Hg1 & Hg2 & Hweb & Hprov
        & Hyt & Hsoc & _).
  pose proof (gather_answers None _ _ self q (web_tasks_answers self)) as Hw.
  rewrite Hg1 in Hw. cbn [fst] in Hw.
  destruct (merge_web_results_answers _ _ [] [] Hw (Forall_nil_2 _))
    as (Hplain & added & Hadded & Hsub).
  pose proof (gather_answers (Some "youtube") _ _ self1 q
                (enabled_task_answers (Some "youtube") self1 "YOUTUBE"
                   (Some "YOUTUBE") (_search_youtube w)
                   (search_youtube_answer w))) as Hy.
  rewrite Hg2 in Hy. cbn [fst] in Hy.
  destruct (merge_social_results_answers _ _ [] [] Hy (Forall_nil_2 _))
    as (Hyplain & Hsocial).
  rewrite Hweb, Hyt, Hsoc, Hprov. repeat split; try done.
  rewrite Hadded. simpl. etrans; [exact Hsub|apply web_labels_sublist].
Qed.
End document_contents.

(** X1.  No record any adapter of the orchestrator builds carries likes,
    comments or shares, and the only social adapter that is started answers
    for the platform [youtube]: in every returned document [social_results]
    and [viral_content] are empty (so the screenshot phase is never
    entered). *)
Theorem orchestrator_never_flags_viral_content (w : world) self q context sid doc self' :
  execute_massive_real_search repository w self q context sid = (Ok doc, self') ->
  social_results doc = [] /\
  viral_content doc = [] /\
  Forall (fun item => is_viral item = Ok false)
         (web_results doc ++ youtube_results doc).
Proof.
  intros Hrun.
  destruct (returned_document_contents w self q context sid doc self' Hrun)
    as (Hweb & Hyt & Hsoc & _).
  destruct (execute_massive_real_search_returns w self q context sid doc self' Hrun)
    as (_ & _ & _ & _ & _ & _ & _ & _ & _ & _ & Hviral & _).
  split; [done|]. split.
  - rewrite Hsoc, app_nil_r, identify_viral_content_plain in Hviral by done.
    by injection Hviral.
  - apply Forall_app. split; (eapply Forall_impl; [eassumption|]);
      apply plain_record_not_viral.
Qed.

Lemma orchestrator_never_flags_viral_content_witness :
  match execute_massive_real_search repository sample_world (init all_pools)
          "energy drinks" [] "session-1" with
  | (Ok doc, _) =>
    social_results doc = [] /\ viral_content doc = [] /\ length (youtube_results doc) = 1%nat
  | (Raise _, _) => False
  end.
Proof.
  destruct (execute_massive_real_search repository sample_world (init all_pools)
              "energy drinks" [] "session-1") as [[doc|e] self'] eqn:Hrun.
  - destruct (orchestrator_never_flags_viral_content sample_world _ _ _ _ _ _ Hrun)
      as (Hs & Hv & _).
    split; [exact Hs|]. split; [exact Hv|].
    vm_compute in Hrun. by injection Hrun as <- _.
  - vm_compute in Hrun. discriminate Hrun.
Defined.

(** X2.  No record any adapter builds has a [content] entry, so the
    statistic [content_extracted] of every returned document is 0, whatever
    the providers sent; [total_sources] is the number of web records plus the
    number of YouTube records. *)
Theorem orchestrator_content_extracted_is_zero (w : world) self q context sid doc self' :
  execute_massive_real_search repository w self q context sid = (Ok doc, self') ->
  content_extracted (statistics doc) = 0 /\
  total_sources (statistics doc)
    = Z.of_nat (length (web_results doc) + length (youtube_results doc)).
Proof.
  intros Hrun.
  destruct (returned_document_contents w self q context sid doc self' Hrun)
    as (Hweb & Hyt & Hsoc & _).
  destruct (execute_massive_real_search_returns w self q context sid doc self' Hrun)
    as (_ & _ & _ & _ & _ & _ & _ & _ & _ & _ & _ & _ & _ & Htotal & _ & Hsum & _).
  split.
  - rewrite sum_content_lengths_plain in Hsum; [by injection Hsum|].
    rewrite Hsoc. by repeat (apply Forall_app; split).
  - rewrite Htotal, Hsoc. by rewrite !length_app.
Qed.

Lemma orchestrator_content_extracted_is_zero_witness :
  match execute_massive_real_search repository sample_world (init all_pools)
          "energy drinks" [] "session-1" with
  | (Ok doc, _) =>
    content_extracted (statistics doc) = 0 /\ total_sources (statistics doc) = 4
  | (Raise _, _) => False
  end.
Proof.
  destruct (execute_massive_real_search repository sample_world (init all_pools)
              "energy drinks" [] "session-1") as [[doc|e] self'] eqn:Hrun.
  - split.
    + exact (proj1 (orchestrator_content_extracted_is_zero sample_world
                      _ _ _ _ _ _ Hrun)).
    + vm_compute in Hrun. by injection Hrun as <- _.
  - vm_compute in Hrun. discriminate Hrun.
Defined.

(** X3.  [providers_used] of every returned document is a sub-sequence of
    [GOOGLE, EXA, SERPER]: Firecrawl and Jina never appear (their adapters
    never contribute a record), no provider appears twice, and the order is
    the task order whatever order the answers arrive in. *)
Theorem orchestrator_providers_used_order (w : world) self q context sid doc self' :
  execute_massive_real_search repository w self q context sid = (Ok doc, self') ->
  providers_used doc `sublist_of` ["GOOGLE"; "EXA"; "SERPER"] /\
  ("FIRECRAWL" ∉ providers_used doc) /\ ("JINA" ∉ providers_used doc) /\
  NoDup (providers_used doc).
Proof.
  intros Hrun.
  destruct (returned_document_contents w self q context sid doc self' Hrun)
    as (_ & _ & _ & Hsub).
  split; [done|].
  assert (forall name, name ∈ providers_used doc ->
            name ∈ ["GOOGLE"; "EXA"; "SERPER"]) as Hin.
  { intros name Hname. by eapply elem_of_sublist. }
  assert (NoDup ["GOOGLE"; "EXA"; "SERPER"]) as Hnd.
  { apply (bool_decide_eq_true_1 _). reflexivity. }
  split; [|split].
  - intros H. apply Hin in H. apply (bool_decide_eq_true_2 _) in H.
    vm_compute in H. discriminate H.
  - intros H. apply Hin in H. apply (bool_decide_eq_true_2 _) in H.
    vm_compute in H. discriminate H.
  - by eapply sublist_NoDup.
Qed.

Lemma orchestrator_providers_used_order_witness :
  match execute_massive_real_search repository sample_world (init all_pools)
          "energy drinks" [] "session-1" with
  | (Ok doc, _) => NoDup (providers_used doc) /\ providers_used doc = ["GOOGLE"; "SERPER"]
  | (Raise _, _) => False
  end.
Proof.
  destruct (execute_massive_real_search repository sample_world (init all_pools)
              "energy drinks" [] "session-1") as [[doc|e] self'] eqn:Hrun.
  - split.
    + exact (proj2 (proj2 (proj2 (orchestrator_providers_used_order sample_world
                                    _ _ _ _ _ _ Hrun)))).
    + vm_compute in Hrun. by injection Hrun as <- _.
  - vm_compute in Hrun. discriminate Hrun.
Defined.

(** ** Counting API calls *)

Section api_calls.
Variable w : world.
Implicit Types (self : orchestrator) (q : string).

Lemma sum_rotations_comm (j1 j2 : string) (z1 z2 y : Z) :
  z1 + (z2 + y) = z2 + (z1 + y).
Proof. lia. Qed.

Lemma bump_rotation_sum provider (st : session_stats) :
  map_fold (fun (_ : string) count acc => count + acc) 0
           (api_rotations (bump_rotation provider st))
  = map_fold (fun (_ : string) count acc => count + acc) 0 (api_rotations st) + 1.
Proof.
  unfold bump_rotation. cbn [api_rotations].
  destruct (api_rotations st !! provider) as [v|] eqn:Hv.
  - rewrite Hv. cbn [default].
    rewrite (map_fold_delete_L _ _ provider v (api_rotations st));
      [|intros; apply sum_rotations_comm; done|done].
    rewrite <- insert_delete_eq.
    rewrite map_fold_insert_L;
      [unfold id; lia|intros; apply sum_rotations_comm; done|apply lookup_delete_eq].
  - rewrite lookup_insert_eq, insert_insert_eq. cbn [default].
    rewrite map_fold_insert_L;
      [unfold id; lia|intros; apply sum_rotations_comm; done|done].
Qed.

Lemma get_next_api_key_counts self provider keys :
  cursors_in_range self ->
  api_keys self !! provider = Some keys -> keys <> [] ->
  sum_api_rotations (snd (get_next_api_key self provider))
  = sum_api_rotations self + 1.
Proof.
  intros Hinv Hk Hne. destruct (Hinv provider keys Hk Hne) as (c & Hc & Hr).
  destruct (get_next_api_key_step self provider keys c Hk Hc Hr) as (key & _ & ->).
  unfold sum_api_rotations. cbn [snd stats]. apply bump_rotation_sum.
Qed.

Lemma run_calls_counts names self :
  cursors_in_range self -> pools_nonempty self ->
  Forall (fun name => is_Some (api_keys self !! name)) names ->
  sum_api_rotations (run_calls self names)
    = sum_api_rotations self + Z.of_nat (length names) /\
  api_keys (run_calls self names) = api_keys self.
Proof.
  revert self. induction names as [|name names IH]; intros self Hinv Hpools Hall.
  - simpl. split; [lia|done].
  - apply Forall_cons in Hall as [[keys Hk] Hall]. cbn [run_calls].
    pose proof (get_next_api_key_api_keys self name) as Hsame.
    destruct (IH (snd (get_next_api_key self name))) as [Hsum Hkeys].
    + by apply get_next_api_key_cursors_in_range.
    + intros p ks. rewrite Hsame. apply Hpools.
    + by rewrite Hsame.
    + rewrite Hsum, Hkeys, Hsame.
      rewrite (get_next_api_key_counts self name keys Hinv Hk (Hpools _ _ Hk)).
      split; [cbn [length]; lia|done].
Qed.

Lemma run_calls_app names1 names2 self :
  run_calls self (names1 ++ names2) = run_calls (run_calls self names1) names2.
Proof. revert self. induction names1 as [|n ns IH]; intros self; [done|apply IH]. Qed.

Lemma gather_state tasks names self q :
  Forall2 (fun task name =>
             forall s q', snd (task s q') = snd (get_next_api_key s name))
          tasks names ->
  snd (gather tasks self q) = run_calls self names.
Proof.
  intros Hall. revert self.
  induction Hall as [|task name tasks names Ht _ IH]; intros self; [done|].
  cbn [gather run_calls]. specialize (Ht self q).
  destruct (task self q) as [r self1]. cbn [snd] in Ht. subst self1.
  specialize (IH (snd (get_next_api_key self name))).
  by destruct (gather tasks _ q) as [rs self2].
Qed.

Lemma enabled_task_state self name task :
  (forall s q', snd (task s q') = snd (get_next_api_key s name)) ->
  Forall2 (fun task name =>
             forall s q', snd (task s q') = snd (get_next_api_key s name))
          (enabled_task self name task)
          (filter (fun name => is_Some (api_keys self !! name)) [name]).
Proof.
  intros Ht. unfold enabled_task.
  destruct (api_keys self !! name) as [keys|] eqn:Hk.
  - rewrite filter_cons_True by (by rewrite Hk).
    constructor; [exact Ht|constructor].
  - rewrite filter_cons_False by (rewrite Hk; by intros [? ?]). constructor.
Qed.

Lemma adapter_states self q :
  snd (_search_firecrawl repository w self q) = snd (get_next_api_key self "FIRECRAWL") /\
  snd (_search_jina repository w self q) = snd (get_next_api_key self "JINA") /\
  snd (_search_google w self q) = snd (get_next_api_key self "GOOGLE") /\
  snd (_search_exa w self q) = snd (get_next_api_key self "EXA") /\
  snd (_search_serper w self q) = snd (get_next_api_key self "SERPER") /\
  snd (_search_youtube w self q) = snd (get_next_api_key self "YOUTUBE").
Proof.
  unfold _search_firecrawl, _search_jina, _search_google, _search_exa,
    _search_serper, _search_youtube.
  repeat split;
    match goal with
    | |- context [get_next_api_key self ?n] => by destruct (get_next_api_key self n)
    end.
Qed.

Lemma web_tasks_state self :
  Forall2 (fun task name =>
             forall s q', snd (task s q') = snd (get_next_api_key s name))
          (web_tasks repository w self)
          (filter (fun name => is_Some (api_keys self !! name))
                  ["FIRECRAWL"; "JINA"; "GOOGLE"; "EXA"; "SERPER"]).
Proof.
  unfold web_tasks.
  change ["FIRECRAWL"; "JINA"; "GOOGLE"; "EXA"; "SERPER"]
    with (["FIRECRAWL"] ++ ["JINA"] ++ ["GOOGLE"] ++ ["EXA"] ++ ["SERPER"]).
  rewrite !filter_app.
  repeat apply Forall2_app; apply enabled_task_state; intros s q';
    apply (adapter_states s q').
Qed.
End api_calls.

Lemma filter_satisfies {A} (P : A -> Prop) `{!forall x, Decision (P x)} (l : list A) :
  Forall P (filter P l).
Proof.
  induction l as [|x l IH]; [constructor|].
  rewrite filter_cons. destruct (decide (P x)); [by constructor|done].
Qed.

(** X4.  From a state with valid cursors and no empty pool, one orchestrator
    run takes exactly one credential per provider that has a pool (Firecrawl,
    Jina, Google, Exa, Serper, YouTube) and none for any other: the statistic
    [api_calls_made] of the returned document is the sum of the rotation
    counters before the run plus the number of those providers, whether
    their requests succeeded or not. *)
Theorem orchestrator_api_calls_made (w : world) self q context sid doc self' :
  cursors_in_range self ->
  pools_nonempty self ->
  execute_massive_real_search repository w self q context sid = (Ok doc, self') ->
  api_calls_made (statistics doc)
    = sum_api_rotations self + Z.of_nat (length (started_providers self)) /\
  sum_api_rotations self' = api_calls_made (statistics doc).
Proof.
  intros Hinv Hpools Hrun.
  destruct (execute_massive_real_search_returns w self q context sid doc self' Hrun)
    as (web_outcomes & self1 & social_outcomes & self2 & Hg1 & Hg2 & _ & _ & _ & _
        & _ & _ & _ & _ & _ & _ & Hcalls & Hrot & _).
  pose proof (gather_state _ _ self q (web_tasks_state w self)) as H1.
  rewrite Hg1 in H1. cbn [snd] in H1.
  pose proof (gather_state _ _ self1 q
                (enabled_task_state self1 "YOUTUBE" (_search_youtube w)
                   (fun s q' => proj2 (proj2 (proj2 (proj2 (proj2
                                  (adapter_states w s q')))))))) as H2.
  rewrite Hg2 in H2. cbn [snd] in H2.
  set (five := filter (fun name => is_Some (api_keys self !! name))
                      ["FIRECRAWL"; "JINA"; "GOOGLE"; "EXA"; "SERPER"]) in *.
  destruct (run_calls_counts five self Hinv Hpools (filter_satisfies _ _))
    as [Hsum1 Hkeys1].
  rewrite <- H1 in Hsum1, Hkeys1.
  assert (cursors_in_range self1) as Hinv1
    by (rewrite H1; by apply run_calls_cursors_in_range).
  assert (pools_nonempty self1) as Hpools1
    by (intros p ks; rewrite Hkeys1; apply Hpools).
  destruct (run_calls_counts
              (filter (fun name => is_Some (api_keys self1 !! name)) ["YOUTUBE"])
              self1 Hinv1 Hpools1 (filter_satisfies _ _))
    as [Hsum2 _].
  rewrite <- H2 in Hsum2.
  assert (sum_api_rotations self' = sum_api_rotations self2) as Hsame
    by (unfold sum_api_rotations; by rewrite Hrot).
  split; [|by rewrite Hcalls].
  rewrite Hcalls, Hsame, Hsum2, Hsum1. unfold started_providers.
  change ["FIRECRAWL"; "JINA"; "GOOGLE"; "EXA"; "SERPER"; "YOUTUBE"]
    with (["FIRECRAWL"; "JINA"; "GOOGLE"; "EXA"; "SERPER"] ++ ["YOUTUBE"]).
  rewrite filter_app, length_app. fold five. rewrite Hkeys1. lia.
Qed.

Lemma orchestrator_api_calls_made_witness :
  cursors_in_range (init all_pools) /\ pools_nonempty (init all_pools) /\
  match execute_massive_real_search repository sample_world (init all_pools)
          "energy drinks" [] "session-1" with
  | (Ok doc, _) => api_calls_made (statistics doc) = 6
  | (Raise _, _) => False
  end.
Proof.
  assert (pools_nonempty (init all_pools)) as Hpools.
  { intros provider keys Hk Hnil. subst keys. cbn [init api_keys] in Hk.
    unfold all_pools in Hk.
    repeat (apply lookup_insert_Some in Hk as [[_ Hk]|[_ Hk]]; [discriminate Hk|]).
    apply lookup_singleton_Some in Hk as [_ Hk]. discriminate Hk. }
  split; [apply init_cursors_in_range|]. split; [exact Hpools|].
  destruct (execute_massive_real_search repository sample_world (init all_pools)
              "energy drinks" [] "session-1") as [[doc|e] self'] eqn:Hrun.
  - rewrite (proj1 (orchestrator_api_calls_made sample_world _ _ _ _ _ _
                      (init_cursors_in_range all_pools) Hpools Hrun)).
    reflexivity.
  - vm_compute in Hrun. discriminate Hrun.
Defined.

(** ** Loading the credential pools *)

Section load_keys.
Variable environ : gmap string string.
Implicit Types (provider : string) (counter fuel : nat).

Lemma getenv_truthy_present name key :
  getenv_truthy environ name = Some key -> environ !! name = Some key /\ key <> "".
Proof.
  unfold getenv_truthy, usable_key. destruct (environ !! name) as [k|]; [|done].
  destruct (String.eqb_spec k ""); [done|]. by intros [= <-].
Qed.

Lemma numbered_name_inj provider : Inj (=) (=) (numbered_name provider).
Proof.
  intros i j H. unfold numbered_name in H.
  apply string_app_inv_head, string_app_inv_head in H. by apply (inj pretty).
Qed.

(** The keys the loop collects are the values of the consecutive names
    starting at [counter], and the name after the last one is unset. *)
Lemma numbered_keys_consecutive provider counter fuel keys :
  numbered_keys environ provider counter fuel = Some keys ->
  (forall i key, keys !! i = Some key ->
     getenv_truthy environ (numbered_name provider (counter + i)) = Some key) /\
  getenv_truthy environ (numbered_name provider (counter + length keys)) = None.
Proof.
  revert counter keys. induction fuel as [|fuel IH]; intros counter keys; [done|].
  cbn [numbered_keys].
  destruct (getenv_truthy environ (numbered_name provider counter)) as [k|] eqn:Hk.
  - destruct (numbered_keys environ provider (S counter) fuel) as [rest|] eqn:Hrest;
      [|done].
    cbn. intros [= <-]. destruct (IH _ _ Hrest) as [Hall Hend]. split.
    + intros [|i] key; cbn.
      * intros [= <-]. by rewrite Nat.add_0_r.
      * intros Hi. rewrite <- Nat.add_succ_comm. by apply Hall.
    + cbn [length]. by rewrite <- Nat.add_succ_comm.
  - intros [= <-]. split; [done|]. cbn. by rewrite Nat.add_0_r.
Qed.

(** Consecutive names that are all set are no more than the environment has
    entries. *)
Lemma consecutive_names_bounded provider counter n :
  (forall i, (i < n)%nat ->
     is_Some (environ !! numbered_name provider (counter + i))) ->
  (n <= size environ)%nat.
Proof.
  intros Hall.
  set (names := (fun i => numbered_name provider (counter + i)) <$> seq 0 n).
  assert (NoDup names) as Hnd.
  { apply NoDup_fmap_2; [|apply NoDup_seq].
    intros i j H. apply numbered_name_inj in H. lia. }
  assert ((list_to_set names : gset string) ⊆ dom environ) as Hsub.
  { intros name Hin. apply elem_of_list_to_set, list_elem_of_fmap in Hin
      as (i & -> & Hi). apply elem_of_dom, Hall.
    apply elem_of_seq in Hi. lia. }
  apply subseteq_size in Hsub.
  rewrite size_list_to_set, size_dom in Hsub by done.
  unfold names in Hsub. by rewrite length_fmap, length_seq in Hsub.
Qed.

Lemma numbered_keys_out_of_fuel provider counter fuel :
  numbered_keys environ provider counter fuel = None ->
  forall i, (i < fuel)%nat ->
    is_Some (environ !! numbered_name provider (counter + i)).
Proof.
  revert counter. induction fuel as [|fuel IH]; intros counter Hnone i Hi; [lia|].
  cbn [numbered_keys] in Hnone.
  destruct (getenv_truthy environ (numbered_name provider counter)) as [k|] eqn:Hk;
    [|done].
  destruct (numbered_keys environ provider (S counter) fuel) as [rest|] eqn:Hrest;
    [done|].
  destruct i as [|i].
  - rewrite Nat.add_0_r. apply getenv_truthy_present in Hk as [-> _]. eauto.
  - rewrite <- Nat.add_succ_comm. apply (IH _ Hrest). lia.
Qed.

Lemma numbered_keys_enough_fuel provider counter fuel :
  (size environ < fuel)%nat ->
  is_Some (numbered_keys environ provider counter fuel).
Proof.
  intros Hfuel.
  destruct (numbered_keys environ provider counter fuel) as [keys|] eqn:Hk; [eauto|].
  pose proof (consecutive_names_bounded provider counter fuel
                (numbered_keys_out_of_fuel provider counter fuel Hk)). lia.
Qed.

Lemma numbered_keys_fuel_irrelevant provider counter fuel fuel' keys keys' :
  numbered_keys environ provider counter fuel = Some keys ->
  numbered_keys environ provider counter fuel' = Some keys' ->
  keys = keys'.
Proof.
  revert counter fuel' keys keys'.
  induction fuel as [|fuel IH]; intros counter [|fuel'] keys keys'; try done.
  cbn [numbered_keys].
  destruct (getenv_truthy environ (numbered_name provider counter)) as [k|];
    [|congruence].
  destruct (numbered_keys environ provider (S counter) fuel) as [rest|] eqn:H1;
    [|done].
  destruct (numbered_keys environ provider (S counter) fuel') as [rest'|] eqn:H2;
    [|done].
  cbn. intros [= <-] [= <-]. f_equal. by eapply IH.
Qed.
End load_keys.

Section load_pools.
Variable environ : gmap string string.
Implicit Types (provider : string) (fuel : nat) (pools : gmap string (list string)).

Lemma provider_keys_enough_fuel provider fuel fuel' :
  (size environ < fuel)%nat -> (size environ < fuel')%nat ->
  exists keys, provider_keys environ provider fuel = Some keys /\
               provider_keys environ provider fuel' = Some keys.
Proof.
  intros H1 H2. unfold provider_keys.
  destruct (numbered_keys_enough_fuel environ provider 1 fuel H1) as [k1 Hk1].
  destruct (numbered_keys_enough_fuel environ provider 1 fuel' H2) as [k2 Hk2].
  rewrite Hk1, Hk2. cbn.
  rewrite (numbered_keys_fuel_irrelevant environ provider 1 fuel fuel' k1 k2 Hk1 Hk2).
  eauto.
Qed.

Lemma load_providers_enough_fuel providers fuel fuel' pools :
  (size environ < fuel)%nat -> (size environ < fuel')%nat ->
  exists loaded, load_providers environ providers fuel pools = Some loaded /\
                 load_providers environ providers fuel' pools = Some loaded.
Proof.
  intros H1 H2. revert pools. induction providers as [|p rest IH]; intros pools.
  - exists pools. done.
  - cbn [load_providers].
    destruct (provider_keys_enough_fuel p fuel fuel' H1 H2) as (keys & -> & ->).
    cbn. apply IH.
Qed.

Lemma load_providers_lookup providers fuel pools loaded :
  NoDup providers ->
  (forall provider, provider ∈ providers -> pools !! provider = None) ->
  load_providers environ providers fuel pools = Some loaded ->
  forall provider keys,
    loaded !! provider = Some keys <->
    (provider ∈ providers /\ provider_keys environ provider fuel = Some keys /\
     keys <> []) \/
    pools !! provider = Some keys.
Proof.
  intros Hnd. revert pools.
  induction Hnd as [|p rest Hnin Hnd IH]; intros pools Hfresh.
  - intros [= <-] provider keys. split; [by right|].
    intros [[H _]|H]; [by apply elem_of_nil in H|done].
  - cbn [load_providers].
    destruct (provider_keys environ p fuel) as [found|] eqn:Hfound; [|done]. cbn.
    intros Hload provider keys.
    set (pools' := match found with [] => pools | _ => <[p := found]> pools end)
      in Hload.
    assert (forall q, q ∈ rest -> pools' !! q = None) as Hfresh'.
    { intros q Hq. assert (q <> p) by (by intros ->). unfold pools'.
      destruct found; [|rewrite lookup_insert_ne by done];
        apply Hfresh; by right. }
    rewrite (IH pools' Hfresh' Hload provider keys), elem_of_cons.
    destruct (decide (provider = p)) as [->|Hne].
    + rewrite (Hfresh p) by (by left). unfold pools'. split.
      * intros [[Hin _]|Hp]; [done|]. left. split; [by left|].
        destruct found as [|k ks].
        -- by rewrite (Hfresh p) in Hp by (by left).
        -- rewrite lookup_insert_eq in Hp. injection Hp as <-. done.
      * intros [(_ & Hk & Hnil)|?]; [|done]. right.
        rewrite Hfound in Hk. injection Hk as ->.
        destruct keys; [done|]. apply lookup_insert_eq.
    + assert (pools' !! provider = pools !! provider) as ->.
      { unfold pools'. destruct found; [done|]. by rewrite lookup_insert_ne. }
      split.
      * intros [(Hin & Hrest)|Hp]; [left; split; [by right|done]|by right].
      * intros [([?|Hin] & Hrest)|Hp]; [done|left; by split|by right].
Qed.
End load_pools.

(** X5.  [_load_all_api_keys] terminates on every (finite) environment: with
    more fuel than the environment has entries the numbered-key loop always
    leaves, and the result does not depend on the fuel.  The map it returns
    has an entry exactly for the providers of its list that have at least one
    non-empty key, and no entry is an empty list; the state [__init__] builds
    from it has every cursor inside its pool. *)
Theorem load_all_api_keys_pools (environ : gmap string string) fuel :
  (size environ < fuel)%nat ->
  exists pools,
    _load_all_api_keys environ fuel = Some pools /\
    (forall fuel', (size environ < fuel')%nat ->
                   _load_all_api_keys environ fuel' = Some pools) /\
    (forall provider keys,
       pools !! provider = Some keys <->
       provider ∈ loaded_providers /\
       provider_keys environ provider fuel = Some keys /\ keys <> []) /\
    pools_nonempty (init pools) /\
    cursors_in_range (init pools).
Proof.
  intros Hfuel. unfold _load_all_api_keys.
  destruct (load_providers_enough_fuel environ loaded_providers fuel fuel ∅
              Hfuel Hfuel) as (pools & Hload & _).
  assert (NoDup loaded_providers) as Hnd
    by (apply (bool_decide_eq_true_1 _); reflexivity).
  pose proof (load_providers_lookup environ loaded_providers fuel ∅ pools Hnd
                (fun p _ => lookup_empty p) Hload) as Hlookup.
  exists pools. split; [done|]. split; [|split; [|split]].
  - intros fuel' Hfuel'.
    destruct (load_providers_enough_fuel environ loaded_providers fuel fuel' ∅
                Hfuel Hfuel') as (pools' & Hload1 & Hload2).
    congruence.
  - intros provider keys. rewrite (Hlookup provider keys), lookup_empty. split.
    + by intros [?|?].
    + by left.
  - intros provider keys Hk. cbn [init api_keys] in Hk.
    apply Hlookup in Hk as [(_ & _ & Hne)|Hk]; [done|].
    by rewrite lookup_empty in Hk.
  - apply init_cursors_in_range.
Qed.

Lemma load_all_api_keys_pools_witness :
  (size sample_environ < 6)%nat /\
  _load_all_api_keys sample_environ 6
  = Some {[ "GOOGLE" := ["g-main"; "g-1"]; "SERPER" := ["s-1"] ]}.
Proof.
  assert (size sample_environ < 6)%nat as Hfuel by (vm_compute; lia).
  split; [exact Hfuel|].
  destruct (load_all_api_keys_pools sample_environ 6 Hfuel) as (pools & Hload & _).
  rewrite Hload. f_equal. apply map_eq. intros provider.
  vm_compute in Hload. injection Hload as <-.
  reflexivity.
Defined.

(** X6.  The numbered keys of a provider are loaded up to the first gap
    only: the list built for a provider is the main key (if set and not
    empty) followed by the values of [_API_KEY_1], [_API_KEY_2], ... in order,
    up to and excluding the first one that is unset or empty; a numbered key
    behind such a gap is never loaded. *)
Theorem provider_keys_stop_at_first_gap (environ : gmap string string)
    provider fuel keys :
  provider_keys environ provider fuel = Some keys ->
  exists numbered,
    keys = match getenv_truthy environ (provider ++ "_API_KEY")%string with
           | Some main_key => [main_key]
           | None => []
           end ++ numbered /\
    (forall i key, numbered !! i = Some key ->
       environ !! numbered_name provider (S i) = Some key /\ key <> ""%string) /\
    getenv_truthy environ (numbered_name provider (S (length numbered))) = None /\
    (forall gap, (1 <= gap)%nat ->
       getenv_truthy environ (numbered_name provider gap) = None ->
       (length numbered < gap)%nat).
Proof.
  unfold provider_keys.
  destruct (numbered_keys environ provider 1 fuel) as [numbered|] eqn:Hn; [|done].
  cbn. intros [= <-]. exists numbered. split; [done|].
  destruct (numbered_keys_consecutive environ provider 1 fuel numbered Hn)
    as [Hall Hend].
  split; [|split; [done|]].
  - intros i key Hi. apply getenv_truthy_present. exact (Hall i key Hi).
  - intros gap Hgap Hnone.
    destruct (decide (length numbered < gap)%nat) as [|Hge]; [done|].
    destruct (lookup_lt_is_Some_2 numbered (gap - 1)) as [key Hkey]; [lia|].
    specialize (Hall _ _ Hkey). replace (1 + (gap - 1))%nat with gap in Hall by lia.
    congruence.
Qed.

Lemma provider_keys_stop_at_first_gap_witness :
  provider_keys sample_environ "GOOGLE" 6 = Some ["g-main"; "g-1"] /\
  sample_environ !! "GOOGLE_API_KEY_3" = Some "g-3" /\
  exists numbered,
    ["g-main"; "g-1"] = ["g-main"] ++ numbered /\
    getenv_truthy sample_environ (numbered_name "GOOGLE" (S (length numbered))) = None.
Proof.
  assert (provider_keys sample_environ "GOOGLE" 6 = Some ["g-main"; "g-1"]) as Hk
    by (vm_compute; reflexivity).
  split; [exact Hk|]. split; [vm_compute; reflexivity|].
  destruct (provider_keys_stop_at_first_gap sample_environ "GOOGLE" 6 _ Hk)
    as (numbered & Heq & _ & Hend & _).
  exists numbered. split; [|exact Hend].
  rewrite Heq. f_equal.
Defined.

(** ** The session collector in the repository as it is *)

Lemma collect_repository_raises (c : Collector.collaborators) q ctx sid :
  exists e, Collector.collect repository c q ctx sid = Raise e /\
            (is_ok (Collector.interleaved_search c q) = true ->
             is_ok (Collector.trendfinder_is_available c) = true ->
             (Collector.trendfinder_is_available c = Ok true ->
              is_ok (Collector.trendfinder_search c q) = true) ->
             is_ok (Collector.supadata_is_available c) = true ->
             (Collector.supadata_is_available c = Ok true ->
              is_ok (Collector.supadata_search c q) = true) ->
             e = AttributeError "select_top_urls").
Proof.
  unfold Collector.collect.
  destruct (Collector.interleaved_search c q) as [web|e]; [|by exists e]. simpl.
  destruct (Collector.trendfinder_is_available c) as [[]|e]; [| |by exists e]; simpl.
  - destruct (Collector.trendfinder_search c q) as [trends|e]; simpl;
      [|exists e; split; [done|]; intros _ _ H; by specialize (H eq_refl)].
    destruct (Collector.supadata_is_available c) as [[]|e]; [| |by exists e]; simpl.
    + destruct (Collector.supadata_search c q) as [supadata|e]; simpl;
        [|exists e; split; [done|]; intros _ _ _ _ H; by specialize (H eq_refl)].
      by eexists.
    + by eexists.
  - destruct (Collector.supadata_is_available c) as [[]|e]; [| |by exists e]; simpl.
    + destruct (Collector.supadata_search c q) as [supadata|e]; simpl;
        [|exists e; split; [done|]; intros _ _ _ _ H; by specialize (H eq_refl)].
      by eexists.
    + by eexists.
Qed.



(** ** The social counter and the consolidation loop *)

Lemma iter_value_py_len v items :
  iter_value v = Ok items -> py_len v = Ok (Z.of_nat (length items)).
Proof.
  destruct v; simpl; try done; intros [= <-]; f_equal; f_equal.
  - rewrite length_fmap. induction s as [|ch s IH]; simpl; congruence.
  - by rewrite length_fmap.
Qed.

Lemma platform_dict_contents_count platforms acc acc' total :
  Collector.platform_dict_contents platforms acc = Ok acc' ->
  exists added,
    acc' = acc ++ added /\
    Collector.count_dict_results platforms total
      = Ok (total + Z.of_nat (length added)).
Proof.
  revert acc total. induction platforms as [|[name data] platforms IH];
    intros acc total; simpl.
  - intros [= <-]. exists []. rewrite app_nil_r. split; [done|]. f_equal. simpl. lia.
  - destruct data; try (by apply IH).
    destruct (Collector.has_key "results" d); [|by apply IH].
    destruct (dindex "results" d) as [found|e]; [|done]. simpl.
    destruct (iter_value found) as [items|e] eqn:Hitems; [|done]. simpl.
    rewrite (iter_value_py_len _ _ Hitems). simpl. intros Hrest.
    destruct (IH _ (total + Z.of_nat (length items)) Hrest) as (added & -> & ->).
    exists (items ++ added). rewrite app_assoc. split; [done|].
    f_equal. rewrite length_app. lia.
Qed.

(** X8.  For platforms given as a dictionary (the shape
    [search_all_platforms] builds), the counter [_count_social_results]
    agrees with the consolidation loop of phase 7: whenever the loop
    completes, it has appended to the extracted content exactly as many items
    as the counter reports, and it has kept what was there before. *)
Theorem count_social_results_matches_consolidation
    (social_results all_platforms_data by_name : dict) (acc acc' : list value) :
  dget "all_platforms_data" social_results = Some (VDict all_platforms_data) ->
  dget_default "platforms" (VDict []) all_platforms_data = VDict by_name ->
  Collector.platform_dict_contents by_name acc = Ok acc' ->
  exists added,
    acc' = acc ++ added /\
    Collector._count_social_results social_results = Z.of_nat (length added).
Proof.
  intros Hdata Hplatforms Hloop.
  destruct (platform_dict_contents_count by_name acc acc' 0 Hloop)
    as (added & -> & Hcount).
  exists added. split; [done|].
  unfold Collector._count_social_results, dget_default. rewrite Hdata. simpl.
  rewrite Hplatforms. simpl. by rewrite Hcount.
Qed.

Lemma count_social_results_matches_consolidation_witness :
  exists added,
    Collector.platform_dict_contents
      [("youtube", VDict [("results", VList [VStr "v1"; VStr "v2"])]);
       ("twitter", VDict [("total_results", VInt 0)]);
       ("instagram", VDict [("results", VList [VStr "p1"])])]
      [VStr "web"]
    = Ok ([VStr "web"] ++ added) /\
    Collector._count_social_results
      [("success", VBool true);
       ("all_platforms_data",
        VDict [("query", VStr "energy drinks");
               ("platforms",
                VDict [("youtube", VDict [("results", VList [VStr "v1"; VStr "v2"])]);
                       ("twitter", VDict [("total_results", VInt 0)]);
                       ("instagram", VDict [("results", VList [VStr "p1"])])])])]
    = 3.
Proof.
  destruct (count_social_results_matches_consolidation
              [("success", VBool true);
               ("all_platforms_data",
                VDict [("query", VStr "energy drinks");
                       ("platforms",
                        VDict [("youtube", VDict [("results", VList [VStr "v1"; VStr "v2"])]);
                               ("twitter", VDict [("total_results", VInt 0)]);
                               ("instagram", VDict [("results", VList [VStr "p1"])])])])]
              _ _ [VStr "web"] _ eq_refl eq_refl eq_refl)
    as (added & Hadded & Hcount).
  simpl in Hadded. injection Hadded as <-.
  exists [VStr "v1"; VStr "v2"; VStr "p1"]. split; [reflexivity|exact Hcount].
Defined.

(** ** What a capture does to the disk, and when it succeeds *)

Section capture_outcomes.
Variable b : browser.
Implicit Types (self : capture_state) (url output_path : string).

(** The wait for the page body, with a [TimeoutException] tolerated. *)
Lemma wait_step_outcome url self :
  cm_try (cm_call (wait_for_body b url))
    (fun e => match e with
              | TimeoutException => cm_ret tt
              | _ => cm_raise e
              end) self
  = (match wait_for_body b url with
     | Ok _ | Raise TimeoutException => Ok tt
     | Raise e => Raise e
     end, self).
Proof.
  unfold cm_try, cm_call, cm_ret, cm_raise.
  destruct (wait_for_body b url) as [[]|[]]; reflexivity.
Qed.

Lemma teardown_files self : files (teardown self) = files self.
Proof. unfold teardown. by destruct (driver self). Qed.

(** The run of the [try] body, step by step. *)
Lemma capture_attempt_run self url output_path :
  let run := capture_attempt b url output_path self in
  (forall path, path <> output_path -> files (snd run) !! path = files self !! path) /\
  (files (snd run) = files self \/
   exists size, save_screenshot b url output_path = Ok (Some size) /\
                files (snd run) = <[output_path := size]> (files self)) /\
  (is_ok (fst run) = true <->
   (driver self <> None \/ is_ok (setup_driver b (launched self)) = true) /\
   is_ok (driver_get b url) = true /\
   (is_ok (wait_for_body b url) = true \/
    wait_for_body b url = Raise TimeoutException) /\
   is_ok (driver_title b url) = true /\
   is_ok (driver_current_url b url) = true /\
   is_ok (make_parent_directory b output_path) = true /\
   exists size, save_screenshot b url output_path = Ok (Some size) /\ 0 < size) /\
  (forall artifact, fst run = Ok artifact ->
     dget "success" artifact = Some (VBool true) /\
     exists size, 0 < size /\ files (snd run) !! output_path = Some size /\
                  dget "filesize" artifact = Some (VInt size) /\
                  dget "filepath" artifact = Some (VStr output_path)) /\
  (forall e, fst run = Raise e ->
     files (snd run) = files self \/
     exists size, size <= 0 /\ save_screenshot b url output_path = Ok (Some size) /\
                  files (snd run) = <[output_path := size]> (files self)).
Proof.
  cbv zeta. unfold capture_attempt.
  destruct (wait_step_is_a_call (wait_for_body b url)) as [waited Hwaited_eq].
  pose proof (wait_step_outcome url) as Hwait.
  rewrite Hwaited_eq in Hwait. rewrite Hwaited_eq.
  assert (waited = match wait_for_body b url with
                   | Ok _ | Raise TimeoutException => Ok tt
                   | Raise e => Raise e
                   end) as Hwaited.
  { specialize (Hwait self). unfold cm_call in Hwait. congruence. }
  clear Hwait Hwaited_eq.
  unfold mbind, capture_m_bind, cm_bind, ensure_driver, navigate,
    cm_call, cm_ret, cm_raise, write_screenshot.
  destruct (driver self) as [d|] eqn:Hd;
    [|destruct (setup_driver b (launched self)) as [[]|?]];
    (destruct (driver_get b url) as [[]|?];
     [destruct (wait_for_body b url) as [[]|[]]; subst waited;
      (destruct (driver_title b url) as [title|?];
       [destruct (driver_current_url b url) as [page_url|?];
        [destruct (make_parent_directory b output_path) as [[]|?];
         [destruct (save_screenshot b url output_path) as [[size|]|?];
          [destruct (0 <? size) eqn:Hsize|..]|]|]|])|]);
    cbn.
  all: split; [intros path Hne; try done; by rewrite lookup_insert_ne|].
  all: split; [first [by left|right; eexists; by split]|].
  all: try apply Z.ltb_lt in Hsize; try apply Z.ltb_ge in Hsize.
  all: split;
    [|split;
      [first [done
             |intros artifact [= <-]; split; [done|]; exists size;
              split; [done|]; split; [apply lookup_insert_eq|by split]]
      |first [done|intros ? _; by left
             |intros ? _; right; exists size; split; [lia|by split]]]].
  all: split;
    [first [done|intros _; repeat split; eauto]
    |first [done
           |intros (H1 & H2 & H3 & H4 & H5 & H6 & size0 & H7 & H8);
            first [done|by destruct H1|by destruct H3
                  |injection H7 as <-; lia]]].
Qed.

Lemma capture_screenshot_artifact self url output_path :
  dget "success" (fst (capture_screenshot b self url output_path))
  = Some (VBool (is_ok (fst (capture_attempt b url output_path self)))).
Proof.
  pose proof (capture_attempt_run self url output_path) as (_ & _ & _ & Hok & _).
  unfold capture_screenshot.
  destruct (capture_attempt b url output_path self) as [[artifact|e] self'];
    cbn [fst snd] in *; [|done].
  by destruct (Hok artifact eq_refl) as [-> _].
Qed.

Lemma capture_screenshot_files self url output_path :
  files (snd (capture_screenshot b self url output_path))
  = files (snd (capture_attempt b url output_path self)).
Proof.
  unfold capture_screenshot.
  destruct (capture_attempt b url output_path self) as [outcome self'].
  apply teardown_files.
Qed.
End capture_outcomes.




(** ** The research pipeline of the WebSailor agent *)

Lemma mapM_result_raises {A B} (f : A -> result B) (l : list A) x e :
  x ∈ l -> f x = Raise e -> exists e', mapM f l = Raise e'.
Proof.
  intros Hin Hx. induction l as [|y l IH]; [by apply elem_of_nil in Hin|].
  apply elem_of_cons in Hin as [<-|Hin].
  - exists e. cbn. by rewrite Hx.
  - destruct (IH Hin) as [e' He']. cbn. destruct (f y) as [b|e0]; [|by eexists].
    cbn. fold (mapM f l). rewrite He'. by eexists.
Qed.

Section websailor.
Import WebSailor.
Variable attributes : list string.
Variable w : WebSailor.world.
Variable keys : credentials.
Variable self : websailor_agent.
Implicit Types (st : state) (r : run) (query : string) (context : dict)
  (session_id : option string).

Lemma try_except_swallows {S} (body : st_m S unit) (s : S) :
  fst (try_except body (fun _ => mret tt) s) = Ok tt.
Proof. unfold try_except. by destruct (body s) as [[[]|e] s']. Qed.

Lemma process_engine_returns engine_name results context session_id r :
  fst (process_engine attributes w keys self engine_name results context session_id r)
  = Ok tt.
Proof. apply try_except_swallows. Qed.

Lemma level1_returns query context max_pages session_id r :
  fst (level1 attributes w keys self query context max_pages session_id r) = Ok tt.
Proof.
  unfold level1.
  destruct (serper_completes_first w query); cbn [fst snd];
    unfold mbind, st_m_bind;
    match goal with
    | |- context [process_engine _ _ _ _ ?n ?v ?c ?s r] =>
      pose proof (process_engine_returns n v c s r) as H1;
      destruct (process_engine attributes w keys self n v c s r) as [o1 r1]
    end; cbn [fst] in H1; subst o1; apply process_engine_returns.
Qed.

Lemma related_loop_returns research related_queries context session_id r :
  fst (related_loop research related_queries context session_id r) = Ok tt.
Proof.
  revert r. induction related_queries as [|related_query rest IH]; intros r; [done|].
  cbn [related_loop]. unfold mbind at 1, st_m_bind at 1.
  match goal with
  | |- context [try_except ?b ?h r] =>
    pose proof (try_except_swallows b r) as H1; destruct (try_except b h r) as [o1 r1]
  end.
  cbn [fst] in H1. subst o1. apply IH.
Qed.

Lemma process_and_analyze_content_no_url all_content query context doc :
  _process_and_analyze_content w all_content query context = Ok doc ->
  dget "url" doc = None.
Proof.
  unfold _process_and_analyze_content.
  destruct (mapM (fun item => py_len _) all_content) as [sizes|e]; [|done]. cbn.
  destruct (match all_content with [] => _ | _ => _ end) as [avg|e]; [|done]. cbn.
  destruct (mapM _ all_content) as [summary|e]; [|done]. cbn.
  by intros [= <-].
Qed.

Lemma process_and_analyze_content_needs_url all_content query context item :
  item ∈ all_content -> dget "url" item = None ->
  exists e, _process_and_analyze_content w all_content query context = Raise e.
Proof.
  intros Hin Hurl. unfold _process_and_analyze_content.
  destruct (mapM (fun item => py_len _) all_content) as [sizes|e]; [|by eexists]. cbn.
  destruct (match all_content with [] => _ | _ => _ end) as [avg|e]; [|by eexists]. cbn.
  match goal with
  | |- context [mapM ?f all_content] =>
    destruct (mapM_result_raises f all_content item (KeyError "url") Hin) as [e ->]
  end; [|by eexists].
  unfold dindex. by rewrite Hurl.
Qed.

Lemma research_attempt_ok research query context max_pages depth_levels session_id
    st doc st' :
  research_attempt attributes w keys self research query context max_pages
    depth_levels session_id st = (Ok doc, st') ->
  exists found, _process_and_analyze_content w found query context = Ok doc.
Proof.
  unfold research_attempt, mbind, st_m_bind, call.
  destruct (salvar_etapa w "websailor_iniciado") as [[]|e]; [|done].
  destruct (with_new_locals _ st) as [[found|e] st1]; [|done].
  destruct (_process_and_analyze_content w found query context)
    as [processed|e] eqn:Hdoc; [|done].
  destruct (_update_navigation_stats found st1) as [[[]|e] st2]; [|done].
  destruct (salvar_etapa w "websailor_resultado") as [[]|e]; [|done].
  intros [= <- <-]. by exists found.
Qed.

Lemma research_body_no_url research query context max_pages depth_levels session_id
    st doc st' :
  research_body attributes w keys self research query context max_pages depth_levels
    session_id st = (Ok doc, st') ->
  dget "url" doc = None.
Proof.
  unfold research_body, try_except.
  destruct (research_attempt _ _ _ _ _ _ _ _ _ _ st) as [[processed|e] st1] eqn:Hrun.
  - intros [= <- <-]. apply research_attempt_ok in Hrun as [found Hfound].
    by eapply process_and_analyze_content_no_url.
  - unfold mbind, st_m_bind, call.
    destruct (salvar_erro w "websailor_critico" e) as [[]|e']; [|done].
    by intros [= <- <-].
Qed.

Lemma research_body_returns research query context max_pages depth_levels session_id st :
  (forall name e, is_ok (salvar_erro w name e) = true) ->
  exists doc st',
    research_body attributes w keys self research query context max_pages depth_levels
      session_id st = (Ok doc, st').
Proof.
  intros Hlog. unfold research_body, try_except.
  destruct (research_attempt _ _ _ _ _ _ _ _ _ _ st) as [[processed|e] st1];
    [by eauto|].
  unfold mbind, st_m_bind, call. specialize (Hlog "websailor_critico" e).
  destruct (salvar_erro w "websailor_critico" e) as [[]|e']; [by eauto|done].
Qed.

Lemma related_step_keeps research related_query context session_id r item :
  item ∈ all_content r ->
  item ∈ all_content
    (snd (try_except
            (related_content ← on_services (research related_query context 5 1 session_id);
             append_content (dset "related_query" (VStr related_query) related_content))
            (fun _ => mret tt) r)).
Proof.
  intros Hin. unfold try_except, mbind, st_m_bind, on_services, append_content, modify.
  destruct (research related_query context 5 1 session_id (services r))
    as [[doc|e] st']; cbn; [|done].
  apply elem_of_app. by left.
Qed.

Lemma related_loop_keeps research related_queries context session_id r item :
  item ∈ all_content r ->
  item ∈ all_content (snd (related_loop research related_queries context session_id r)).
Proof.
  revert r. induction related_queries as [|related_query rest IH]; intros r Hin; [done|].
  cbn [related_loop]. unfold mbind at 1, st_m_bind at 1.
  pose proof (related_step_keeps research related_query context session_id r item Hin)
    as Hstep.
  destruct (try_except _ _ r) as [[[]|e] r1]; cbn [snd] in *; [by apply IH|done].
Qed.

Lemma related_loop_appends research related_queries context session_id r :
  (forall related_query st,
     exists doc st',
       research related_query context 5 1 session_id st = (Ok doc, st') /\
       dget "url" doc = None) ->
  related_queries <> [] ->
  exists item,
    item ∈ all_content (snd (related_loop research related_queries context session_id r)) /\
    dget "url" item = None.
Proof.
  intros Hresearch Hne.
  destruct related_queries as [|related_query rest]; [done|].
  cbn [related_loop]. unfold mbind at 1, st_m_bind at 1.
  destruct (Hresearch related_query (services r)) as (doc & st' & Hdoc & Hurl).
  exists (dset "related_query" (VStr related_query) doc). split.
  - assert (dset "related_query" (VStr related_query) doc
            ∈ all_content
                (snd (try_except
                        (related_content ←
                           on_services (research related_query context 5 1 session_id);
                         append_content
                           (dset "related_query" (VStr related_query) related_content))
                        (fun _ => mret tt) r))) as Hin.
    { unfold try_except, mbind, st_m_bind, on_services, append_content, modify.
      rewrite Hdoc. cbn. apply elem_of_app. right. by apply list_elem_of_singleton. }
    pose proof (try_except_swallows
                  (related_content ←
                     on_services (research related_query context 5 1 session_id);
                   append_content
                     (dset "related_query" (VStr related_query) related_content)) r)
      as Hok.
    destruct (try_except _ _ r) as [o1 r1]. cbn [fst snd] in *. subst o1.
    by apply related_loop_keeps.
  - rewrite dget_dset_ne; [done|discriminate].
Qed.

(** What [all_content] holds after the three levels when [depth_levels > 2]
    and every related research returns a document. *)
Lemma collect_content_deep research query context max_pages depth_levels session_id st :
  2 < depth_levels ->
  (forall related_query st,
     exists doc st',
       research related_query context 5 1 session_id st = (Ok doc, st') /\
       dget "url" doc = None) ->
  exists found,
    fst (collect_content attributes w keys self research query context max_pages
           depth_levels session_id (new_locals st)) = Ok found /\
    ((level1_content attributes w keys self query context max_pages session_id st = []
      /\ found = []) \/
     (level1_content attributes w keys self query context max_pages session_id st <> []
      /\ exists item, item ∈ found /\ dget "url" item = None)).
Proof.
  intros Hdepth Hresearch. apply Z.ltb_lt in Hdepth.
  unfold collect_content, level1_content. rewrite Hdepth.
  unfold mbind at 1, st_m_bind at 1.
  pose proof (level1_returns query context max_pages session_id (new_locals st)) as Hok.
  destruct (level1 _ _ _ _ query context max_pages session_id (new_locals st))
    as [o1 r1]. cbn [fst snd] in *. subst o1.
  unfold mbind at 1, st_m_bind at 1, gets at 1.
  destruct (all_content r1) as [|first rest] eqn:Hfound.
  - exists []. unfold mbind, st_m_bind, mret, st_m_ret, gets. cbn [fst].
    rewrite Hfound. split; [done|]. by left.
  - unfold mbind at 1, st_m_bind at 1.
    pose proof (related_loop_returns research
                  (take 3 (_generate_related_queries query context (first :: rest)))
                  context session_id r1) as Hok.
    destruct (related_loop_appends research
                (take 3 (_generate_related_queries query context (first :: rest)))
                context session_id r1 Hresearch) as (item & Hin & Hurl); [done|].
    destruct (related_loop _ _ _ _ r1) as [o2 r2]. cbn [fst snd] in *. subst o2.
    exists (all_content r2). split; [done|]. right. split; [done|]. by exists item.
Qed.
End websailor.



(** ** What the extraction strategies return *)

Lemma lstrip_length s : (String.length (lstrip s) <= String.length s)%nat.
Proof. induction s as [|c s IH]; simpl; [done|]. destruct (is_space c); simpl; lia. Qed.

Lemma rstrip_length s : (String.length (rstrip s) <= String.length s)%nat.
Proof.
  induction s as [|c s IH]; simpl; [done|].
  destruct (rstrip s) as [|c' rest]; [destruct (is_space c)|]; simpl in *; lia.
Qed.

Lemma strip_length s : (String.length (strip s) <= String.length s)%nat.
Proof.
  unfold strip. pose proof (rstrip_length (lstrip s)). pose proof (lstrip_length s). lia.
Qed.

Section websailor_extraction.
Import WebSailor.
Variable attributes : list string.
Variable w : WebSailor.world.
Variable keys : credentials.
Variable self : websailor_agent.
Implicit Types (st : state) (r : run) (url query : string) (title : value)
  (context : dict) (session_id : option string).

Lemma jina_strategy_cases url title context :
  (exists methods_tried, jina_strategy w keys self url title context = (None, methods_tried)) \/
  (exists content quality,
     jina_strategy w keys self url title context
       = (Some (extracted url title content quality "jina_reader"), []) /\
     100 < Z.of_nat (String.length content) /\
     _calculate_content_quality (netloc w) self content url context = Ok quality).
Proof.
  unfold jina_strategy.
  destruct (usable_key (jina_api_key keys)) as [key|]; [|by left; eexists].
  destruct (jina_reader w key url) as [[status_code content]|e]; cbn;
    [|by left; eexists].
  destruct (status_code =? 200); [|by left; eexists].
  destruct (100 <? Z.of_nat (String.length content)) eqn:Hlen; [|by left; eexists].
  destruct (_calculate_content_quality (netloc w) self content url context)
    as [quality|e] eqn:Hq; cbn; [|by left; eexists].
  right. exists content, quality. split; [done|]. split; [by apply Z.ltb_lt|done].
Qed.

Lemma exa_strategy_cases url title context :
  exa_strategy w self url title context = None \/
  exists content quality,
    exa_strategy w self url title context
      = Some (extracted url title content quality "exa") /\
    50 < Z.of_nat (String.length content) /\
    _calculate_content_quality (netloc w) self content url context = Ok quality.
Proof.
  unfold exa_strategy.
  destruct (extract_content_with_exa w url) as [content|e]; cbn; [|by left].
  destruct content as [|b|z|q|text|l|d]; cbn;
    try (by left);
    try (match goal with
         | |- context [if ?c then _ else _] => destruct c
         | |- context [match ?c with [] => _ | _ => _ end] => destruct c
         end; by left).
  destruct (50 <? Z.of_nat (String.length (strip text))) eqn:Hlen; [|by left].
  destruct (_calculate_content_quality (netloc w) self text url context)
    as [quality|e] eqn:Hq; cbn; [|by left].
  right. exists text, quality. split; [done|]. split.
  - apply Z.ltb_lt in Hlen. pose proof (strip_length text). lia.
  - done.
Qed.

Lemma soup_strategy_cases url title context :
  soup_strategy w self url title context = None \/
  exists content quality,
    soup_strategy w self url title context
      = Some (extracted url title content quality "beautifulsoup") /\
    50 < Z.of_nat (String.length content) /\
    _calculate_content_quality (netloc w) self content url context = Ok quality.
Proof.
  unfold soup_strategy.
  destruct (page_text w url) as [text_content|e]; cbn; [|by left].
  destruct (50 <? _) eqn:Hlen; [|by left].
  destruct (_calculate_content_quality _ _ _ _ _) as [quality|e] eqn:Hq; cbn; [|by left].
  right. eexists _, quality. split; [done|]. split; [by apply Z.ltb_lt|done].
Qed.

Lemma fallback_extraction_cases url title context :
  match _fallback_extraction w self url title context with
  | Ok None => True
  | Ok (Some content_data) =>
    exists content quality extraction_method,
      content_data = extracted url title content quality extraction_method /\
      50 < Z.of_nat (String.length content) /\
      _calculate_content_quality (netloc w) self content url context = Ok quality /\
      extraction_method ∈ ["exa"; "beautifulsoup"]
  | Raise e => has_exa w = true /\ exa_is_available w = Raise e
  end.
Proof.
  unfold _fallback_extraction.
  assert (match soup_strategy w self url title context with
          | Some content_data =>
            exists content quality extraction_method,
              content_data = extracted url title content quality extraction_method /\
              50 < Z.of_nat (String.length content) /\
              _calculate_content_quality (netloc w) self content url context = Ok quality /\
              extraction_method ∈ ["exa"; "beautifulsoup"]
          | None => True
          end) as Hsoup.
  { destruct (soup_strategy_cases url title context) as [->|(c & q & -> & ? & ?)];
      [done|].
    exists c, q, "beautifulsoup". split; [done|]. split; [done|]. split; [done|].
    repeat constructor. }
  destruct (has_exa w); [destruct (exa_is_available w) as [[]|e]|]; cbn; try done.
  destruct (exa_strategy_cases url title context) as [->|(c & q & -> & ? & ?)];
    [done|].
  exists c, q, "exa". split; [done|]. split; [done|]. split; [done|].
  repeat constructor.
Qed.

Lemma long_content_truthy content :
  50 < Z.of_nat (String.length content) -> negb (String.eqb content "") = true.
Proof. destruct content; [simpl; lia|done]. Qed.

(** The predictive block on a freshly extracted record. *)
Lemma predictive_block_cases url' url title content quality extraction_method
    methods_tried is_preferred session_id st :
  let content_data :=
    extraction_record url title content quality extraction_method methods_tried
      is_preferred in
  exists entries st',
    predictive_block attributes w url' session_id content_data st
      = (Ok (content_data ++ entries), st') /\
    predictive_entries entries /\
    navigation st' = navigation st /\
    ("get_content_quality_score" ∉ attributes -> entries = [] /\ st' = st).
Proof.
  intros content_data. unfold predictive_block, getattr.
  assert (forall st0 : state,
            (Ok content_data, st0) = (Ok (content_data ++ []), st0)) as Hnil
    by (intros; by rewrite app_nil_r).
  destruct (bool_decide ("get_content_quality_score" ∈ attributes)) eqn:Hattr.
  2:{ exists [], st. split; [apply Hnil|]. split; [by left|]. done. }
  apply bool_decide_eq_true_1 in Hattr.
  cbn. destruct (get_content_quality_score w (VStr content)) as [score|e]; cbn.
  2:{ exists [], st. split; [apply Hnil|]. split; [by left|]. done. }
  destruct (gt_int score 80) as [[]|e]; cbn.
  - destruct (capture_screenshot _ _ _ _) as [capture_result camera].
    destruct (truthy (dget_default "success" VNone capture_result)).
    + destruct (dindex "filepath" capture_result) as [filepath|e].
      * eexists [_; _], _. split; [reflexivity|]. split; [|done].
        right. right. by eexists _, _.
      * eexists [_], _. split; [reflexivity|]. split; [|done].
        right. left. by eexists.
    + eexists [_], _. split; [reflexivity|]. split; [|done].
      right. left. by eexists.
  - eexists [_], _. split; [reflexivity|]. split; [|done]. right. left. by eexists.
  - eexists [_], _. split; [reflexivity|]. split; [|done]. right. left. by eexists.
Qed.

(** The part of [_extract_content_multi_strategy] after the strategies, on a
    record one of them has built. *)
Lemma extract_finish url title content quality extraction_method methods_tried
    session_id st :
  50 < Z.of_nat (String.length content) ->
  exists is_preferred entries st',
    (let content_data :=
       dset "methods_tried" (VList methods_tried)
         (extracted url title content quality extraction_method) in
     let is_preferred :=
       any_domain_in (preferred_domains self) (lower (netloc w url)) in
     let content_data := dset "is_preferred_source" (VBool is_preferred) content_data in
     _ ← (if is_preferred then bump_preferred_sources else mret tt);
     content_data ←
       (if truthy (dget_default "content" VNone content_data)
        then predictive_block attributes w url session_id content_data
        else mret content_data);
     mret (Some content_data)) st
    = (Ok (Some (extraction_record url title content quality extraction_method
                   methods_tried is_preferred ++ entries)), st') /\
    predictive_entries entries /\
    failed_extractions (navigation st') = failed_extractions (navigation st) /\
    ("get_content_quality_score" ∉ attributes ->
     entries = [] /\ visual_content_capture st' = visual_content_capture st).
Proof.
  intros Hlong. cbn zeta. cbn [dset extracted String.eqb Ascii.eqb Bool.eqb].
  set (is_preferred := any_domain_in (preferred_domains self) (lower (netloc w url))).
  exists is_preferred.
  cbn [dget_default dget default String.eqb Ascii.eqb Bool.eqb truthy].
  unfold id. cbn [truthy]. rewrite (long_content_truthy content Hlong).
  unfold mbind, st_m_bind.
  set (st1 := snd ((if is_preferred then bump_preferred_sources else mret tt) st)).
  assert ((if is_preferred then bump_preferred_sources else mret tt) st = (Ok tt, st1))
    as -> by (subst st1; by destruct is_preferred).
  assert (failed_extractions (navigation st1) = failed_extractions (navigation st) /\
          visual_content_capture st1 = visual_content_capture st) as [Hfailed Hcamera]
    by (subst st1; by destruct is_preferred).
  destruct (predictive_block_cases url url title content quality extraction_method
              methods_tried is_preferred session_id st1)
    as (entries & st' & Hblock & Hentries & Hnav & Hmissing).
  unfold extraction_record, extracted in Hblock. cbn [app] in Hblock.
  rewrite Hblock. exists entries, st'. split; [done|]. split; [done|].
  split; [by rewrite Hnav|].
  intros Hattr. destruct (Hmissing Hattr) as [-> ->]. done.
Qed.

Lemma extract_content_multi_strategy_cases url title context session_id st :
  match _extract_content_multi_strategy attributes w keys self url title context
          session_id st with
  | (Ok (Some content_data), st') =>
    exists content quality extraction_method methods_tried is_preferred entries,
      content_data = extraction_record url title content quality extraction_method
                       methods_tried is_preferred ++ entries /\
      50 < Z.of_nat (String.length content) /\
      0 <= quality <= 100 /\
      extraction_method ∈ ["jina_reader"; "exa"; "beautifulsoup"] /\
      predictive_entries entries /\
      failed_extractions (navigation st') = failed_extractions (navigation st) /\
      ("get_content_quality_score" ∉ attributes ->
       entries = [] /\ visual_content_capture st' = visual_content_capture st) /\
      _calculate_content_quality (netloc w) self content url context = Ok quality /\
      (extraction_method = "jina_reader" -> 100 < Z.of_nat (String.length content))
  | (Ok None, st') =>
    failed_extractions (navigation st') = failed_extractions (navigation st) + 1 /\
    visual_content_capture st' = visual_content_capture st
  | (Raise e, st') => st' = st /\ has_exa w = true /\ exa_is_available w = Raise e
  end.
Proof.
  unfold _extract_content_multi_strategy.
  destruct (jina_strategy_cases url title context)
    as [[methods_tried ->]|(content & quality & -> & Hlong & Hquality)].
  - cbn [extraction_succeeded]. unfold mbind at 1, st_m_bind at 1.
    unfold mbind at 1, st_m_bind at 1, call at 1.
    pose proof (fallback_extraction_cases url title context) as Hfallback.
    destruct (_fallback_extraction w self url title context)
      as [[content_data|]|e]; [| |done].
    + destruct Hfallback as (content & quality & extraction_method & -> & Hlong
                             & Hquality & Hmethod).
      destruct (extract_finish url title content quality extraction_method
                  (methods_tried ++ [VStr extraction_method]) session_id st
                  ltac:(lia)) as (is_preferred & entries & st' & Hrun & Hentries
                                  & Hfailed & Hmissing).
      match goal with
      | |- match ?t with _ => _ end =>
        replace t with
          (Ok (Some (extraction_record url title content quality extraction_method
                       (methods_tried ++ [VStr extraction_method]) is_preferred
                     ++ entries)), st')
          by (symmetry; exact Hrun)
      end.
      exists content, quality, extraction_method,
        (methods_tried ++ [VStr extraction_method]), is_preferred, entries.
      pose proof (calculate_content_quality_in_range _ _ _ _ _ _ Hquality).
      split; [done|]. split; [done|]. split; [done|].
      split; [apply elem_of_cons; by right|]. split; [done|]. split; [done|].
      split; [done|]. split; [done|]. intros ->.
      apply (bool_decide_eq_true_2 _) in Hmethod. vm_compute in Hmethod.
      discriminate Hmethod.
    + cbn. unfold mbind, st_m_bind, bump_failed_extractions, with_navigation, modify.
      cbn. done.
  - destruct (extract_finish url title content quality "jina_reader" [] session_id st
                ltac:(lia)) as (is_preferred & entries & st' & Hrun & Hentries
                                & Hfailed & Hmissing).
    match goal with
    | |- match ?t with _ => _ end =>
      replace t with
        (Ok (Some (extraction_record url title content quality "jina_reader"
                     [] is_preferred ++ entries)), st')
        by (symmetry; exact Hrun)
    end.
    exists content, quality, "jina_reader", [], is_preferred, entries.
    pose proof (calculate_content_quality_in_range _ _ _ _ _ _ Hquality).
    split; [done|]. split; [lia|]. split; [done|]. split; [repeat constructor|].
    split; [done|]. split; [done|]. split; [done|]. split; [done|]. done.
Qed.
End websailor_extraction.

(** ** Level 1: what the result loop appends *)

Lemma dget_app k (d1 d2 : dict) :
  dget k (d1 ++ d2) = match dget k d1 with Some v => Some v | None => dget k d2 end.
Proof.
  induction d1 as [|[k' v'] d1 IH]; simpl; [done|]. by destruct (String.eqb k k').
Qed.

Lemma dset_fresh k v (d : dict) : dget k d = None -> dset k v d = d ++ [(k, v)].
Proof.
  induction d as [|[k' v'] d IH]; simpl; [done|].
  destruct (String.eqb k k'); [done|]. intros H. by rewrite IH.
Qed.

Lemma substring_length n s : (String.length (String.substring 0 n s) <= n)%nat.
Proof.
  revert s. induction n as [|n IH]; intros [|c s]; simpl; try lia.
  specialize (IH s). lia.
Qed.

Lemma list_ascii_of_string_length s :
  length (list_ascii_of_string s) = String.length s.
Proof. induction s as [|c s IH]; simpl; congruence. Qed.

Lemma slice_prefix_length n v first items :
  slice_prefix n v = Ok first -> iter_value first = Ok items ->
  (length items <= n)%nat.
Proof.
  destruct v; simpl; try done; intros [= <-]; simpl; intros [= <-].
  - rewrite length_fmap, list_ascii_of_string_length. apply substring_length.
  - rewrite length_take. lia.
Qed.

Section websailor_level1.
Import WebSailor.
Variable attributes : list string.
Variable w : WebSailor.world.
Variable keys : credentials.
Variable self : websailor_agent.
Implicit Types (st : state) (r : run) (url query : string) (title : value)
  (context : dict) (session_id : option string).

Lemma extract_from_cases (url title : value) context session_id st :
  match extract_from attributes w keys self url title context session_id st with
  | (Ok (Some content_data), st') =>
    exists address content quality extraction_method methods_tried is_preferred entries,
      content_data = extraction_record address title content quality extraction_method
                       methods_tried is_preferred ++ entries /\
      50 < Z.of_nat (String.length content) /\
      0 <= quality <= 100 /\
      extraction_method ∈ ["jina_reader"; "exa"; "beautifulsoup"] /\
      predictive_entries entries /\
      ("get_content_quality_score" ∉ attributes ->
       entries = [] /\ visual_content_capture st' = visual_content_capture st)
  | (_, st') => visual_content_capture st' = visual_content_capture st
  end.
Proof.
  unfold extract_from.
  destruct url as [|b|z|q|address|l|d];
    try (unfold mbind, st_m_bind, call;
         destruct (if has_exa w then exa_is_available w else Ok false) as [?|?];
         by cbn).
  pose proof (extract_content_multi_strategy_cases attributes w keys self address title
                context session_id st) as Hcases.
  destruct (_extract_content_multi_strategy _ _ _ _ _ _ _ _ st)
    as [[[content_data|]|e] st'].
  - destruct Hcases as (content & quality & extraction_method & methods_tried
                        & is_preferred & entries & -> & ? & ? & ? & ? & ? & ? & _).
    by exists address, content, quality, extraction_method, methods_tried,
         is_preferred, entries.
  - by destruct Hcases.
  - by destruct Hcases as [-> _].
Qed.

Lemma extraction_record_item address title content quality extraction_method
    methods_tried is_preferred entries engine_name :
  predictive_entries entries ->
  dset "content_length" (VInt (Z.of_nat (String.length content)))
    (dset "search_engine" (VStr engine_name)
       (extraction_record address title content quality extraction_method
          methods_tried is_preferred ++ entries))
  = extraction_record address title content quality extraction_method
      methods_tried is_preferred
    ++ entries
    ++ [("search_engine", VStr engine_name);
        ("content_length", VInt (Z.of_nat (String.length content)))].
Proof.
  intros [->|[[score ->]|(score & path & ->)]]; reflexivity.
Qed.

Lemma process_result_cases engine_name context session_id (hit : value) r :
  engine_name ∈ ["Google Custom Search"; "Serper API"] ->
  let r' := snd (process_result attributes w keys self engine_name context session_id
                   hit r) in
  search_engines_used r' = search_engines_used r /\
  ("get_content_quality_score" ∉ attributes ->
   visual_content_capture (services r') = visual_content_capture (services r)) /\
  (all_content r' = all_content r \/
   exists item,
     all_content r' = all_content r ++ [item] /\
     level1_item item /\
     ("get_content_quality_score" ∉ attributes -> without_predictive_entries item)).
Proof.
  intros Hengine r'. subst r'.
  match goal with
  | |- ?G =>
    match eval pattern (snd (process_result attributes w keys self engine_name context
                               session_id hit r)) in G with
    | ?Q _ => set (goal := Q); change (goal (snd (process_result attributes w keys self
                                                   engine_name context session_id
                                                   hit r)))
    end
  end.
  assert (forall (o : result unit) st',
            visual_content_capture st' = visual_content_capture (services r) ->
            goal (o, {| all_content := all_content r;
                        search_engines_used := search_engines_used r;
                        services := st' |}).2) as Hsame.
  { intros o st' Hst'. subst goal. cbn. split; [done|]. split; [by intros _|]. by left. }
  assert (goal r) as Hstay.
  { subst goal. cbn. split; [done|]. split; [done|]. by left. }
  unfold process_result.
  unfold mbind at 1, st_m_bind at 1, call at 1.
  destruct (vget "url" hit ≫= _) as [url|e]; [|done].
  destruct (negb (truthy url)); [done|].
  unfold mbind at 1, st_m_bind at 1, call at 1.
  destruct (vget_default "title" (VStr "") hit) as [title|e]; [|done].
  unfold mbind at 1, st_m_bind at 1, on_services at 1.
  pose proof (extract_from_cases url title context session_id (services r)) as Hcases.
  destruct (extract_from _ _ _ _ url title context session_id (services r))
    as [[[content_data|]|e] st']; cbn [extraction_succeeded];
    [|by apply Hsame..].
  destruct Hcases as (address & content & quality & extraction_method & methods_tried
                      & is_preferred & entries & -> & Hlong & Hquality & Hmethod
                      & Hentries & Hmissing).
  assert (truthy (dget_default "success" VNone
                    (extraction_record address title content quality extraction_method
                       methods_tried is_preferred ++ entries)) = true) as ->
    by reflexivity.
  cbn [default]. unfold id.
  assert (dget_default "content" (VStr "")
            (dset "search_engine" (VStr engine_name)
               (extraction_record address title content quality extraction_method
                  methods_tried is_preferred ++ entries)) = VStr content) as ->
    by reflexivity.
  unfold mbind at 1, st_m_bind at 1, call at 1. cbn [py_len].
  rewrite (extraction_record_item address title content quality extraction_method
             methods_tried is_preferred entries engine_name Hentries).
  set (item := extraction_record _ _ _ _ _ _ _ ++ _).
  assert (level1_item item /\
          ("get_content_quality_score" ∉ attributes -> without_predictive_entries item))
    as [Hitem Hplain].
  { split.
    - by exists address, title, content, quality, extraction_method, methods_tried,
           is_preferred, entries, engine_name.
    - intros Hattr. destruct (Hmissing Hattr) as [Hnil _]. subst item. rewrite Hnil.
      by split. }
  clearbody item. clear Hsame Hstay.
  unfold mbind, st_m_bind, append_content, modify, call, gets.
  subst goal.
  destruct (salvar_trecho_pesquisa_web w item _) as [[]|e];
    [destruct (salvar_etapa w _) as [[]|e]|]; cbn.
  all: split; [done|]; split; [intros Hattr; by destruct (Hmissing Hattr)|].
  all: right; by exists item.
Qed.

Lemma process_results_cases engine_name context session_id (hits : list value) r o r' :
  engine_name ∈ ["Google Custom Search"; "Serper API"] ->
  process_results attributes w keys self engine_name context session_id hits r
    = (o, r') ->
  search_engines_used r' = search_engines_used r /\
  ("get_content_quality_score" ∉ attributes ->
   visual_content_capture (services r') = visual_content_capture (services r)) /\
  exists added,
    all_content r' = all_content r ++ added /\
    (length added <= length hits)%nat /\
    Forall (fun item =>
              level1_item item /\
              ("get_content_quality_score" ∉ attributes ->
               without_predictive_entries item)) added.
Proof.
  intros Hengine. revert r o r'. induction hits as [|hit hits IH]; intros r o r'.
  - intros [= <- <-]. split; [done|]. split; [done|]. exists []. by rewrite app_nil_r.
  - cbn [process_results]. unfold mbind, st_m_bind.
    pose proof (process_result_cases engine_name context session_id hit r Hengine)
      as (Hused & Hcamera & Hadded).
    destruct (process_result _ _ _ _ engine_name context session_id hit r)
      as [[[]|e] r1]; cbn [snd] in *.
    + intros Hrest.
      destruct (IH r1 o r' Hrest) as (Hused' & Hcamera' & added & Hall & Hlen & Hitems).
      split; [by etrans|]. split.
      { intros Hattr. etrans; [by apply Hcamera'|by apply Hcamera]. }
      destruct Hadded as [Hsame|(item & Hitem & Hshape)].
      * exists added. split; [by rewrite Hall, Hsame|]. split; [simpl; lia|done].
      * exists (item :: added). split; [by rewrite Hall, Hitem, <- app_assoc|].
        split; [simpl; lia|]. by constructor.
    + intros [= <- <-]. split; [done|]. split; [done|].
      destruct Hadded as [Hsame|(item & Hitem & Hshape)].
      * exists []. rewrite app_nil_r. split; [done|]. split; [simpl; lia|done].
      * exists [item]. split; [done|]. split; [simpl; lia|].
        constructor; [done|constructor].
Qed.

Lemma process_engine_cases engine_name (results : value) context session_id r o r' :
  engine_name ∈ ["Google Custom Search"; "Serper API"] ->
  process_engine attributes w keys self engine_name results context session_id r
    = (o, r') ->
  ("get_content_quality_score" ∉ attributes ->
   visual_content_capture (services r') = visual_content_capture (services r)) /\
  exists added,
    all_content r' = all_content r ++ added /\
    (length added <= 5)%nat /\
    Forall (fun item =>
              level1_item item /\
              ("get_content_quality_score" ∉ attributes ->
               without_predictive_entries item)) added.
Proof.
  intros Hengine.
  assert (forall r0 : run,
            all_content r0 = all_content r -> services r0 = services r ->
            ("get_content_quality_score" ∉ attributes ->
             visual_content_capture (services r0) = visual_content_capture (services r)) /\
            exists added,
              all_content r0 = all_content r ++ added /\
              (length added <= 5)%nat /\
              Forall (fun item =>
                        level1_item item /\
                        ("get_content_quality_score" ∉ attributes ->
                         without_predictive_entries item)) added) as Hstay.
  { intros r0 Hall Hservices. split; [by rewrite Hservices|].
    exists []. rewrite app_nil_r. split; [done|]. split; [simpl; lia|done]. }
  unfold process_engine, try_except.
  destruct (truthy results); [|intros [= <- <-]; by apply Hstay].
  unfold mbind, st_m_bind, append_engine, modify, call.
  destruct (py_len results) as [n|e]; [|intros [= <- <-]; by apply Hstay].
  destruct (slice_prefix 5 results) as [first|e] eqn:Hslice;
    [|intros [= <- <-]; by apply Hstay].
  destruct (iter_value first) as [hits|e] eqn:Hhits;
    [|intros [= <- <-]; by apply Hstay].
  pose proof (slice_prefix_length 5 results first hits Hslice Hhits) as Hfive.
  destruct (process_results _ _ _ _ engine_name context session_id hits _)
    as [o1 r1] eqn:Hrun.
  destruct (process_results_cases engine_name context session_id hits _ o1 r1
              Hengine Hrun) as (_ & Hcamera & added & Hall & Hlen & Hitems).
  cbn [all_content services] in *.
  assert (r' = r1 -> ("get_content_quality_score" ∉ attributes ->
             visual_content_capture (services r') = visual_content_capture (services r)) /\
            exists added,
              all_content r' = all_content r ++ added /\
              (length added <= 5)%nat /\
              Forall (fun item =>
                        level1_item item /\
                        ("get_content_quality_score" ∉ attributes ->
                         without_predictive_entries item)) added) as Hdone.
  { intros ->. split; [done|]. exists added. split; [done|]. split; [lia|done]. }
  destruct o1 as [[]|e]; intros [= <- <-]; by apply Hdone.
Qed.

Lemma level1_cases query context max_pages session_id r o r' :
  level1 attributes w keys self query context max_pages session_id r = (o, r') ->
  ("get_content_quality_score" ∉ attributes ->
   visual_content_capture (services r') = visual_content_capture (services r)) /\
  exists added,
    all_content r' = all_content r ++ added /\
    (length added <= 10)%nat /\
    Forall (fun item =>
              level1_item item /\
              ("get_content_quality_score" ∉ attributes ->
               without_predictive_entries item)) added.
Proof.
  unfold level1.
  assert ("Google Custom Search" ∈ ["Google Custom Search"; "Serper API"]) as Hgoogle
    by repeat constructor.
  assert ("Serper API" ∈ ["Google Custom Search"; "Serper API"]) as Hserper
    by repeat constructor.
  destruct (serper_completes_first w query); cbn [fst snd];
    unfold mbind, st_m_bind;
    (match goal with
     | |- context [process_engine _ _ _ _ ?n ?v ?c ?s r] =>
       pose proof (process_engine_returns attributes w keys self n v c s r) as Hok;
       destruct (process_engine attributes w keys self n v c s r) as [o1 r1] eqn:Hrun1;
       destruct (process_engine_cases n v c s r o1 r1 ltac:(assumption) Hrun1)
         as (Hcamera1 & added1 & Hall1 & Hlen1 & Hitems1)
     end);
    cbn [fst snd] in *; subst o1; intros Hrun2;
    (match type of Hrun2 with
     | process_engine _ _ _ _ ?n ?v ?c ?s ?r0 = _ =>
       destruct (process_engine_cases n v c s r0 o r' ltac:(assumption) Hrun2)
         as (Hcamera2 & added2 & Hall2 & Hlen2 & Hitems2)
     end);
    (split; [intros Hattr; etrans; [by apply Hcamera2|by apply Hcamera1]|]);
    exists (added1 ++ added2); (split; [by rewrite Hall2, Hall1, <- app_assoc|]);
    (split; [rewrite length_app; lia|by apply Forall_app]).
Qed.

(** What level 1 leaves in [all_content]. *)
Lemma level1_content_items query context max_pages session_id st :
  (length (level1_content attributes w keys self query context max_pages session_id st)
   <= 10)%nat /\
  Forall (fun item =>
            level1_item item /\
            ("get_content_quality_score" ∉ attributes ->
             without_predictive_entries item))
    (level1_content attributes w keys self query context max_pages session_id st).
Proof.
  unfold level1_content.
  destruct (level1 _ _ _ _ query context max_pages session_id (new_locals st))
    as [o r'] eqn:Hrun.
  destruct (level1_cases query context max_pages session_id (new_locals st) o r' Hrun)
    as (_ & added & Hall & Hlen & Hitems).
  cbn [snd]. rewrite Hall. cbn. done.
Qed.
End websailor_level1.

(** ** Processing what level 1 has found *)

Lemma mapM_result_total {A B} (f : A -> result B) (l : list A) :
  Forall (fun x => is_ok (f x) = true) l -> exists k, mapM f l = Ok k.
Proof.
  induction 1 as [|x l Hx _ [k Hk]]; [by exists []|].
  destruct (f x) as [y|e] eqn:Hy; [|done].
  exists (y :: k). cbn. rewrite Hy. cbn. fold (mapM f l). by rewrite Hk.
Qed.

Lemma sum_numbers_total (vs : list value) :
  Forall (fun v => as_number v <> None) vs -> exists total, sum_numbers vs = Ok total.
Proof.
  induction 1 as [|v vs Hv _ [total Htotal]]; [by eexists|].
  cbn. destruct (as_number v) as [q|]; [|done]. rewrite Htotal. by eexists.
Qed.

Lemma level1_item_fields (item : dict) :
  WebSailor.level1_item item ->
  exists url title content quality,
    dget "success" item = Some (VBool true) /\
    dget "url" item = Some (VStr url) /\
    dget "title" item = Some title /\
    dget "content" item = Some (VStr content) /\
    dget "quality_score" item = Some (VFloat (inject_Z quality)) /\
    50 < Z.of_nat (String.length content) /\
    0 <= quality <= 100.
Proof.
  intros (url & title & content & quality & extraction_method & methods_tried
          & is_preferred & entries & engine_name & -> & Hlong & Hquality & _).
  exists url, title, content, quality.
  unfold WebSailor.extraction_record, WebSailor.extracted. cbn.
  repeat split; first [done|lia].
Qed.

Section websailor_processing.
Import WebSailor.
Variable attributes : list string.
Variable w : WebSailor.world.
Variable keys : credentials.
Variable self : websailor_agent.
Implicit Types (st : state) (r : run) (url query : string) (title : value)
  (context : dict) (session_id : option string).

Lemma level1_items_sizes (found : list dict) :
  Forall level1_item found ->
  exists sizes,
    mapM (fun item => py_len (dget_default "content" (VStr "") item)) found = Ok sizes /\
    length sizes = length found /\
    Forall (fun size => 50 < size) sizes.
Proof.
  induction 1 as [|item found Hitem _ (sizes & Hsizes & Hlen & Hlong)].
  - by exists [].
  - destruct (level1_item_fields item Hitem)
      as (url & title & content & quality & _ & _ & _ & Hcontent & _ & Hsize & _).
    exists (Z.of_nat (String.length content) :: sizes). split; [|split].
    + cbn. unfold dget_default. rewrite Hcontent. cbn.
      fold (mapM (fun item => py_len (dget_default "content" (VStr "") item)) found).
      unfold dget_default in Hsizes. by rewrite Hsizes.
    + simpl. by rewrite Hlen.
    + by constructor.
Qed.

Lemma level1_items_quality (found : list dict) :
  Forall level1_item found ->
  exists total,
    sum_numbers ((fun item => dget_default "quality_score" (VInt 0) item) <$> found)
    = Ok total.
Proof.
  intros Hfound. apply sum_numbers_total, Forall_fmap.
  eapply Forall_impl; [exact Hfound|]. intros item Hitem. cbn.
  destruct (level1_item_fields item Hitem)
    as (url & title & content & quality & _ & _ & _ & _ & Hq & _).
  unfold dget_default. by rewrite Hq.
Qed.

Lemma level1_items_summary (found : list dict) :
  Forall level1_item found ->
  exists summary,
    mapM (fun c =>
            url ← dindex "url" c;
            title ← dindex "title" c;
            size ← py_len (dget_default "content" (VStr "") c);
            Ok (VDict [("url", url); ("title", title); ("length", VInt size);
                       ("quality", dget_default "quality_score" (VInt 0) c)]))
         found = Ok summary /\
    length summary = length found.
Proof.
  intros Hfound.
  match goal with
  | |- exists _, mapM ?f _ = _ /\ _ => destruct (mapM_result_total f found) as [summary Hs]
  end.
  - eapply Forall_impl; [exact Hfound|]. intros item Hitem. cbn beta.
    destruct (level1_item_fields item Hitem)
      as (url & title & content & quality & _ & Hurl & Htitle & Hcontent & _).
    unfold dindex, dget_default. by rewrite Hurl, Htitle, Hcontent.
  - exists summary. split; [done|]. by eapply mapM_result_length.
Qed.

(** On what level 1 has found the processing succeeds. *)
Lemma process_level1_items (found : list dict) query context :
  Forall level1_item found ->
  exists sizes average summary,
    _process_and_analyze_content w found query context
    = Ok [("query", VStr query);
          ("total_documents", VInt (Z.of_nat (length found)));
          ("total_characters", VInt (foldr Z.add 0 sizes));
          ("average_quality_score", average);
          ("extracted_content_summary", VList summary);
          ("analysis_timestamp", VStr (now w))] /\
    length sizes = length found /\
    Forall (fun size => 50 < size) sizes /\
    length summary = length found.
Proof.
  intros Hfound. unfold _process_and_analyze_content.
  destruct (level1_items_sizes found Hfound) as (sizes & -> & Hlen & Hlong).
  destruct (level1_items_quality found Hfound) as (total & Htotal).
  destruct (level1_items_summary found Hfound) as (summary & Hsummary & Hslen).
  cbn. rewrite Hsummary.
  destruct found as [|item found].
  - cbn. by eexists sizes, _, summary.
  - rewrite Htotal. cbn. by eexists sizes, _, summary.
Qed.

Lemma level1_items_succeeded (found : list dict) :
  Forall level1_item found ->
  filter (fun c => truthy (dget_default "success" VNone c) = true) found = found.
Proof.
  induction 1 as [|item found Hitem _ IH]; [done|].
  destruct (level1_item_fields item Hitem)
    as (url & title & content & quality & Hsuccess & _).
  rewrite filter_cons_True; [by rewrite IH|].
  unfold dget_default. by rewrite Hsuccess.
Qed.

Lemma update_navigation_stats_level1 (found : list dict) st :
  Forall level1_item found ->
  exists st',
    _update_navigation_stats found st = (Ok tt, st') /\
    visual_content_capture st' = visual_content_capture st /\
    total_searches (navigation st') = total_searches (navigation st) + 1 /\
    successful_extractions (navigation st')
      = successful_extractions (navigation st) + Z.of_nat (length found) /\
    failed_extractions (navigation st') = failed_extractions (navigation st).
Proof.
  intros Hfound. unfold _update_navigation_stats.
  destruct (level1_items_sizes found Hfound) as (sizes & Hsizes & _).
  destruct (level1_items_quality found Hfound) as (total & Htotal).
  unfold mbind, st_m_bind, with_navigation, modify, call. rewrite Hsizes, Htotal.
  eexists. split; [reflexivity|]. cbn. split; [done|]. split; [done|]. split; [|done].
  by rewrite (level1_items_succeeded found Hfound).
Qed.
End websailor_processing.

(** ** The research as a whole *)

Section websailor_research.
Import WebSailor.
Variable attributes : list string.
Variable w : WebSailor.world.
Variable keys : credentials.
Variable self : websailor_agent.
Implicit Types (st : state) (r : run) (url query : string) (title : value)
  (context : dict) (session_id : option string).

Lemma update_navigation_stats_camera (found : list dict) st :
  visual_content_capture (snd (_update_navigation_stats found st))
  = visual_content_capture st.
Proof.
  unfold _update_navigation_stats, mbind, st_m_bind, with_navigation, modify, call.
  cbn. destruct (mapM _ found) as [sizes|e]; [|done]. cbn.
  by destruct (sum_numbers _) as [total|e].
Qed.

Lemma related_loop_camera research related_queries context session_id r :
  (forall query context max_pages depth_levels session_id st,
     visual_content_capture
       (snd (research query context max_pages depth_levels session_id st))
     = visual_content_capture st) ->
  visual_content_capture
    (services (snd (related_loop research related_queries context session_id r)))
  = visual_content_capture (services r).
Proof.
  intros Hresearch. revert r.
  induction related_queries as [|related_query rest IH]; intros r; [done|].
  cbn [related_loop]. unfold mbind at 1, st_m_bind at 1.
  assert (visual_content_capture
            (services
               (snd (try_except
                       (related_content ←
                          on_services (research related_query context 5 1 session_id);
                        append_content
                          (dset "related_query" (VStr related_query) related_content))
                       (fun _ => mret tt) r)))
          = visual_content_capture (services r)) as Hstep.
  { unfold try_except, mbind, st_m_bind, on_services, append_content, modify.
    specialize (Hresearch related_query context 5 1 session_id (services r)).
    by destruct (research related_query context 5 1 session_id (services r))
      as [[doc|e] st']. }
  destruct (try_except _ _ r) as [[[]|e] r1]; cbn [snd] in *; [|done].
  by rewrite IH.
Qed.

Lemma research_body_camera research query context max_pages depth_levels session_id st :
  "get_content_quality_score" ∉ attributes ->
  (forall query context max_pages depth_levels session_id st,
     visual_content_capture
       (snd (research query context max_pages depth_levels session_id st))
     = visual_content_capture st) ->
  visual_content_capture
    (snd (research_body attributes w keys self research query context max_pages
            depth_levels session_id st))
  = visual_content_capture st.
Proof.
  intros Hattr Hresearch.
  assert (visual_content_capture
            (snd (research_attempt attributes w keys self research query context
                    max_pages depth_levels session_id st))
          = visual_content_capture st) as Hattempt.
  { unfold research_attempt, mbind at 1, st_m_bind at 1, call at 1.
    destruct (salvar_etapa w "websailor_iniciado") as [[]|e]; [|done].
    unfold mbind at 1, st_m_bind at 1.
    assert (visual_content_capture
              (snd (with_new_locals
                      (collect_content attributes w keys self research query context
                         max_pages depth_levels session_id) st))
            = visual_content_capture st) as Hcollect.
    { unfold with_new_locals, collect_content, mbind at 1, st_m_bind at 1.
      destruct (level1 _ _ _ _ query context max_pages session_id (new_locals st))
        as [o1 r1] eqn:Hrun1.
      destruct (level1_cases attributes w keys self query context max_pages session_id
                  (new_locals st) o1 r1 Hrun1) as (Hcamera & _).
      specialize (Hcamera Hattr). cbn [services new_locals] in Hcamera.
      pose proof (level1_returns attributes w keys self query context max_pages
                    session_id (new_locals st)) as Hok.
      rewrite Hrun1 in Hok. cbn [fst] in Hok. subst o1.
      unfold mbind, st_m_bind, gets.
      destruct (2 <? depth_levels); [|done].
      destruct (all_content r1) as [|first rest]; [done|].
      pose proof (related_loop_camera research
                    (take 3 (_generate_related_queries query context (first :: rest)))
                    context session_id r1 Hresearch) as Hloop.
      destruct (related_loop _ _ _ _ r1) as [[[]|e] r2]; cbn [snd] in *; congruence. }
    destruct (with_new_locals _ st) as [[found|e] st1]; cbn [snd] in *; [|done].
    unfold mbind at 1, st_m_bind at 1, call at 1.
    destruct (_process_and_analyze_content w found query context) as [doc|e]; [|done].
    unfold mbind at 1, st_m_bind at 1.
    pose proof (update_navigation_stats_camera found st1) as Hupdate.
    destruct (_update_navigation_stats found st1) as [[[]|e] st2]; cbn [snd] in *;
      [|congruence].
    unfold mbind, st_m_bind, call.
    destruct (salvar_etapa w "websailor_resultado") as [[]|e]; cbn; congruence. }
  unfold research_body, try_except.
  destruct (research_attempt _ _ _ _ _ _ _ _ _ _ st) as [[doc|e] st1];
    cbn [snd] in *; [done|].
  unfold mbind, st_m_bind, call.
  by destruct (salvar_erro w "websailor_critico" e) as [[]|e'].
Qed.
End websailor_research.

(** X12.  In the repository as it is, the WebSailor agent never takes a
    screenshot and never records a predictive quality score:
    [PredictiveAnalyticsService] has no method [get_content_quality_score],
    the [AttributeError] is caught and logged, and so no run of
    [navigate_and_research_deep], whatever the network answers, touches the
    capture object, and no record level 1 extracts has a
    [quality_score_predictive] or a [screenshot_path] entry. *)
Theorem websailor_never_captures
    (w : WebSailor.world) (keys : WebSailor.credentials) (self : websailor_agent)
    (query : string) (context : dict) (max_pages depth_levels : Z)
    (session_id : option string) (st : WebSailor.state) :
  WebSailor.visual_content_capture
    (snd (WebSailor.navigate_and_research_deep
            WebSailor.predictive_analytics_service_attributes w keys self query context
            max_pages depth_levels session_id st))
  = WebSailor.visual_content_capture st /\
  Forall WebSailor.without_predictive_entries
    (WebSailor.level1_content WebSailor.predictive_analytics_service_attributes
       w keys self query context max_pages session_id st).
Proof.
  assert ("get_content_quality_score" ∉ WebSailor.predictive_analytics_service_attributes)
    as Hattr.
  { intros Hin. apply (bool_decide_eq_true_2 _) in Hin. vm_compute in Hin.
    discriminate Hin. }
  split.
  - unfold WebSailor.navigate_and_research_deep.
    apply research_body_camera; [exact Hattr|].
    intros q c mp dl sid st0. apply research_body_camera; [exact Hattr|].
    intros. reflexivity.
  - destruct (level1_content_items WebSailor.predictive_analytics_service_attributes
                w keys self query context max_pages session_id st) as [_ Hitems].
    eapply Forall_impl; [exact Hitems|]. intros item [_ Hplain]. by apply Hplain.
Qed.





Section websailor_recursion.
Import WebSailor.
Variable attributes : list string.
Variable w : WebSailor.world.
Variable keys : credentials.
Variable self : websailor_agent.

Lemma related_loop_ext research research' related_queries context session_id r :
  (forall related_query st,
     research related_query context 5 1 session_id st
     = research' related_query context 5 1 session_id st) ->
  related_loop research related_queries context session_id r
  = related_loop research' related_queries context session_id r.
Proof.
  intros Hsame. revert r.
  induction related_queries as [|related_query rest IH]; intros r; [done|].
  cbn [related_loop]. unfold mbind at 1 3, st_m_bind at 1 3.
  assert (forall r,
            try_except
              (related_content ←
                 on_services (research related_query context 5 1 session_id);
               append_content (dset "related_query" (VStr related_query) related_content))
              (fun _ => mret tt) r
            = try_except
                (related_content ←
                   on_services (research' related_query context 5 1 session_id);
                 append_content
                   (dset "related_query" (VStr related_query) related_content))
                (fun _ => mret tt) r) as Hstep.
  { intros r0. unfold try_except, mbind, st_m_bind, on_services.
    by rewrite Hsame. }
  rewrite Hstep. destruct (try_except _ _ r) as [[[]|e] r1]; [apply IH|done].
Qed.

Lemma research_body_ext research research' query context max_pages depth_levels
    session_id st :
  (2 < depth_levels ->
   forall related_query st,
     research related_query context 5 1 session_id st
     = research' related_query context 5 1 session_id st) ->
  research_body attributes w keys self research query context max_pages depth_levels
    session_id st
  = research_body attributes w keys self research' query context max_pages
      depth_levels session_id st.
Proof.
  intros Hsame.
  assert (forall r,
            collect_content attributes w keys self research query context max_pages
              depth_levels session_id r
            = collect_content attributes w keys self research' query context max_pages
                depth_levels session_id r) as Hcollect.
  { intros r. unfold collect_content, mbind, st_m_bind, gets.
    destruct (level1 _ _ _ _ query context max_pages session_id r)
      as [[[]|e] r1]; [|done].
    destruct (2 <? depth_levels) eqn:Hdepth; [|done].
    destruct (all_content r1) as [|first rest]; [done|].
    rewrite (related_loop_ext research research'); [done|].
    apply Hsame. by apply Z.ltb_lt. }
  unfold research_body, research_attempt, with_new_locals.
  unfold try_except, mbind, st_m_bind, call.
  destruct (salvar_etapa w "websailor_iniciado") as [[]|e]; [|done].
  by rewrite Hcollect.
Qed.

(** The definition is the recursive method: it is its own body, with itself
    as the function called for the related queries. *)
Lemma navigate_and_research_deep_unfold query context max_pages depth_levels
    session_id st :
  navigate_and_research_deep attributes w keys self query context max_pages
    depth_levels session_id st
  = research_body attributes w keys self
      (navigate_and_research_deep attributes w keys self)
      query context max_pages depth_levels session_id st.
Proof.
  unfold navigate_and_research_deep. apply research_body_ext.
  intros _ related_query st0. apply research_body_ext. lia.
Qed.
End websailor_recursion.

(** ** The workflow routes *)

Section workflow_jobs.
Variable globals : list string.
Variable m : modules.
Variable w : world.
Variable c : Workflow.collaborators.
Hypothesis json_unbound : "json" ∉ globals.

(** Without [json] among the globals of the module, the collection report is
    never written: [_save_collection_report] raises, at the latest with the
    [NameError], and leaves at most an empty file. *)
Lemma save_collection_report_raises report session_id st :
  exists e st',
    Workflow._save_collection_report globals c report session_id st = (Raise e, st') /\
    Workflow.search st' = Workflow.search st /\
    Workflow.trace st' = Workflow.trace st /\
    (Workflow.files st' = Workflow.files st \/
     Workflow.files st'
     = <[os_path_join (os_path_join "analyses_data" session_id) "collection_report.json"
         := ""]> (Workflow.files st)).
Proof.
  unfold Workflow._save_collection_report, mbind, WebSailor.st_m_bind, WebSailor.call,
    Workflow.write_file, WebSailor.modify, global_name.
  destruct (Workflow.makedirs c _) as [[]|e]; [|by eauto 10].
  destruct (Workflow.open_for_writing c _) as [[]|e]; [|by eauto 10].
  rewrite bool_decide_eq_false_2 by exact json_unbound.
  eexists _, _. split; [reflexivity|]. cbn. by auto.
Qed.

Lemma collect_raises query context session_id st :
  exists e st',
    Workflow.collect globals m w c query context session_id st = (Raise e, st') /\
    (Workflow.trace st' = Workflow.trace st ++ [Workflow.Searched query] \/
     Workflow.trace st'
     = Workflow.trace st ++ [Workflow.Searched query; Workflow.AnalysedViral]) /\
    (Workflow.files st' = Workflow.files st \/
     Workflow.files st'
     = <[os_path_join (os_path_join "analyses_data" session_id) "collection_report.json"
         := ""]> (Workflow.files st)).
Proof.
  unfold Workflow.collect, Workflow.run_search, mbind, WebSailor.st_m_bind,
    Workflow.record, WebSailor.modify, WebSailor.call.
  cbn [Workflow.search Workflow.files Workflow.trace].
  destruct (execute_massive_real_search m w (Workflow.search st) query context
              session_id) as [[search_results|e] self].
  2:{ eexists _, _. split; [reflexivity|]. cbn. by auto. }
  destruct (Workflow.analyze_and_capture_viral_content c _ session_id)
    as [viral_analysis|e].
  2:{ eexists _, _. split; [reflexivity|]. cbn. rewrite <- app_assoc. by auto. }
  match goal with
  | |- context [Workflow._save_collection_report globals c ?report session_id ?st0] =>
    destruct (save_collection_report_raises report session_id st0)
      as (e & st' & -> & _ & Htrace & Hfiles)
  end.
  exists e, st'. split; [done|]. rewrite Htrace. cbn. rewrite <- app_assoc.
  split; [by right|]. exact Hfiles.
Qed.
End workflow_jobs.

Lemma enhanced_workflow_json_unbound : "json" ∉ Workflow.enhanced_workflow_globals.
Proof.
  intros Hin. apply (bool_decide_eq_true_2 _) in Hin. vm_compute in Hin.
  discriminate Hin.
Qed.

(** X15.  The background job of step 1 never records [etapa1_concluida]:
    the module never imports [json], so [_save_collection_report] raises
    [NameError] whenever the search and the viral analysis have returned,
    after it has created the report file empty.  Every run of the job ends
    in the handler, which records [etapa1_erro]; no file gets any content. *)
Theorem step1_job_never_completes
    (m : modules) (w : world) (c : Workflow.collaborators)
    (query : string) (context : dict) (session_id : string) (st : Workflow.state) :
  let run :=
    Workflow.execute_collection Workflow.enhanced_workflow_globals m w c query context
      session_id st in
  fst run = Workflow.salvar_etapa c "etapa1_erro" /\
  (exists new,
     Workflow.trace (snd run) = Workflow.trace st ++ new /\
     (Workflow.Saved "etapa1_concluida" ∉ new) /\
     last new = Some (Workflow.Saved "etapa1_erro")) /\
  (forall path,
     Workflow.files (snd run) !! path = Workflow.files st !! path \/
     Workflow.files (snd run) !! path = Some "").
Proof.
  intros run.
  assert (exists st',
            run = (Workflow.salvar_etapa c "etapa1_erro",
                   {| Workflow.search := Workflow.search st';
                      Workflow.files := Workflow.files st';
                      Workflow.trace :=
                        Workflow.trace st' ++ [Workflow.Saved "etapa1_erro"] |}) /\
            (Workflow.trace st' = Workflow.trace st ++ [Workflow.Searched query] \/
             Workflow.trace st'
             = Workflow.trace st ++ [Workflow.Searched query; Workflow.AnalysedViral]) /\
            (Workflow.files st' = Workflow.files st \/
             Workflow.files st'
             = <[os_path_join (os_path_join "analyses_data" session_id)
                   "collection_report.json" := ""]> (Workflow.files st)))
    as (st' & -> & Htrace & Hfiles).
  { subst run. unfold Workflow.execute_collection, WebSailor.try_except.
    unfold mbind at 1, WebSailor.st_m_bind at 1.
    destruct (collect_raises Workflow.enhanced_workflow_globals m w c
                enhanced_workflow_json_unbound query context session_id st)
      as (e & st' & -> & Htrace & Hfiles).
    exists st'. split; [|done].
    unfold Workflow.salvar, mbind, WebSailor.st_m_bind, Workflow.record,
      WebSailor.modify, WebSailor.call.
    by destruct (Workflow.salvar_etapa c "etapa1_erro") as [[]|?]. }
  cbn [fst snd Workflow.trace Workflow.files].
  split; [done|]. split.
  - destruct Htrace as [->| ->]; rewrite <- app_assoc; eexists; (split; [reflexivity|]);
      (split; [|reflexivity]); intros Hin;
      apply (bool_decide_eq_true_2 _) in Hin; vm_compute in Hin; discriminate Hin.
  - intros path. destruct Hfiles as [->| ->]; [by left|].
    destruct (decide (os_path_join (os_path_join "analyses_data" session_id)
                        "collection_report.json" = path)) as [<-|Hne].
    + right. apply lookup_insert_eq.
    + left. by apply lookup_insert_ne.
Qed.

(** X16.  The complete workflow never gets past the collection: its job
    calls the same [_save_collection_report], so neither the synthesis, the
    predictive analysis, the module generation nor the final report is ever
    started, [workflow_completo] is never recorded, and every run ends with
    the record [workflow_completo_erro]. *)
Theorem complete_workflow_stops_at_collection
    (m : modules) (w : world) (c : Workflow.collaborators)
    (data : value) (session_id : string) (st : Workflow.state) :
  let run :=
    Workflow.execute_full_workflow Workflow.enhanced_workflow_globals m w c data
      session_id st in
  fst run = Workflow.salvar_etapa c "workflow_completo_erro" /\
  exists new,
    Workflow.trace (snd run)
    = Workflow.trace st ++ new ++ [Workflow.Saved "workflow_completo_erro"] /\
    Forall (fun ev => ev = Workflow.AnalysedViral \/
              exists query, ev = Workflow.Searched query) new.
Proof.
  intros run.
  assert (exists st' new,
            run = (Workflow.salvar_etapa c "workflow_completo_erro",
                   {| Workflow.search := Workflow.search st';
                      Workflow.files := Workflow.files st';
                      Workflow.trace :=
                        Workflow.trace st'
                        ++ [Workflow.Saved "workflow_completo_erro"] |}) /\
            Workflow.trace st' = Workflow.trace st ++ new /\
            Forall (fun ev => ev = Workflow.AnalysedViral \/
                      exists query, ev = Workflow.Searched query) new)
    as (st' & new & -> & Htrace & Hnew).
  { assert (forall e st',
              (let '(result, st1) := (Raise e : result unit, st') in
               match result with
               | Ok a => (Ok a, st1)
               | Raise e0 => Workflow.salvar c "workflow_completo_erro" st1
               end)
              = (Workflow.salvar_etapa c "workflow_completo_erro",
                 {| Workflow.search := Workflow.search st';
                    Workflow.files := Workflow.files st';
                    Workflow.trace :=
                      Workflow.trace st'
                      ++ [Workflow.Saved "workflow_completo_erro"] |})) as Hhandler.
    { intros e st'. unfold Workflow.salvar, mbind, WebSailor.st_m_bind,
        Workflow.record, WebSailor.modify, WebSailor.call. cbn.
      by destruct (Workflow.salvar_etapa c "workflow_completo_erro") as [[]|?]. }
    subst run. unfold Workflow.execute_full_workflow, WebSailor.try_except.
    unfold mbind at 1, WebSailor.st_m_bind at 1, WebSailor.call at 1.
    destruct (_ ← vget_default "segmento" (VStr "") data; strip_value _)
      as [segmento|e].
    2:{ exists st, []. rewrite (Hhandler e), app_nil_r. by auto. }
    unfold mbind at 1, WebSailor.st_m_bind at 1, WebSailor.call at 1.
    destruct (_ ← vget_default "produto" (VStr "") data; strip_value _)
      as [produto|e].
    2:{ exists st, []. rewrite (Hhandler e), app_nil_r. by auto. }
    unfold mbind at 1, WebSailor.st_m_bind at 1, WebSailor.call at 1.
    destruct (vget_default "publico" (VStr "") data) as [publico|e].
    2:{ exists st, []. rewrite (Hhandler e), app_nil_r. by auto. }
    unfold mbind at 1, WebSailor.st_m_bind at 1, WebSailor.call at 1.
    destruct (vget_default "preco" (VStr "") data) as [preco|e].
    2:{ exists st, []. rewrite (Hhandler e), app_nil_r. by auto. }
    unfold mbind at 1, WebSailor.st_m_bind at 1, WebSailor.call at 1.
    destruct (vget_default "objetivo_receita" (VStr "") data) as [objetivo_receita|e].
    2:{ exists st, []. rewrite (Hhandler e), app_nil_r. by auto. }
    unfold mbind at 1, WebSailor.st_m_bind at 1.
    match goal with
    | |- context [Workflow.collect _ m w c ?query ?context session_id st] =>
      destruct (collect_raises Workflow.enhanced_workflow_globals m w c
                  enhanced_workflow_json_unbound query context session_id st)
        as (e & st' & -> & Htrace & _)
    end.
    rewrite (Hhandler e).
    destruct Htrace as [Htrace|Htrace]; eexists st', _;
      (split; [reflexivity|]); (split; [exact Htrace|]);
      repeat (apply Forall_cons_2; [by eauto|]); apply Forall_nil_2. }
  cbn [fst snd Workflow.trace]. split; [done|].
  exists new. rewrite Htrace, <- app_assoc. by split.
Qed.

Lemma join_query_not_empty (segmento : string) (rest : list string) :
  segmento <> "" -> join " " (segmento :: rest) <> "".
Proof.
  intros Hne. destruct segmento as [|a segmento]; [done|].
  destruct rest; cbn; discriminate.
Qed.


(** ** The social-media clients *)

Lemma gt_int_positive (v : value) :
  gt_int v 0 = Ok true -> exists q, as_number v = Some q /\ (0 < q)%Q.
Proof.
  unfold gt_int. destruct (as_number v) as [q|]; [|done].
  intros [= Hq]. exists q. split; [done|].
  apply Qnot_le_lt. intros Hle. apply Qle_bool_iff in Hle.
  change (inject_Z 0) with 0%Q in Hq. rewrite Hle in Hq. discriminate Hq.
Qed.

Lemma as_int_number (v : value) (x : Z) :
  as_int v = Some x -> as_number v = Some (inject_Z x).
Proof. destruct v as [|[]| | | | |]; cbn; congruence. Qed.

Lemma add_to_number_spec (total amount : value) (p q : Q) :
  as_number total = Some p -> as_number amount = Some q ->
  exists sum s,
    add_to_number total amount = Ok sum /\ as_number sum = Some s /\ (s == p + q)%Q.
Proof.
  intros Hp Hq. unfold add_to_number.
  destruct (as_int total) as [x|] eqn:Hx.
  - destruct (as_int amount) as [y|] eqn:Hy.
    + apply as_int_number in Hx, Hy. rewrite Hx in Hp. rewrite Hy in Hq.
      injection Hp as <-. injection Hq as <-.
      eexists _, _. split; [reflexivity|]. split; [reflexivity|].
      rewrite inject_Z_plus. reflexivity.
    + rewrite Hp, Hq. eexists _, _. split; [reflexivity|]. split; [reflexivity|].
      reflexivity.
  - rewrite Hp, Hq. eexists _, _. split; [reflexivity|]. split; [reflexivity|].
    reflexivity.
Qed.

(** A count that is above zero was found under its key, not defaulted. *)
Lemma vget_default_positive (k : string) (v total : value) :
  vget_default k (VInt 0) v = Ok total -> gt_int total 0 = Ok true ->
  vindex k v = Ok total.
Proof.
  destruct v as [| | | | | |d]; try done. cbn. unfold dget_default, dindex.
  destruct (dget k d) as [found|]; cbn; [congruence|].
  intros [= <-]. done.
Qed.

Lemma platform_total_positive (name : string) (data total : value) :
  Social.platform_total name data = Ok total -> gt_int total 0 = Ok true ->
  exists found,
    (found ← vindex "results" data; vindex name found) = Ok found /\
    vindex "total_results" found = Ok total.
Proof.
  unfold Social.platform_total. intros Htotal Hpositive.
  destruct data as [| | | | | |d]; try done. cbn in Htotal |- *.
  unfold dget_default, dindex in *.
  destruct (dget "results" d) as [[| | | | | |found]|]; try done; cbn in Htotal |- *.
  2:{ injection Htotal as <-. done. }
  unfold dget_default, dindex in *.
  destruct (dget name found) as [[| | | | | |entry]|]; try done; cbn in Htotal |- *.
  2:{ injection Htotal as <-. done. }
  exists (VDict entry). split; [done|].
  apply vget_default_positive; done.
Qed.

Lemma reported_total_positive (data total : value) :
  vindex "total_results" data = Ok total -> gt_int total 0 = Ok true ->
  exists q, as_number total = Some q /\ Social.reported_total data = q /\ (0 < q)%Q.
Proof.
  intros Hindex Hpositive. destruct (gt_int_positive _ Hpositive) as (q & Hq & Hlt).
  exists q. unfold Social.reported_total. rewrite Hindex, Hq. done.
Qed.

(** Keeping a platform that reports a positive count: the entry is appended
    and the count added. *)
Lemma keep_entry (query now name : string) (platforms : dict) (total data amount : value)
    (p : Q) :
  dget name platforms = None ->
  as_number total = Some p ->
  vindex "total_results" data = Ok amount -> gt_int amount 0 = Ok true ->
  exists sum s,
    (results ← Social.set_platform name data
                 (Social.platform_results query now platforms total);
     amount ← vindex "total_results" data;
     Social.add_total amount results)
    = Ok (Social.platform_results query now (platforms ++ [(name, data)]) sum) /\
    as_number sum = Some s /\ (s == p + Social.reported_total data)%Q /\
    (0 < Social.reported_total data)%Q.
Proof.
  intros Hfresh Hp Hamount Hpositive.
  destruct (reported_total_positive _ _ Hamount Hpositive) as (q & Hq & Hreported & Hlt).
  destruct (add_to_number_spec total amount p q Hp Hq) as (sum & s & Hsum & Hs & Heq).
  exists sum, s. rewrite Hreported. split; [|done].
  unfold Social.set_platform, Social.add_total, Social.platform_results. cbn.
  rewrite Hamount. cbn. rewrite Hsum. cbn. by rewrite (dset_fresh _ _ _ Hfresh).
Qed.

Lemma sublist_singleton {A} (l : list A) (x : A) :
  sublist l [x] -> l = [] \/ l = [x].
Proof.
  intros Hsub. inversion Hsub as [|? ? ? Hrest|? ? ? Hrest]; subst.
  - right. apply sublist_nil_r in Hrest. by subst.
  - left. by apply sublist_nil_r in Hrest.
Qed.

(** What the Tavily block leaves in the dictionary. *)
Lemma tavily_platforms_cases (t : Social.tavily) (query now : string) (results : dict) :
  Social.tavily_platforms t query (Social.platform_results query now [] (VInt 0))
  = Ok results ->
  exists platforms total q,
    results = Social.platform_results query now platforms total /\
    sublist platforms.*1 ["youtube"; "twitter"] /\
    Forall (fun entry => (0 < Social.reported_total entry.2)%Q) platforms /\
    as_number total = Some q /\ (q == Social.sum_reported platforms)%Q.
Proof.
  unfold Social.tavily_platforms.
  destruct (Social.search_youtube_content t query) as [youtube_data|]; [|done].
  cbn [mbind result_bind].
  destruct (vget_default "total_results" (VInt 0) youtube_data)
    as [youtube_total|] eqn:Hyoutube; [|done].
  cbn [mbind result_bind].
  destruct (gt_int youtube_total 0) as [youtube_positive|] eqn:Hyoutube_positive;
    [|done].
  cbn [mbind result_bind].
  assert (exists platforms total q,
            (if youtube_positive
             then results ← Social.set_platform "youtube" youtube_data
                              (Social.platform_results query now [] (VInt 0));
                  amount ← vindex "total_results" youtube_data;
                  Social.add_total amount results
             else Ok (Social.platform_results query now [] (VInt 0)))
            = Ok (Social.platform_results query now platforms total) /\
            sublist platforms.*1 ["youtube"] /\
            Forall (fun entry => (0 < Social.reported_total entry.2)%Q) platforms /\
            as_number total = Some q /\ (q == Social.sum_reported platforms)%Q)
    as (platforms & total & q & -> & Hnames & Hpositive & Hq & Hsum).
  { destruct youtube_positive.
    - destruct (keep_entry query now "youtube" [] (VInt 0) youtube_data youtube_total
                  (inject_Z 0) eq_refl eq_refl
                  (vget_default_positive _ _ _ Hyoutube Hyoutube_positive)
                  Hyoutube_positive) as (sum & s & -> & Hs & Heq & Hlt).
      exists [("youtube", youtube_data)], sum, s.
      split; [done|]. split; [done|]. split; [by repeat constructor|].
      split; [done|]. cbn. rewrite Heq. ring.
    - exists [], (VInt 0), (inject_Z 0). split; [done|]. split; [|done].
      apply sublist_nil_l. }
  cbn [mbind result_bind].
  destruct (Social.search_social_media t query ["twitter"]) as [twitter_data|]; [|done].
  cbn [mbind result_bind].
  destruct (Social.platform_total "twitter" twitter_data)
    as [twitter_total|] eqn:Htwitter; [|done].
  cbn [mbind result_bind].
  destruct (gt_int twitter_total 0) as [[]|] eqn:Htwitter_positive; [| |done].
  - destruct (platform_total_positive _ _ _ Htwitter Htwitter_positive)
      as (found & Hfound & Hamount).
    unfold Social.keep_platform.
    destruct (vindex "results" twitter_data) as [listed|]; [|done].
    cbn [mbind result_bind] in Hfound |- *. rewrite Hfound. cbn [mbind result_bind].
    assert (dget "twitter" platforms = None) as Hfresh.
    { destruct (sublist_singleton _ _ Hnames) as [Hkeys|Hkeys];
        destruct platforms as [|[name data] [|? ?]]; simplify_eq/=; done. }
    destruct (keep_entry query now "twitter" platforms total found twitter_total q
                Hfresh Hq Hamount Htwitter_positive) as (sum & s & Hkeep & Hs & Heq & Hlt).
    intros Hresults. exists (platforms ++ [("twitter", found)]), sum, s.
    split; [congruence|]. split.
    { rewrite fmap_app.
      destruct (sublist_singleton _ _ Hnames) as [-> | ->]; cbn; [|done].
      by apply sublist_cons, sublist_skip. }
    split; [apply Forall_app; split; [done|by repeat constructor]|].
    split; [done|]. rewrite Heq, Hsum. unfold Social.sum_reported.
    rewrite foldr_app. cbn.
    clear. induction platforms as [|entry platforms IH]; cbn; [ring|].
    rewrite <- IH. ring.
  - intros [= <-]. exists platforms, total, q. split; [done|]. split; [|done].
    destruct (sublist_singleton _ _ Hnames) as [-> | ->];
      [apply sublist_nil_l|apply sublist_skip, sublist_nil_l].
Qed.

Lemma dset_keys (k : string) (v : value) (d : dict) (name : string) :
  name ∈ (dset k v d).*1 <-> name = k \/ name ∈ d.*1.
Proof.
  induction d as [|[k' v'] d IH]; cbn.
  - rewrite elem_of_cons, elem_of_nil. tauto.
  - destruct (String.eqb_spec k k') as [->|]; cbn; rewrite !elem_of_cons; [tauto|].
    rewrite IH. tauto.
Qed.

Lemma dset_Forall (P : string * value -> Prop) (k : string) (v : value) (d : dict) :
  P (k, v) -> Forall P d -> Forall P (dset k v d).
Proof.
  intros Hnew. induction 1 as [|[k' v'] d Hold Hrest IH]; cbn; [by repeat constructor|].
  destruct (String.eqb k k'); by constructor.
Qed.

Section firecrawl_client.
Variable post : request -> result Firecrawl.reply.
Variable now : string.
Variable self : Firecrawl.client.
Variable query : string.
Hypothesis key_present : exists a key, Firecrawl.api_key self = Some (String a key).

(** One search posts its request, whatever comes back. *)
Lemma execute_firecrawl_search_run (platform_query context : string)
    (log : list request) :
  exists outcome,
    Firecrawl._execute_firecrawl_search post self platform_query context log
    = (outcome, log ++ [Firecrawl.search_request self platform_query]) /\
    forall found, outcome = Ok found ->
      exists response,
        post (Firecrawl.search_request self platform_query) = Ok response /\
        if Firecrawl.status_code response =? 200
        then Firecrawl.json response = Ok found
        else found = VNone /\ Firecrawl.raise_for_status response = Ok tt.
Proof.
  destruct key_present as (a & key & Hkey).
  unfold Firecrawl._execute_firecrawl_search. rewrite Hkey.
  unfold mbind, WebSailor.st_m_bind, WebSailor.modify, WebSailor.call.
  destruct (post _) as [response|e] eqn:Hpost; [|by eexists; split; [reflexivity|]].
  destruct (Firecrawl.status_code response =? 200) eqn:Hstatus.
  - eexists. split; [reflexivity|]. intros found Hfound. exists response.
    by rewrite Hstatus.
  - destruct (Firecrawl.raise_for_status response) as [[]|e] eqn:Hraise;
      (eexists; split; [reflexivity|]); [|done].
    intros found [= <-]. exists response. by rewrite Hstatus.
Qed.

(** The loop posts one request per platform, in order, and stops at the
    first search that raises. *)
Lemma search_platforms_run (platforms : list string) :
  forall (results : dict) (log : list request) outcome log',
    Firecrawl.search_platforms post self query platforms results log = (outcome, log') ->
    match outcome with
    | Ok final =>
      log' = log ++ (Firecrawl.platform_request self query <$> platforms) /\
      (forall name, name ∈ final.*1 <-> name ∈ results.*1 \/ name ∈ platforms) /\
      (Forall (Firecrawl.answered_entry post self query) results ->
       Forall (Firecrawl.answered_entry post self query) final)
    | Raise e =>
      exists n, (n < length platforms)%nat /\
        log' = log ++ (Firecrawl.platform_request self query <$> take (S n) platforms)
    end.
Proof.
  induction platforms as [|platform platforms IH]; intros results log outcome log'.
  - cbn. intros [= <- <-]. rewrite app_nil_r. split; [done|]. split; [|done].
    intros name. rewrite elem_of_nil. tauto.
  - cbn [Firecrawl.search_platforms]. unfold mbind at 1, WebSailor.st_m_bind at 1.
    destruct (execute_firecrawl_search_run
                (query ++ " site:" ++ Firecrawl._get_platform_domain platform)%string
                platform log) as ([found|e] & -> & Hfound).
    + intros Hrest. apply IH in Hrest. destruct outcome as [final|e].
      * destruct Hrest as (-> & Hkeys & Hentries). split; [by rewrite <- app_assoc|].
        split.
        { intros name. rewrite Hkeys, dset_keys, elem_of_cons. tauto. }
        intros Hresults. apply Hentries, dset_Forall; [|done].
        destruct (Hfound found eq_refl) as (response & Hpost & Hstatus).
        by exists response.
      * destruct Hrest as (n & Hn & ->). exists (S n). split; [cbn; lia|].
        by rewrite <- app_assoc.
    + intros [= <- <-]. exists 0%nat. split; [cbn; lia|]. done.
Qed.
End firecrawl_client.

Lemma firecrawl_init_key (environ : gmap string string) (key : string) :
  getenv_truthy environ "FIRECRWAL_API_KEY" = Some key ->
  Firecrawl.api_key (Firecrawl.init environ) = Some key /\
  Firecrawl.enabled (Firecrawl.init environ) = true /\
  Firecrawl.authorization (Firecrawl.init environ) = ("Bearer " ++ key)%string /\
  exists a rest, key = String a rest.
Proof.
  intros Hkey. apply getenv_truthy_present in Hkey as [Hkey Hne].
  unfold Firecrawl.init. cbn. rewrite Hkey. cbn.
  destruct key as [|a rest]; [done|]. eauto 10.
Qed.

Lemma firecrawl_init_no_key (environ : gmap string string) :
  getenv_truthy environ "FIRECRWAL_API_KEY" = None ->
  Firecrawl.enabled (Firecrawl.init environ) = false.
Proof.
  unfold getenv_truthy, usable_key, Firecrawl.init. cbn.
  destruct (environ !! "FIRECRWAL_API_KEY") as [key|]; [|done].
  by destruct (String.eqb key "").
Qed.

(** X18.  [FirecrwalSocialClient.search_social_media], for the client that
    [__init__] builds from the environment.  Without a usable
    [FIRECRWAL_API_KEY] it posts nothing and returns the failure
    dictionary.  With a key it posts one request per platform asked for, in
    order and authorised with that key, and stops at the first search that
    raises; when it returns, [results] has an entry exactly for the
    platforms asked for, and an entry is the JSON body of a reply with
    status 200, or [None] when the status was neither 200 nor an error
    status. *)
Theorem firecrawl_search_social_media_requests
    (post : request -> result Firecrawl.reply) (now : string)
    (environ : gmap string string) (query : string)
    (platforms : option (list string)) (log : list request) :
  let self := Firecrawl.init environ in
  let searched := Firecrawl.platforms_or_default platforms in
  let run := Firecrawl.search_social_media post now self query platforms log in
  match getenv_truthy environ "FIRECRWAL_API_KEY" with
  | None =>
    run = (Ok (VDict [("success", VBool false);
                      ("error", VStr "Firecrwal Social Client nao habilitado")]), log)
  | Some key =>
    Forall (fun rq => credential rq = ("Bearer " ++ key)%string)
      (Firecrawl.platform_request self query <$> searched) /\
    match fst run with
    | Ok answer =>
      snd run = log ++ (Firecrawl.platform_request self query <$> searched) /\
      exists results,
        answer = VDict [("total_platforms", VInt (Z.of_nat (length searched)));
                        ("platforms_searched", VList (VStr <$> searched));
                        ("results", VDict results);
                        ("timestamp", VStr now);
                        ("source", VStr "firecrawl_real")] /\
        (forall name, name ∈ results.*1 <-> name ∈ searched) /\
        Forall (Firecrawl.answered_entry post self query) results
    | Raise e =>
      exists n, (n < length searched)%nat /\
        snd run
        = log ++ (Firecrawl.platform_request self query <$> take (S n) searched)
    end
  end.
Proof.
  intros self searched run. subst run.
  destruct (getenv_truthy environ "FIRECRWAL_API_KEY") as [key|] eqn:Hkey.
  - destruct (firecrawl_init_key _ _ Hkey) as (Hapi & Henabled & Hauth & a & rest & ->).
    split.
    { apply Forall_fmap, Forall_forall. intros platform _. exact Hauth. }
    unfold Firecrawl.search_social_media. fold self searched.
    replace (Firecrawl.enabled self) with true by (symmetry; exact Henabled).
    cbn [negb]. unfold mbind, WebSailor.st_m_bind.
    destruct (Firecrawl.search_platforms post self query searched [] log)
      as [outcome log'] eqn:Hrun.
    apply search_platforms_run in Hrun; [|by eauto].
    destruct outcome as [results|e]; cbn [fst snd]; [|done].
    destruct Hrun as (-> & Hkeys & Hentries). split; [done|].
    exists results. split; [done|]. split; [|by apply Hentries].
    intros name. rewrite Hkeys, elem_of_nil. tauto.
  - unfold Firecrawl.search_social_media.
    replace (Firecrawl.enabled self) with false
      by (symmetry; exact (firecrawl_init_no_key _ Hkey)).
    done.
Qed.

Section social_extractor.
Variable tavily_client : Social.tavily.
Variable post : request -> result Firecrawl.reply.
Variable now : string.
Variable environ : gmap string string.
Variable key : string.
Hypothesis key_set : getenv_truthy environ "FIRECRWAL_API_KEY" = Some key.

(** With a key, asking Firecrawl for a platform always raises: the method
    is not a coroutine function, and what it returns cannot be awaited. *)
Lemma firecrawl_platform_raises (name query : string) (results : dict)
    (log : list request) :
  exists e,
    Social.firecrawl_platform post now (Firecrawl.init environ) name query results log
    = (Raise e,
       log ++ [Firecrawl.platform_request (Firecrawl.init environ) query name]) /\
    ((exists answer,
        fst (Firecrawl.search_social_media post now (Firecrawl.init environ) query
               (Some [name]) log) = Ok answer) ->
     e = TypeError "object dict can't be used in 'await' expression").
Proof.
  destruct (firecrawl_init_key _ _ key_set) as (Hapi & Henabled & _ & a & rest & ->).
  unfold Social.firecrawl_platform, Firecrawl.search_social_media.
  rewrite Henabled. cbn [negb Firecrawl.platforms_or_default Firecrawl.search_platforms].
  destruct (execute_firecrawl_search_run post (Firecrawl.init environ)
              ltac:(by eauto)
              (query ++ " site:" ++ Firecrawl._get_platform_domain name)%string name log)
    as (outcome & Hexec & _).
  unfold mbind, WebSailor.st_m_bind. rewrite Hexec.
  destruct outcome as [found|e]; cbn.
  - eexists. split; [reflexivity|]. done.
  - eexists. split; [reflexivity|]. by intros [? [=]].
Qed.
Lemma firecrawl_platforms_raise (query : string) (results : dict) (log : list request) :
  exists e,
    Social.firecrawl_platforms post now (Firecrawl.init environ) query results log
    = (Raise e,
       log ++ [Firecrawl.platform_request (Firecrawl.init environ) query "instagram"]) /\
    ((exists answer,
        fst (Firecrawl.search_social_media post now (Firecrawl.init environ) query
               (Some ["instagram"]) log) = Ok answer) ->
     e = TypeError "object dict can't be used in 'await' expression").
Proof.
  unfold Social.firecrawl_platforms.
  destruct (firecrawl_platform_raises "instagram" query results log) as (e & Hrun & He).
  exists e. split; [|exact He].
  unfold mbind, WebSailor.st_m_bind. by rewrite Hrun.
Qed.

Lemma search_all_platforms_with_key_raises (query : string) (log : list request) :
  exists e log',
    Social.search_all_platforms tavily_client post now (Firecrawl.init environ) query log
    = (Raise e, log').
Proof.
  destruct (firecrawl_init_key _ _ key_set) as (_ & Henabled & _).
  unfold Social.search_all_platforms, Firecrawl.is_available. rewrite Henabled.
  unfold mbind at 1, WebSailor.st_m_bind at 1, WebSailor.call at 1.
  destruct (Social.is_available tavily_client) as [[]|e0]; [| |by eauto].
  - unfold mbind at 1 2, WebSailor.st_m_bind at 1 2, WebSailor.call at 1.
    destruct (Social.tavily_platforms tavily_client query _) as [results|e0];
      [|by eauto].
    destruct (firecrawl_platforms_raise query results log) as (e & -> & _). by eauto.
  - unfold mbind at 1 2, WebSailor.st_m_bind at 1 2. cbn [mret WebSailor.st_m_ret].
    match goal with
    | |- context [Social.firecrawl_platforms _ _ _ query ?results log] =>
      destruct (firecrawl_platforms_raise query results log) as (e & -> & _)
    end.
    by eauto.
Qed.
End social_extractor.

Lemma sum_reported_positive (platforms : dict) :
  Forall (fun entry => (0 < Social.reported_total entry.2)%Q) platforms ->
  platforms <> [] -> (0 < Social.sum_reported platforms)%Q.
Proof.
  intros Hpositive Hne. destruct Hpositive as [|entry platforms Hentry Hrest]; [done|].
  cbn. clear Hne. apply Qlt_le_trans with (Social.reported_total entry.2 + 0)%Q.
  { by rewrite Qplus_0_r. }
  apply Qplus_le_r. induction Hrest as [|other platforms Hother Hrest IH]; cbn.
  - apply Qle_refl.
  - apply Qle_trans with (0 + 0)%Q; [by rewrite Qplus_0_r; apply Qle_refl|].
    apply Qplus_le_compat; [by apply Qlt_le_weak|done].
Qed.

(** The last two statements of [search_all_platforms], on a dictionary of
    the shape the blocks keep. *)
Lemma search_all_platforms_finish (query now : string) (platforms : dict)
    (total : value) (q : Q) :
  Forall (fun entry => (0 < Social.reported_total entry.2)%Q) platforms ->
  as_number total = Some q -> (q == Social.sum_reported platforms)%Q ->
  (found ← dindex "total_results" (Social.platform_results query now platforms total);
   Ok (dset "success" (VBool (negb (eq_zero found)))
         (Social.platform_results query now platforms total)))
  = Ok (Social.platform_results query now platforms total
        ++ [("success", VBool (bool_decide (platforms <> [])))]).
Proof.
  intros Hpositive Hq Hsum. cbn. do 3 f_equal. unfold eq_zero. rewrite Hq.
  destruct (decide (platforms = [])) as [->|Hne].
  - rewrite bool_decide_eq_false_2 by (intros Hne; by apply Hne).
    apply Qeq_bool_iff in Hsum. cbn in Hsum |- *. by rewrite Hsum.
  - rewrite bool_decide_eq_true_2 by done.
    destruct (Qeq_bool q (inject_Z 0)) eqn:Hzero; [|done].
    apply Qeq_bool_iff in Hzero.
    pose proof (sum_reported_positive platforms Hpositive Hne) as Hlt.
    rewrite <- Hsum, Hzero in Hlt. by apply Qlt_irrefl in Hlt.
Qed.


(** Without a key for Firecrawl, what [search_all_platforms] returns is what
    the Tavily block has kept. *)
Lemma search_all_platforms_without_key
    (tavily_client : Social.tavily) (post : request -> result Firecrawl.reply)
    (now : string) (environ : gmap string string) (query : string)
    (log log' : list request) (results : dict) :
  getenv_truthy environ "FIRECRWAL_API_KEY" = None ->
  Social.search_all_platforms tavily_client post now (Firecrawl.init environ) query log
  = (Ok results, log') ->
  log' = log /\
  exists platforms total q,
    results
    = Social.platform_results query now platforms total
      ++ [("success", VBool (bool_decide (platforms <> [])))] /\
    sublist platforms.*1 ["youtube"; "twitter"] /\
    Forall (fun entry => (0 < Social.reported_total entry.2)%Q) platforms /\
    as_number total = Some q /\ (q == Social.sum_reported platforms)%Q.
Proof.
  intros Hkey. unfold Social.search_all_platforms.
  unfold Firecrawl.is_available. rewrite (firecrawl_init_no_key _ Hkey).
  unfold mbind at 1, WebSailor.st_m_bind at 1, WebSailor.call at 1.
  destruct (Social.is_available tavily_client) as [available|]; [|done].
  assert (exists platforms total q,
            (if available
             then WebSailor.call
                    (Social.tavily_platforms tavily_client query
                       (Social.platform_results query now [] (VInt 0)))
             else mret (Social.platform_results query now [] (VInt 0))) log
            = (Ok (Social.platform_results query now platforms total), log) /\
            sublist platforms.*1 ["youtube"; "twitter"] /\
            Forall (fun entry => (0 < Social.reported_total entry.2)%Q) platforms /\
            as_number total = Some q /\ (q == Social.sum_reported platforms)%Q
          \/ exists e,
            (if available
             then WebSailor.call
                    (Social.tavily_platforms tavily_client query
                       (Social.platform_results query now [] (VInt 0)))
             else mret (Social.platform_results query now [] (VInt 0))) log
            = (Raise e, log)) as Hblock.
  { destruct available.
    - unfold WebSailor.call.
      destruct (Social.tavily_platforms tavily_client query _) as [kept|e] eqn:Htavily;
        [|by exists [], VNone, 0%Q; right; eauto].
      apply tavily_platforms_cases in Htavily
        as (platforms & total & q & -> & Hnames & Hpositive & Hq & Hsum).
      exists platforms, total, q. by left.
    - exists [], (VInt 0), (inject_Z 0). left. split; [done|].
      split; [apply sublist_nil_l|]. done. }
  unfold mbind at 1, WebSailor.st_m_bind at 1.
  change [("query", VStr query); ("platforms", VDict []); ("total_results", VInt 0);
          ("search_quality", VStr "real_data"); ("generated_at", VStr now)]
    with (Social.platform_results query now [] (VInt 0)).
  destruct Hblock as (platforms & total & q & [(-> & Hnames & Hpositive & Hq & Hsum)
                                              |(e & ->)]); [|done].
  unfold mbind, WebSailor.st_m_bind, WebSailor.call. cbn [mret WebSailor.st_m_ret].
  pose proof (search_all_platforms_finish query now platforms total q Hpositive Hq Hsum)
    as Hfinish.
  unfold mbind, result_bind in Hfinish.
  destruct (dindex "total_results" _) as [found|]; [|done].
  injection Hfinish as Hfinish. intros [= <- <-]. split; [done|].
  exists platforms, total, q. by rewrite Hfinish.
Qed.

(** X20.  When [search_all_platforms] returns, Firecrawl is not configured
    and nothing was posted to it; the platforms of the result are among
    [youtube] and [twitter], in that order, each with a positive
    [total_results]; [total_results] of the result is the sum of theirs, and
    [success] says that at least one platform was kept. *)
Theorem search_all_platforms_returns_tavily_platforms
    (tavily_client : Social.tavily) (post : request -> result Firecrawl.reply)
    (now : string) (environ : gmap string string) (query : string)
    (log log' : list request) (results : dict) :
  Social.search_all_platforms tavily_client post now (Firecrawl.init environ) query log
  = (Ok results, log') ->
  getenv_truthy environ "FIRECRWAL_API_KEY" = None /\ log' = log /\
  exists platforms total q,
    results
    = Social.platform_results query now platforms total
      ++ [("success", VBool (bool_decide (platforms <> [])))] /\
    sublist platforms.*1 ["youtube"; "twitter"] /\
    Forall (fun entry => (0 < Social.reported_total entry.2)%Q) platforms /\
    as_number total = Some q /\ (q == Social.sum_reported platforms)%Q.
Proof.
  intros Hrun.
  destruct (getenv_truthy environ "FIRECRWAL_API_KEY") as [key|] eqn:Hkey.
  - destruct (search_all_platforms_with_key_raises tavily_client post now environ key
                Hkey query log) as (e & log0 & He).
    rewrite Hrun in He. done.
  - split; [done|].
    exact (search_all_platforms_without_key tavily_client post now environ query log
             log' results Hkey Hrun).
Qed.


Lemma search_all_platforms_returns_tavily_platforms_witness :
  exists platforms total,
    fst (Social.search_all_platforms Social.sample_tavily Social.sample_post_service
           "2025-01-01T00:00:00" (Firecrawl.init sample_environ) "energy drinks" [])
    = Ok (Social.platform_results "energy drinks" "2025-01-01T00:00:00" platforms total
          ++ [("success", VBool (bool_decide (platforms <> [])))]) /\
    sublist platforms.*1 ["youtube"; "twitter"].
Proof.
  set (run := Social.search_all_platforms Social.sample_tavily
                Social.sample_post_service "2025-01-01T00:00:00"
                (Firecrawl.init sample_environ) "energy drinks" []).
  destruct (search_all_platforms_returns_tavily_platforms Social.sample_tavily
              Social.sample_post_service "2025-01-01T00:00:00" sample_environ
              "energy drinks" [] (snd run)
              (match fst run with Ok results => results | Raise _ => [] end)
              ltac:(vm_compute; reflexivity))
    as (_ & _ & platforms & total & q & Hresults & Hnames & _).
  exists platforms, total. split; [|exact Hnames].
  rewrite <- Hresults. vm_compute. reflexivity.
Defined.

(** X21.  The social phase of the massive collection, run on this extractor.
    With a usable [FIRECRWAL_API_KEY] the phase always fails.  When it
    succeeds, it reports one or two platforms, among [youtube] and
    [twitter], never Instagram or Facebook, and [total_posts] is the total
    of the extractor; when it fails, [total_posts] is 0 and
    [all_platforms_data] has no platform. *)
Theorem social_phase_of_the_extractor
    (c : Collector.collaborators) (tavily_client : Social.tavily)
    (post : request -> result Firecrawl.reply) (now : string)
    (environ : gmap string string) (query : string) :
  let phase :=
    Collector.social_phase
      (Social.with_extractor c tavily_client post now (Firecrawl.init environ)) query in
  (getenv_truthy environ "FIRECRWAL_API_KEY" <> None ->
   dget "success" phase = Some (VBool false)) /\
  ((dget "success" phase = Some (VBool true) /\
    exists platforms total,
      platforms <> [] /\ sublist platforms.*1 ["youtube"; "twitter"] /\
      dget "all_platforms_data" phase
      = Some (VDict (Social.platform_results query now platforms total
                     ++ [("success", VBool true)])) /\
      dget "total_posts" phase = Some total /\
      dget "platforms_analyzed" phase = Some (VInt (Z.of_nat (length platforms)))) \/
   (dget "success" phase = Some (VBool false) /\
    dget "total_posts" phase = Some (VInt 0) /\
    dget "all_platforms_data" phase = Some (VDict [("platforms", VDict [])]))).
Proof.
  intros phase. subst phase. unfold Collector.social_phase.
  cbn [Collector.search_all_platforms Social.with_extractor].
  unfold Social.awaited_search_all_platforms.
  destruct (Social.search_all_platforms tavily_client post now (Firecrawl.init environ)
              query []) as [[results|e] log'] eqn:Hrun; cbn [fst mbind result_bind].
  2:{ split; [done|]. by right. }
  destruct (getenv_truthy environ "FIRECRWAL_API_KEY") as [key|] eqn:Hkey.
  { destruct (search_all_platforms_with_key_raises tavily_client post now environ key
                Hkey query []) as (e & log0 & He).
    rewrite Hrun in He. done. }
  split; [done|].
  destruct (search_all_platforms_without_key tavily_client post now environ query []
              log' results Hkey Hrun)
    as (_ & platforms & total & q & -> & Hnames & _).
  cbn. destruct (decide (platforms = [])) as [->|Hne].
  - right. done.
  - left. rewrite bool_decide_eq_true_2 by done. cbn. split; [done|].
    exists platforms, total. done.
Qed.
